(** * DKMV Analyzer: the panel/webview message protocol and the
      result-rendering state machine

    A shallow embedding of the two TypeScript sources of the extension:

    - [src/webview/App.tsx], the Display Surface (module [App]): the React
      state, the message handler, the button and input handlers, the score
      effect with its interval, and the loop that runs them;
    - the extension host entry point, the Host Controller (module
      [Extension]): the command [dkmv.analyzeSelection] and the handler of
      the messages the webview posts.

    Around these two: the extension as it runs, with its one panel
    (module [Host]); what the view derives from the state, namely the file
    name, the line count and the tab buttons (module [View]); the
    clipboard helpers (module [Clipboard]); and the nonce of the webview's
    scripts (module [Nonce]).  The JSX that draws the state and the HTML
    template of the webview change no state and send no message; they are
    not embedded.

    JavaScript numbers are IEEE 754 binary64 values; they are embedded as
    Rocq's primitive [float], which is the same format with a single NaN,
    so the arithmetic of the sources is computed bit for bit.  Strings are
    byte strings; the user-facing Korean messages are kept as the UTF-8
    bytes of the source.  What the runtime supplies and the sources only
    call ([Number], [String.prototype.trim], [fetch]) is a section variable.

    The file has three parts: the embedding (modules [Js], [Protocol],
    [App], [Extension], [Host], [View], [Clipboard], [Nonce]), the
    vocabulary of the properties (modules [Spec] and [Terms]), and the
    properties with their proofs. *)

From Stdlib Require Import ZArith Floats Uint63 List Bool String Ascii Lia.
From Stdlib Require Import DecimalString.
Import ListNotations.

Set Warnings "-inexact-float,-register-all".

Local Open Scope string_scope.
Local Open Scope float_scope.

(* ================================================================== *)
(** * The JavaScript runtime, as far as the sources use it *)
(* ================================================================== *)

Module Js.

(** ** Values

    An object or array carries the identity ([ref]) of the heap cell it
    lives in: two structurally equal objects delivered by two different
    messages are different references, and React compares effect
    dependencies by reference. *)
Inductive JsValue : Type :=
| JUndefined
| JNull
| JBool (b : bool)
| JNumber (x : float)
| JString (s : string)
| JArray (ref : nat) (items : list JsValue)
| JObject (ref : nat) (props : list (string * JsValue)).

(** [typeof v]. *)
Definition typeof (v : JsValue) : string :=
  match v with
  | JUndefined => "undefined"
  | JNull => "object"
  | JBool _ => "boolean"
  | JNumber _ => "number"
  | JString _ => "string"
  | JArray _ _ => "object"
  | JObject _ _ => "object"
  end.

(** [ToBoolean]: what [!v], [v && ...] and [v ? a : b] test. *)
Definition truthy (v : JsValue) : bool :=
  match v with
  | JUndefined | JNull => false
  | JBool b => b
  | JNumber x => negb (is_nan x || PrimFloat.is_zero x)
  | JString s => negb (s =? "")%string
  | JArray _ _ | JObject _ _ => true
  end.

(** [a ?? b]. *)
Definition nullish (v : JsValue) : bool :=
  match v with JUndefined | JNull => true | _ => false end.

Definition coalesce (a b : JsValue) : JsValue := if nullish a then b else a.

(** Property read [v.key] on a value that is neither [null] nor
    [undefined]: an own property of an object, [undefined] otherwise (none
    of the keys the sources read is defined on a prototype). *)
Fixpoint lookup (key : string) (props : list (string * JsValue)) : JsValue :=
  match props with
  | [] => JUndefined
  | (k, v) :: rest => if (k =? key)%string then v else lookup key rest
  end.

Definition get (v : JsValue) (key : string) : JsValue :=
  match v with
  | JObject _ props => lookup key props
  | _ => JUndefined
  end.

(** [Object.is], React's comparison of effect dependencies. *)
Definition Object_is (a b : JsValue) : bool :=
  match a, b with
  | JUndefined, JUndefined => true
  | JNull, JNull => true
  | JBool x, JBool y => Bool.eqb x y
  | JNumber x, JNumber y => PrimFloat.Leibniz.eqb x y
  | JString x, JString y => (x =? y)%string
  | JArray r _, JArray r' _ => Nat.eqb r r'
  | JObject r _, JObject r' _ => Nat.eqb r r'
  | _, _ => false
  end.

(** ** Numbers *)

(** The number whose value is the integer [n] (exact for |n| < 2^53). *)
Definition of_Z (n : Z) : float :=
  match n with
  | Z0 => 0
  | Zpos _ => of_uint63 (Uint63.of_Z n)
  | Zneg p => - of_uint63 (Uint63.of_Z (Zpos p))
  end.

(** [a > b] and [a >= b] are [b < a] and [b <= a]; all four are false
    when either side is NaN. *)
Definition gtb (a b : float) : bool := b <? a.
Definition geb (a b : float) : bool := b <=? a.

(** [Number.isNaN]. *)
Definition Number_isNaN (x : float) : bool := is_nan x.

(** [Math.round x]: the integral number closest to [x], ties towards
    +infinity; NaN, the infinities and the zeros are returned unchanged, and
    a result of zero keeps the sign of [x].  A finite non-zero double is
    [(-1)^sg * m * 2^e]; with [e >= 0] it is integral already, otherwise
    the result is [floor (x + 1/2)], computed exactly. *)
Definition Math_round (x : float) : float :=
  match Prim2SF x with
  | S754_finite sg m e =>
      if (0 <=? e)%Z then x
      else
        let d := (2 ^ (- e))%Z in
        let n := ((2 * (if sg then Zneg m else Zpos m) + d) / (2 * d))%Z in
        if (n =? 0)%Z then (if sg then -0 else 0) else of_Z n
  | _ => x
  end.

(** [Math.min a b] and [Math.max a b]: NaN if either is NaN, and -0 is
    smaller than +0. *)
Definition Math_min (a b : float) : float :=
  if is_nan a || is_nan b then nan
  else if a <? b then a
  else if b <? a then b
  else if get_sign a then a else b.

Definition Math_max (a b : float) : float :=
  if is_nan a || is_nan b then nan
  else if a <? b then b
  else if b <? a then a
  else if get_sign a then b else a.

(** [String(n)] for a non-negative integer, used by template literals. *)
Definition string_of_nat (n : nat) : string :=
  NilZero.string_of_uint (Nat.to_uint n).

End Js.

Import Js.

(* ================================================================== *)
(** * The message protocol between the two components *)
(* ================================================================== *)

Module Protocol.

Inductive Mode := selection | document.

(** Payload of [NEW_CODE]. *)
Module NewCode.
Record payload : Type := mk {
  code : string;
  fileName : string;
  filePath : string;
  languageId : string;
  mode : Mode
}.
End NewCode.

(** Controller -> Surface: the [IncomingMessage] union of [App.tsx].
    [OTHER] stands for its last alternative, a message whose [type] is none
    of the four named ones. *)
Inductive IncomingMessage : Type :=
| NEW_CODE (payload : NewCode.payload)
| ANALYZE_PROGRESS (payload : string)
| ANALYZE_RESULT (payload : JsValue)
| ANALYZE_ERROR (payload : string)
| OTHER (type : string) (payload : JsValue).

(** Surface -> Controller: an object [{type, payload?}] whose payload, when
    there is one, has the optional fields the controller reads. *)
Module Request.
Record payload : Type := mk {
  code : option string;
  filePath : option string;
  languageId : option string;
  model : option string
}.
End Request.

Record WebviewMessage : Type := {
  type : string;
  payload : option Request.payload
}.

End Protocol.

Import Protocol.

(* ================================================================== *)
(** * The Display Surface: [src/webview/App.tsx] *)
(* ================================================================== *)

Module App.

Record ScoreCategories : Type := {
  bug : float;
  maintainability : float;
  style : float;
  security : float
}.

Definition EMPTY_CATEGORIES : ScoreCategories :=
  {| bug := 0; maintainability := 0; style := 0; security := 0 |}.

Inductive TabId := tab_code | tab_result.

(** The component's [useState] cells, in the order of the source. *)
Record State : Type := mkState {
  code : string;
  filePath : string;
  languageId : string;
  mode : option Mode;
  isLoading : bool;
  activeTab : TabId;
  resultMessage : string;
  resultData : JsValue;
  codeHighlight : bool;
  resultHighlight : bool;
  hasNewResult : bool;
  isError : bool;
  selectedModel : string;
  modelError : bool;
  displayOverallScore : float;
  displayCategoryScores : ScoreCategories
}.

Definition initialState : State := {|
  code := "";
  filePath := "";
  languageId := "plaintext";
  mode := None;
  isLoading := false;
  activeTab := tab_code;
  resultMessage := "분석 결과가 이 영역에 표시됩니다.";
  resultData := JNull;
  codeHighlight := false;
  resultHighlight := false;
  hasNewResult := false;
  isError := false;
  selectedModel := "";
  modelError := false;
  displayOverallScore := 0;
  displayCategoryScores := EMPTY_CATEGORIES
|}.

(** The state setters.  A handler's calls are applied in order to the state
    it started from; [s |> setA a |> setB b] is [setA(a); setB(b)]. *)
Definition setCode v s :=
  mkState v (filePath s) (languageId s) (mode s) (isLoading s) (activeTab s)
    (resultMessage s) (resultData s) (codeHighlight s) (resultHighlight s)
    (hasNewResult s) (isError s) (selectedModel s) (modelError s)
    (displayOverallScore s) (displayCategoryScores s).
Definition setFilePath v s :=
  mkState (code s) v (languageId s) (mode s) (isLoading s) (activeTab s)
    (resultMessage s) (resultData s) (codeHighlight s) (resultHighlight s)
    (hasNewResult s) (isError s) (selectedModel s) (modelError s)
    (displayOverallScore s) (displayCategoryScores s).
Definition setLanguageId v s :=
  mkState (code s) (filePath s) v (mode s) (isLoading s) (activeTab s)
    (resultMessage s) (resultData s) (codeHighlight s) (resultHighlight s)
    (hasNewResult s) (isError s) (selectedModel s) (modelError s)
    (displayOverallScore s) (displayCategoryScores s).
Definition setMode v s :=
  mkState (code s) (filePath s) (languageId s) v (isLoading s) (activeTab s)
    (resultMessage s) (resultData s) (codeHighlight s) (resultHighlight s)
    (hasNewResult s) (isError s) (selectedModel s) (modelError s)
    (displayOverallScore s) (displayCategoryScores s).
Definition setIsLoading v s :=
  mkState (code s) (filePath s) (languageId s) (mode s) v (activeTab s)
    (resultMessage s) (resultData s) (codeHighlight s) (resultHighlight s)
    (hasNewResult s) (isError s) (selectedModel s) (modelError s)
    (displayOverallScore s) (displayCategoryScores s).
Definition setActiveTab v s :=
  mkState (code s) (filePath s) (languageId s) (mode s) (isLoading s) v
    (resultMessage s) (resultData s) (codeHighlight s) (resultHighlight s)
    (hasNewResult s) (isError s) (selectedModel s) (modelError s)
    (displayOverallScore s) (displayCategoryScores s).
Definition setResultMessage v s :=
  mkState (code s) (filePath s) (languageId s) (mode s) (isLoading s)
    (activeTab s) v (resultData s) (codeHighlight s) (resultHighlight s)
    (hasNewResult s) (isError s) (selectedModel s) (modelError s)
    (displayOverallScore s) (displayCategoryScores s).
Definition setResultData v s :=
  mkState (code s) (filePath s) (languageId s) (mode s) (isLoading s)
    (activeTab s) (resultMessage s) v (codeHighlight s) (resultHighlight s)
    (hasNewResult s) (isError s) (selectedModel s) (modelError s)
    (displayOverallScore s) (displayCategoryScores s).
Definition setCodeHighlight v s :=
  mkState (code s) (filePath s) (languageId s) (mode s) (isLoading s)
    (activeTab s) (resultMessage s) (resultData s) v (resultHighlight s)
    (hasNewResult s) (isError s) (selectedModel s) (modelError s)
    (displayOverallScore s) (displayCategoryScores s).
Definition setResultHighlight v s :=
  mkState (code s) (filePath s) (languageId s) (mode s) (isLoading s)
    (activeTab s) (resultMessage s) (resultData s) (codeHighlight s) v
    (hasNewResult s) (isError s) (selectedModel s) (modelError s)
    (displayOverallScore s) (displayCategoryScores s).
Definition setHasNewResult v s :=
  mkState (code s) (filePath s) (languageId s) (mode s) (isLoading s)
    (activeTab s) (resultMessage s) (resultData s) (codeHighlight s)
    (resultHighlight s) v (isError s) (selectedModel s) (modelError s)
    (displayOverallScore s) (displayCategoryScores s).
Definition setIsError v s :=
  mkState (code s) (filePath s) (languageId s) (mode s) (isLoading s)
    (activeTab s) (resultMessage s) (resultData s) (codeHighlight s)
    (resultHighlight s) (hasNewResult s) v (selectedModel s) (modelError s)
    (displayOverallScore s) (displayCategoryScores s).
Definition setSelectedModel v s :=
  mkState (code s) (filePath s) (languageId s) (mode s) (isLoading s)
    (activeTab s) (resultMessage s) (resultData s) (codeHighlight s)
    (resultHighlight s) (hasNewResult s) (isError s) v (modelError s)
    (displayOverallScore s) (displayCategoryScores s).
Definition setModelError v s :=
  mkState (code s) (filePath s) (languageId s) (mode s) (isLoading s)
    (activeTab s) (resultMessage s) (resultData s) (codeHighlight s)
    (resultHighlight s) (hasNewResult s) (isError s) (selectedModel s) v
    (displayOverallScore s) (displayCategoryScores s).
Definition setDisplayOverallScore v s :=
  mkState (code s) (filePath s) (languageId s) (mode s) (isLoading s)
    (activeTab s) (resultMessage s) (resultData s) (codeHighlight s)
    (resultHighlight s) (hasNewResult s) (isError s) (selectedModel s)
    (modelError s) v (displayCategoryScores s).
Definition setDisplayCategoryScores v s :=
  mkState (code s) (filePath s) (languageId s) (mode s) (isLoading s)
    (activeTab s) (resultMessage s) (resultData s) (codeHighlight s)
    (resultHighlight s) (hasNewResult s) (isError s) (selectedModel s)
    (modelError s) (displayOverallScore s) v.

Notation "s |> f" := (f s) (at level 45, left associativity, only parsing).

(** [flashCodeHighlight] and [flashResultHighlight] raise a cue and arm a
    350 ms timeout that lowers it again; the timeouts are the events
    [CodeHighlightTimeout] and [ResultHighlightTimeout] below. *)
Definition flashCodeHighlight (s : State) : State := s |> setCodeHighlight true.
Definition flashResultHighlight (s : State) : State := s |> setResultHighlight true.

Section Component.

(** The runtime's [Number(v)] (ToNumber) on a value that is not a number,
    and [String.prototype.trim]. *)
Variable ToNumber : JsValue -> float.
Variable trim : string -> string.

(** [vscode]: whether [window.acquireVsCodeApi] existed when the module was
    loaded ([false] is the source's [null]). *)
Variable vscode : bool.

(** Lines 97-100 of [clampScore]: the scaling, the clamp and the rounding of
    a value that is a number by now. *)
Definition clampNumber (s : float) : float :=
  let s := if geb s 0 && (s <=? 1) then s * 100 else s in
  let s := if s <? 0 then 0 else s in
  let s := if gtb s 100 then 100 else s in
  Math_round s.

(** [typeof s !== "number"] holds of every value but a [JNumber]. *)
Definition clampScore (s : JsValue) : float :=
  match s with
  | JNumber s => clampNumber s
  | _ =>
      let parsed := ToNumber s in
      if Number_isNaN parsed then 0 else clampNumber parsed
  end.

Definition getScoreLabel (score : float) : string * string :=
  if geb score 90 then ("Excellent", "#a3e635")
  else if geb score 70 then ("Good", "#4ade80")
  else if geb score 40 then ("Okay", "#fbbf24")
  else if gtb score 0 then ("Needs Work", "#f97373")
  else ("—", "#6b7280").

(** ** The message handler (the first [useEffect]) *)

Definition onMessage (data : option IncomingMessage) (s : State) : State :=
  match data with
  | None => s
  | Some (NEW_CODE payload) =>
      s |> setCode (NewCode.code payload)
        |> setFilePath (NewCode.filePath payload)
        |> setLanguageId (NewCode.languageId payload)
        |> setMode (Some (NewCode.mode payload))
        |> setIsLoading false
        |> setResultData JNull
        |> setResultMessage
             "코드를 받았습니다. 모델을 선택한 뒤 [분석] 버튼 또는 Ctrl+Enter로 리뷰를 시작하세요."
        |> setDisplayOverallScore 0
        |> setDisplayCategoryScores EMPTY_CATEGORIES
        |> setActiveTab tab_code
        |> flashCodeHighlight
        |> setHasNewResult false
        |> setIsError false
  | Some (ANALYZE_PROGRESS payload) =>
      s |> setIsLoading true
        |> setResultMessage
             (if (payload =? "")%string then "모델이 코드를 읽고 있습니다..."
              else payload)
        |> setActiveTab tab_result
        |> setIsError false
  | Some (ANALYZE_ERROR payload) =>
      s |> setIsLoading false
        |> setResultData JNull
        |> setResultMessage ("오류 발생: " ++ payload)
        |> setDisplayOverallScore 0
        |> setDisplayCategoryScores EMPTY_CATEGORIES
        |> setActiveTab tab_result
        |> setIsError true
        |> setHasNewResult false
  | Some (ANALYZE_RESULT payload) =>
      s |> setIsLoading false
        |> setResultData payload
        |> setResultMessage "분석이 완료되었습니다."
        |> setActiveTab tab_result
        |> flashResultHighlight
        |> setHasNewResult true
        |> setIsError false
  | Some (OTHER _ _) => s
  end.

(** ** The button and input handlers

    A handler returns the next state and the messages it hands to
    [vscode.postMessage], in order. *)

Definition handleLoadFullDocument (s : State) : State * list WebviewMessage :=
  (s |> setResultMessage "현재 파일 전체 가져오기는 추후 구현 예정입니다."
     |> setIsError false
     |> setHasNewResult false,
   []).

Definition handleAnalyze (s : State) : State * list WebviewMessage :=
  if (trim (code s) =? "")%string then
    (s |> setResultMessage
            "분석할 코드가 없습니다. VS Code에서 코드를 선택 후 실행하거나 왼쪽에 코드를 붙여넣어 주세요."
       |> setResultData JNull
       |> setDisplayOverallScore 0
       |> setDisplayCategoryScores EMPTY_CATEGORIES
       |> setIsError false
       |> setHasNewResult false,
     [])
  else if (selectedModel s =? "")%string then
    (s |> setResultMessage "사용할 모델을 먼저 선택해 주세요."
       |> setResultData JNull
       |> setDisplayOverallScore 0
       |> setDisplayCategoryScores EMPTY_CATEGORIES
       |> setIsError true
       |> setHasNewResult false
       |> setModelError true,
     [])
  else if negb vscode then
    (s |> setResultMessage "VS Code API를 사용할 수 없습니다."
       |> setResultData JNull
       |> setDisplayOverallScore 0
       |> setDisplayCategoryScores EMPTY_CATEGORIES
       |> setIsError true
       |> setHasNewResult false,
     [])
  else
    (s |> setIsLoading true
       |> setResultMessage "리뷰 요청을 준비 중입니다..."
       |> setIsError false
       |> setHasNewResult false
       |> setActiveTab tab_result,
     [ {| type := "REQUEST_ANALYZE";
          payload := Some {| Request.code := Some (code s);
                             Request.filePath := Some (filePath s);
                             Request.languageId := Some (languageId s);
                             Request.model := Some (selectedModel s) |} |} ]).

Definition handleCodeKeyDown (ctrlKey metaKey : bool) (key : string)
    (s : State) : State * list WebviewMessage :=
  if (ctrlKey || metaKey) && (key =? "Enter")%string then
    if negb (isLoading s) then handleAnalyze s else (s, [])
  else (s, []).

Definition handleCodeChange (value : string) (s : State) : State :=
  s |> setCode value |> flashCodeHighlight.

(** The model [<select>]'s [onChange]. *)
Definition onModelChange (value : string) (s : State) : State :=
  s |> setSelectedModel value |> setModelError false |> setIsError false.

(** A tab button's [onClick] ([renderTabButton]). *)
Definition onTabClick (id : TabId) (s : State) : State :=
  let isActive := match activeTab s, id with
                  | tab_code, tab_code | tab_result, tab_result => true
                  | _, _ => false
                  end in
  let disabled := isLoading s && negb isActive in
  if disabled then s
  else
    let s := s |> setActiveTab id in
    match id with
    | tab_result => s |> setHasNewResult false
    | tab_code => s
    end.

(** ** The score effect (the second [useEffect], dependency [resultData]) *)

Definition duration : float := 500.
Definition frameMs : float := 16.
Definition steps : float := Math_max 1 (Math_round (duration / frameMs)).

(** What the interval callback closes over: the two targets and the
    mutable counter [currentStep]. *)
Record Animation : Type := {
  targetOverall : float;
  targetCategories : ScoreCategories;
  currentStep : float
}.

Definition smoothstep (t : float) : float := t * t * (3 - 2 * t).

(** The effect body: the next state and the interval it leaves running
    ([None] on the early return, which starts none). *)
Definition scoreEffect (s : State) : State * option Animation :=
  let resultData := resultData s in
  if negb (truthy resultData) then
    (s |> setDisplayOverallScore 0
       |> setDisplayCategoryScores EMPTY_CATEGORIES,
     None)
  else
    let rawOverall := get resultData "quality_score" in
    let scoresByCategory :=
      coalesce (get resultData "scores_by_category") (JObject 0 []) in
    let targetOverall := clampScore rawOverall in
    let targetCategories :=
      {| bug := clampScore (get scoresByCategory "bug");
         maintainability := clampScore (get scoresByCategory "maintainability");
         style := clampScore (get scoresByCategory "style");
         security := clampScore (get scoresByCategory "security") |} in
    (s |> setDisplayOverallScore 0
       |> setDisplayCategoryScores EMPTY_CATEGORIES,
     Some {| targetOverall := targetOverall;
             targetCategories := targetCategories;
             currentStep := 0 |}).

(** The [setInterval] callback: the next state and the interval, cleared
    ([None]) once [t >= 1]. *)
Definition intervalCallback (a : Animation) (s : State)
    : State * option Animation :=
  let currentStep := currentStep a + 1 in
  let t := Math_min 1 (currentStep / steps) in
  let ease := smoothstep t in
  let s :=
    s |> setDisplayOverallScore (Math_round (targetOverall a * ease))
      |> setDisplayCategoryScores
           {| bug := Math_round (bug (targetCategories a) * ease);
              maintainability :=
                Math_round (maintainability (targetCategories a) * ease);
              style := Math_round (style (targetCategories a) * ease);
              security := Math_round (security (targetCategories a) * ease) |} in
  (s,
   if geb t 1 then None
   else Some {| targetOverall := targetOverall a;
                targetCategories := targetCategories a;
                currentStep := currentStep |}).

(** ** The running component

    The React state, the live interval of the score effect (if any) and the
    messages posted to the controller so far, oldest first. *)
Record Surface : Type := {
  state : State;
  interval : option Animation;
  posted : list WebviewMessage
}.

Inductive Event : Type :=
| WindowMessage (data : option IncomingMessage)
| AnalyzeClick
| CodeKeyDown (ctrlKey metaKey : bool) (key : string)
| LoadFullDocumentClick
| CodeChange (value : string)
| ModelChange (value : string)
| TabClick (id : TabId)
| IntervalTick
| CodeHighlightTimeout
| ResultHighlightTimeout.

Definition update (f : State -> State) (w : Surface) : Surface :=
  {| state := f (state w); interval := interval w; posted := posted w |}.

Definition perform (h : State -> State * list WebviewMessage) (w : Surface)
    : Surface :=
  let '(s, out) := h (state w) in
  {| state := s; interval := interval w; posted := posted w ++ out |}.

(** The handler an event runs.  The analyze button is [disabled] while
    loading, and a tick fires only while the interval is live. *)
Definition dispatch (e : Event) (w : Surface) : Surface :=
  match e with
  | WindowMessage data => update (onMessage data) w
  | AnalyzeClick =>
      if isLoading (state w) then w else perform handleAnalyze w
  | CodeKeyDown ctrlKey metaKey key =>
      perform (handleCodeKeyDown ctrlKey metaKey key) w
  | LoadFullDocumentClick => perform handleLoadFullDocument w
  | CodeChange value => update (handleCodeChange value) w
  | ModelChange value => update (onModelChange value) w
  | TabClick id => update (onTabClick id) w
  | IntervalTick =>
      match interval w with
      | None => w
      | Some a =>
          let '(s, i) := intervalCallback a (state w) in
          {| state := s; interval := i; posted := posted w |}
      end
  | CodeHighlightTimeout => update (setCodeHighlight false) w
  | ResultHighlightTimeout => update (setResultHighlight false) w
  end.

(** After the handler React renders again and, when [resultData] is not
    the value ([Object.is]) the score effect last ran with, runs the
    effect's cleanup (which clears the interval) and then the effect. *)
Definition commit (previous : JsValue) (w : Surface) : Surface :=
  if Object_is previous (resultData (state w)) then w
  else
    let '(s, i) := scoreEffect (state w) in
    {| state := s; interval := i; posted := posted w |}.

Definition step (e : Event) (w : Surface) : Surface :=
  commit (resultData (state w)) (dispatch e w).

(** The component once mounted: the effect has run on the initial state. *)
Definition mount : Surface :=
  let '(s, i) := scoreEffect initialState in
  {| state := s; interval := i; posted := [] |}.

Definition run (events : list Event) (w : Surface) : Surface :=
  fold_left (fun w e => step e w) events w.

End Component.

End App.

(* ================================================================== *)
(** * The Host Controller: the extension entry point *)
(* ================================================================== *)

Module Extension.

Definition API_BASE : string := "http://18.205.229.159:8001".
Definition REVIEW_API_URL : string := API_BASE ++ "/api/v1/review/".

(** ** The editor and the network, as the controller sees them *)

(** [vscode.window.activeTextEditor], when there is one. *)
Record TextEditor : Type := {
  selection_isEmpty : bool;
  selection_text : string;       (* document.getText(selection) *)
  document_text : string;        (* document.getText() *)
  document_fsPath : string;      (* document.uri.fsPath *)
  document_languageId : string;
  document_fileName : string
}.

(** A thrown value: an [Error] with its message, or anything else. *)
Inductive Thrown : Type :=
| ErrorObject (message : string)
| NotAnError (value : JsValue).

Inductive Outcome (A : Type) : Type :=
| Returned (a : A)
| Threw (t : Thrown).
Arguments Returned {A} a.
Arguments Threw {A} t.

(** The JSON body of the review request; [model] is the optional field. *)
Record ReviewBody : Type := {
  code_snippet : string;
  language : string;
  file_path : string;
  model : option string
}.

Record FetchInit : Type := {
  method : string;
  headers : list (string * string);
  body : ReviewBody              (* JSON.stringify(body) *)
}.

(** A [Response]: its status and what awaiting [text()] and [json()]
    yields. *)
Record Response : Type := {
  status : nat;
  text : Outcome string;
  json : Outcome JsValue
}.

(** [response.ok]: the status is in the range 200-299. *)
Definition ok (r : Response) : bool :=
  (200 <=? status r)%nat && (status r <=? 299)%nat.

(** ** What the controller does to the outside *)

(** [PostMessage m] is the call [panel?.webview.postMessage(m)] (in the
    command, [panel.webview.postMessage(m)]) on the module's panel. *)
Inductive Action : Type :=
| ShowInformationMessage (message : string)
| CreateWebviewPanel
| Reveal
| PostMessage (m : IncomingMessage)
| Fetch (url : string) (init : FetchInit).

(** ** Handlers that post, fetch and throw

    An [async] body is run to completion: it yields the actions it performs,
    in order, and either returns or throws. *)
Definition M (A : Type) : Type := list Action * Outcome A.

Definition ret {A} (a : A) : M A := ([], Returned a).

Definition bind {A B} (m : M A) (k : A -> M B) : M B :=
  match m with
  | (acts, Returned a) => let '(acts', r) := k a in ((acts ++ acts')%list, r)
  | (acts, Threw t) => (acts, Threw t)
  end.

Definition throw {A} (t : Thrown) : M A := ([], Threw t).

Definition try_catch {A} (m : M A) (handler : Thrown -> M A) : M A :=
  match m with
  | (acts, Returned a) => (acts, Returned a)
  | (acts, Threw t) => let '(acts', r) := handler t in ((acts ++ acts')%list, r)
  end.

Definition perform (a : Action) : M unit := ([a], Returned tt).

Definition await {A} (o : Outcome A) : M A := ([], o).

Notation "x <- m ;; k" := (bind m (fun x => k))
  (at level 61, m at next level, right associativity).
Notation "m ;; k" := (bind m (fun _ => k))
  (at level 61, right associativity).

Definition actions {A} (m : M A) : list Action := fst m.

Section Controller.

Variable trim : string -> string.

(** The network: what awaiting [fetch(url, init)] yields. *)
Variable network : string -> FetchInit -> Outcome Response.

Definition fetch (url : string) (init : FetchInit) : M Response :=
  perform (Fetch url init) ;; await (network url init).

(** The module-level [panel], with what its message handler closed over
    when the command created it. *)
Record Panel : Type := {
  filePath : string;
  languageId : string
}.

Definition orElse {A} (o : option A) (d : A) : A :=
  match o with Some a => a | None => d end.

(** The handler given to [panel.webview.onDidReceiveMessage]; [None] is a
    message that is falsy or not an object. *)
Definition onDidReceiveMessage (closure : Panel)
    (activeTextEditor : option TextEditor)
    (message : option WebviewMessage) : M unit :=
  match message with
  | None => ret tt
  | Some message =>
      if (type message =? "REQUEST_FULL_DOCUMENT")%string then
        match activeTextEditor with
        | None => perform (PostMessage (ANALYZE_ERROR "열려 있는 파일이 없습니다."))
        | Some active =>
            let fullCode := document_text active in
            if (trim fullCode =? "")%string then
              perform (PostMessage (ANALYZE_ERROR "현재 파일이 비어 있습니다."))
            else
              perform (PostMessage (NEW_CODE
                {| NewCode.code := fullCode;
                   NewCode.fileName := document_fileName active;
                   NewCode.filePath := document_fsPath active;
                   NewCode.languageId := document_languageId active;
                   NewCode.mode := document |}))
        end
      else if (type message =? "REQUEST_ANALYZE")%string then
        let payload :=
          orElse (payload message) (Request.mk None None None None) in
        let codeSnippet := orElse (Request.code payload) "" in
        if (trim codeSnippet =? "")%string then
          perform (PostMessage (ANALYZE_ERROR "분석할 코드가 비어 있습니다."))
        else
          let filePathForReq := orElse (Request.filePath payload) (filePath closure) in
          let languageForReq :=
            orElse (Request.languageId payload) (languageId closure) in
          let modelForReq := Request.model payload in
          try_catch
            (perform (PostMessage
               (ANALYZE_PROGRESS "DKMV LLM에 코드 분석을 요청 중입니다...")) ;;
             let body :=
               {| code_snippet := codeSnippet;
                  language := languageForReq;
                  file_path := filePathForReq;
                  model := match modelForReq with
                           | Some m => if (m =? "")%string then None else Some m
                           | None => None
                           end |} in
             response <- fetch REVIEW_API_URL
               {| method := "POST";
                  headers := [("Content-Type", "application/json")];
                  body := body |} ;;
             if negb (ok response) then
               text <- await (text response) ;;
               throw (ErrorObject
                 ("HTTP " ++ string_of_nat (status response) ++ ": " ++ text))
             else
               data <- await (json response) ;;
               perform (PostMessage (ANALYZE_RESULT data)))
            (fun error =>
               let messageText :=
                 match error with
                 | ErrorObject message => message
                 | NotAnError _ => "서버 요청 중 알 수 없는 오류가 발생했습니다."
                 end in
               perform (PostMessage (ANALYZE_ERROR messageText)))
      else ret tt
  end.

(** The command [dkmv.analyzeSelection]: the panel afterwards and the
    actions performed. *)
Definition analyzeSelection (activeTextEditor : option TextEditor)
    (panel : option Panel) : option Panel * list Action :=
  match activeTextEditor with
  | None => (panel, [ShowInformationMessage "열려 있는 파일이 없습니다."])
  | Some editor =>
      let hasSelection := negb (selection_isEmpty editor) in
      let code :=
        if hasSelection then selection_text editor else document_text editor in
      if (trim code =? "")%string then
        (panel, [ShowInformationMessage "분석할 코드가 비어 있습니다."])
      else
        let filePath := document_fsPath editor in
        let languageId := document_languageId editor in
        let '(panel, opened) :=
          match panel with
          | None =>
              (Some {| filePath := filePath; languageId := languageId |},
               [CreateWebviewPanel])
          | Some p => (Some p, [Reveal])
          end in
        (panel,
         (opened ++
         [PostMessage (NEW_CODE
            {| NewCode.code := code;
               NewCode.fileName := document_fileName editor;
               NewCode.filePath := filePath;
               NewCode.languageId := languageId;
               NewCode.mode := if hasSelection then selection else document |})])%list)
  end.

(** [panel.onDidDispose]. *)
Definition onDidDispose (panel : option Panel) : option Panel := None.

End Controller.

End Extension.

(* ================================================================== *)
(** * The vocabulary of the properties *)
(* ================================================================== *)

Module Spec.

(** ** Scores *)

(** The integers 0..100 as numbers, and the negative zero. *)
Definition scores : list float :=
  (-0) :: map (fun n => of_Z (Z.of_nat n)) (seq 0 101).

(** A number that is (numerically, as [===] compares) an integer of
    0..100. *)
Definition is_score (x : float) : Prop :=
  exists n : Z, (0 <= n <= 100)%Z /\ (x =? of_Z n) = true.

(** A number within the closed interval [0, 100]. *)
Definition in_range (x : float) : bool := geb x 0 && (x <=? 100).

(** The label of a score, without its colour. *)
Definition label (score : float) : string := fst (App.getScoreLabel score).

(** ** The animation *)

(** The values [currentStep] takes while the interval is live. *)
Definition live_steps : list float :=
  map (fun n => of_Z (Z.of_nat n)) (seq 0 31).

(** Membership by [Object.is] on numbers, for the checks by computation. *)
Definition mem (x : float) (l : list float) : bool :=
  existsb (PrimFloat.Leibniz.eqb x) l.

(** What the interval callback shows for target [t] when it finds the
    counter at [c], and whether it then clears the interval. *)
Definition frame (t c : float) : float :=
  Math_round (t * App.smoothstep (Math_min 1 ((c + 1) / App.steps))).

Definition last_frame (c : float) : bool :=
  geb (Math_min 1 ((c + 1) / App.steps)) 1.

(** Checked on every target of [scores] and every live step [k]: the frame
    is a score, it is not below the previous one and not above the target;
    the counter moves from [k] to [k + 1]; the interval ends at step 31 and
    not before, on the target itself. *)
Definition frame_check (t : float) (k : nat) : bool :=
  let c := of_Z (Z.of_nat k) in
  mem (frame t c) scores
  && (match k with
      | O => 0 <=? frame t c
      | S j => frame t (of_Z (Z.of_nat j)) <=? frame t c
      end)
  && (frame t c <=? t)
  && PrimFloat.Leibniz.eqb (c + 1) (of_Z (Z.of_nat (S k)))
  && Bool.eqb (last_frame c) (k =? 30)%nat
  && (negb (k =? 30)%nat || PrimFloat.Leibniz.eqb (frame t c) t).

(** The five displayed scores: the overall one and the four categories. *)
Definition displayed (s : App.State) : list float :=
  [ App.displayOverallScore s;
    App.bug (App.displayCategoryScores s);
    App.maintainability (App.displayCategoryScores s);
    App.style (App.displayCategoryScores s);
    App.security (App.displayCategoryScores s) ].

(** The display after a reset. *)
Definition zeros : list float := [0; 0; 0; 0; 0].

(** Pointwise [<=] on two lists of displayed scores. *)
Definition le_all (xs ys : list float) : Prop :=
  Forall2 (fun x y => (x <=? y) = true) xs ys.

(** An animation with the targets of [a] and the counter at [k], and the
    five frames the callback shows when it finds the counter at [c]. *)
Definition started (a : App.Animation) (k : nat) : App.Animation :=
  {| App.targetOverall := App.targetOverall a;
     App.targetCategories := App.targetCategories a;
     App.currentStep := of_Z (Z.of_nat k) |}.

Definition frames (a : App.Animation) (c : float) : list float :=
  [ frame (App.targetOverall a) c;
    frame (App.bug (App.targetCategories a)) c;
    frame (App.maintainability (App.targetCategories a)) c;
    frame (App.style (App.targetCategories a)) c;
    frame (App.security (App.targetCategories a)) c ].

(** ** Results and reachable states *)

(** The raw scores the effect reads from a result. *)
Definition raw_scores (resultData : JsValue) : list JsValue :=
  let scoresByCategory :=
    coalesce (get resultData "scores_by_category") (JObject 0 []) in
  [ get resultData "quality_score";
    get scoresByCategory "bug";
    get scoresByCategory "maintainability";
    get scoresByCategory "style";
    get scoresByCategory "security" ].

(** None of them is the number NaN (no JSON text denotes it). *)
Definition nan_free (resultData : JsValue) : Prop :=
  Forall (fun s => s <> JNumber nan) (raw_scores resultData).

(** An event the controller can deliver: a result comes from JSON. *)
Definition event_ok (e : App.Event) : Prop :=
  match e with
  | App.WindowMessage (Some (ANALYZE_RESULT payload)) => nan_free payload
  | _ => True
  end.

(** What [response.json()] can return, and so what the payload of an
    [ANALYZE_RESULT] is: JSON text denotes [null], booleans, numbers,
    strings, arrays and objects.  No JSON number reads as NaN (a literal too
    large for binary64 reads as an infinity). *)
Inductive parsed : JsValue -> Prop :=
| parsed_null : parsed JNull
| parsed_bool (b : bool) : parsed (JBool b)
| parsed_number (x : float) : is_nan x = false -> parsed (JNumber x)
| parsed_string (s : string) : parsed (JString s)
| parsed_array (ref : nat) (items : list JsValue) :
    Forall parsed items -> parsed (JArray ref items)
| parsed_object (ref : nat) (props : list (string * JsValue)) :
    Forall (fun kv => parsed (snd kv)) props -> parsed (JObject ref props).

(** Every category score of [c] is one of [l]. *)
Definition categories_in (l : list float) (c : App.ScoreCategories) : Prop :=
  In (App.bug c) l /\ In (App.maintainability c) l
  /\ In (App.style c) l /\ In (App.security c) l.

(** A live interval holds targets that are scores and a counter below 31. *)
Definition animation_ok (a : App.Animation) : Prop :=
  In (App.targetOverall a) scores
  /\ categories_in scores (App.targetCategories a)
  /\ In (App.currentStep a) live_steps.

(** The invariant of the running component. *)
Definition surface_ok (w : App.Surface) : Prop :=
  In (App.displayOverallScore (App.state w)) scores
  /\ categories_in scores (App.displayCategoryScores (App.state w))
  /\ nan_free (App.resultData (App.state w))
  /\ match App.interval w with
     | Some a => animation_ok a
     | None => True
     end.

(** Result data is present when [resultData] is truthy, which is what the
    effect and the rendering test. *)
Definition has_result (s : App.State) : bool := truthy (App.resultData s).

(** Exactly one of the result data and the error flag is active. *)
Definition exactly_one (s : App.State) : Prop :=
  xorb (has_result s) (App.isError s) = true.

(** The two events that can run [handleAnalyze]: the button and a key
    press in the code area. *)
Definition analyze_event (e : App.Event) : Prop :=
  e = App.AnalyzeClick
  \/ exists ctrlKey metaKey key, e = App.CodeKeyDown ctrlKey metaKey key.

(** The only message type the surface is meant to post. *)
Definition is_request_analyze (m : WebviewMessage) : Prop :=
  type m = "REQUEST_ANALYZE".

(** ** Runs of the surface *)

Section Runs.

Variable ToNumber : JsValue -> float.
Variable trim : string -> string.
Variable vscode : bool.

(** Their targets for a result: its raw scores, clamped. *)
Definition targets (resultData : JsValue) : list float :=
  map (App.clampScore ToNumber) (raw_scores resultData).

(** The surface after [n] callbacks of the interval. *)
Fixpoint ticks (n : nat) (w : App.Surface) : App.Surface :=
  match n with
  | O => w
  | S n' => App.step ToNumber trim vscode App.IntervalTick (ticks n' w)
  end.

(** The surface after an [ANALYZE_ERROR] and after an [ANALYZE_RESULT]. *)
Definition on_error (p : string) (w : App.Surface) : App.Surface :=
  App.step ToNumber trim vscode (App.WindowMessage (Some (ANALYZE_ERROR p))) w.

Definition on_result (payload : JsValue) (w : App.Surface) : App.Surface :=
  App.step ToNumber trim vscode
    (App.WindowMessage (Some (ANALYZE_RESULT payload))) w.

End Runs.

(** ** The controller's requests and replies *)

(** [needle] occurs in [text]. *)
Definition contains (needle text : string) : Prop :=
  exists before after, text = before ++ needle ++ after.

(** How the [catch] clause words a thrown value. *)
Definition describe (t : Extension.Thrown) : string :=
  match t with
  | Extension.ErrorObject message => message
  | Extension.NotAnError _ => "서버 요청 중 알 수 없는 오류가 발생했습니다."
  end.

(** The review request for a payload: a POST whose JSON body has the code,
    the language and the file path (the panel's own when the payload has
    none), plus the model when a non-empty one is given. *)
Definition review_request (closure : Extension.Panel) (p : Request.payload)
    : Extension.FetchInit :=
  {| Extension.method := "POST";
     Extension.headers := [("Content-Type", "application/json")];
     Extension.body :=
       {| Extension.code_snippet := Extension.orElse (Request.code p) "";
          Extension.language :=
            Extension.orElse (Request.languageId p) (Extension.languageId closure);
          Extension.file_path :=
            Extension.orElse (Request.filePath p) (Extension.filePath closure);
          Extension.model :=
            match Request.model p with
            | Some m => if (m =? "")%string then None else Some m
            | None => None
            end |} |}.

(** The progress message posted before the fetch. *)
Definition progress_notice : IncomingMessage :=
  ANALYZE_PROGRESS "DKMV LLM에 코드 분석을 요청 중입니다...".

(** The toasts and the protocol messages among some actions. *)
Definition toasts (acts : list Extension.Action) : list string :=
  flat_map (fun a => match a with
                     | Extension.ShowInformationMessage t => [t]
                     | _ => []
                     end) acts.

Definition posts (acts : list Extension.Action) : list IncomingMessage :=
  flat_map (fun a => match a with
                     | Extension.PostMessage m => [m]
                     | _ => []
                     end) acts.

(** ** Sample runtimes and data for the closed examples

    The theorems hold for every [ToNumber], [trim] and [network]; the
    closed examples instantiate them with the ones below.  [sampleToNumber]
    converts the primitives as ECMAScript does, reading a string as an
    unsigned decimal integer when it is one, and gives NaN on what it does
    not cover; [sampleTrim] strips ASCII white space from both ends. *)

Definition sampleToNumber (v : JsValue) : float :=
  match v with
  | JUndefined => nan
  | JNull => 0
  | JBool b => if b then 1 else 0
  | JNumber x => x
  | JString "" => 0
  | JString s =>
      match NilEmpty.uint_of_string s with
      | Some d => of_Z (Z.of_uint d)
      | None => nan
      end
  | JArray _ _ | JObject _ _ => nan
  end.

(** Space, tab, line feed, vertical tab, form feed, carriage return. *)
Definition is_space (c : ascii) : bool :=
  let n := nat_of_ascii c in
  (n =? 32)%nat || ((9 <=? n)%nat && (n <=? 13)%nat).

Fixpoint trimStart (s : string) : string :=
  match s with
  | String c rest => if is_space c then trimStart rest else s
  | EmptyString => EmptyString
  end.

Fixpoint rev_string (acc s : string) : string :=
  match s with
  | String c rest => rev_string (String c acc) rest
  | EmptyString => acc
  end.

Definition sampleTrim (s : string) : string :=
  rev_string "" (trimStart (rev_string "" (trimStart s))).

(** The result of the end-to-end scenario. *)
Definition sample_result : JsValue :=
  JObject 1
    [ ("quality_score", JNumber 0.8);
      ("scores_by_category",
       JObject 2 [ ("bug", JNumber 90);
                   ("maintainability", JNumber 0.5);
                   ("style", JNumber 70);
                   ("security", JNumber 100) ]);
      ("review_summary", JString "Looks fine") ].

(** A panel and a request as the surface posts it. *)
Definition sample_panel : Extension.Panel :=
  {| Extension.filePath := "/work/main.py"; Extension.languageId := "python" |}.

Definition sample_request : WebviewMessage :=
  {| type := "REQUEST_ANALYZE";
     payload := Some {| Request.code := Some "x=1";
                        Request.filePath := Some "/work/main.py";
                        Request.languageId := Some "python";
                        Request.model := Some "gpt-4.1-mini" |} |}.

(** The service of the second end-to-end scenario: HTTP 500 with the body
    "internal error", which is not JSON. *)
Definition failing_service (url : string) (init : Extension.FetchInit)
    : Extension.Outcome Extension.Response :=
  Extension.Returned
    {| Extension.status := 500;
       Extension.text := Extension.Returned "internal error";
       Extension.json :=
         Extension.Threw (Extension.ErrorObject "Unexpected token i in JSON") |}.

End Spec.

Import Spec.

(* ================================================================== *)
(** * The Host Controller as it runs *)
(* ================================================================== *)

Module Host.

Import Extension.

Section Activated.

Variable trim : string -> string.
Variable network : string -> FetchInit -> Outcome Response.

(** What happens to the activated extension: the command is run, the
    webview posts a message, the user closes the panel.  Each comes with
    [vscode.window.activeTextEditor] as it is at that moment. *)
Inductive Event : Type :=
| Command (activeTextEditor : option TextEditor)
| Message (activeTextEditor : option TextEditor)
          (message : option WebviewMessage)
| Dispose.

(** The module-level [panel] and the actions performed so far. *)
Record State : Type := {
  panel : option Panel;
  log : list Action
}.

(** [activate] registers the command; [panel] is still [undefined]. *)
Definition activate : State := {| panel := None; log := [] |}.

(** The two listeners exist only on a panel the command created, and stop
    with it. *)
Definition step (e : Event) (h : State) : State :=
  match e with
  | Command activeTextEditor =>
      let '(panel', acts) := analyzeSelection trim activeTextEditor (panel h) in
      {| panel := panel'; log := (log h ++ acts)%list |}
  | Message activeTextEditor message =>
      match panel h with
      | Some closure =>
          {| panel := panel h;
             log := (log h ++
                     actions (onDidReceiveMessage trim network closure
                                activeTextEditor message))%list |}
      | None => h
      end
  | Dispose =>
      match panel h with
      | Some _ => {| panel := onDidDispose (panel h); log := log h |}
      | None => h
      end
  end.

Definition run (events : list Event) (h : State) : State :=
  fold_left (fun h e => step e h) events h.

(** Whether a panel is open, and how many of the [Dispose] events of a run
    found one to close. *)
Definition opened (p : option Panel) : nat :=
  match p with Some _ => 1 | None => 0 end.

Fixpoint closed (events : list Event) (h : State) : nat :=
  match events with
  | [] => 0
  | e :: events =>
      (match e with Dispose => opened (panel h) | _ => 0 end
       + closed events (step e h))%nat
  end.

End Activated.

End Host.


(* ================================================================== *)
(** * The Display Surface: what the view derives from the state *)
(* ================================================================== *)

Module View.

(** [s.split(re)] for a regular expression that matches one character of
    a class: the pieces between the matches, in order. *)
Fixpoint split (separator : ascii -> bool) (s : string) : list string :=
  match s with
  | EmptyString => [""]
  | String c rest =>
      if separator c then "" :: split separator rest
      else
        match split separator rest with
        | piece :: pieces => String c piece :: pieces
        | [] => [String c ""]
        end
  end.

(** The class [[\\/]]. *)
Definition is_separator (c : ascii) : bool :=
  (c =? "\")%char || (c =? "/")%char.

(** [filePath ? filePath.split(/[\\/]/).slice(-1)[0] : ""]; [split] never
    yields an empty array. *)
Definition fileName (filePath : string) : string :=
  if (filePath =? "")%string then ""
  else last (split is_separator filePath) "".

Definition CR : ascii := "013"%char.
Definition LF : ascii := "010"%char.

(** [code.split(/\r\n|\r|\n/)]: at a carriage return the first alternative
    takes a following line feed with it. *)
Fixpoint lines (code : string) : list string :=
  match code with
  | EmptyString => [""]
  | String c rest =>
      if (c =? CR)%char then
        match rest with
        | String c' rest' =>
            if (c' =? LF)%char then "" :: lines rest' else "" :: lines rest
        | EmptyString => "" :: lines rest
        end
      else if (c =? LF)%char then "" :: lines rest
      else
        match lines rest with
        | piece :: pieces => String c piece :: pieces
        | [] => [String c ""]
        end
  end.

(** [code ? code.split(/\r\n|\r|\n/).length : 0]. *)
Definition lineCount (code : string) : nat :=
  if (code =? "")%string then 0 else List.length (lines code).

(** A tab button as [renderTabButton] derives it from the state. *)
Definition isActive (id : App.TabId) (s : App.State) : bool :=
  match App.activeTab s, id with
  | App.tab_code, App.tab_code | App.tab_result, App.tab_result => true
  | _, _ => false
  end.

Definition disabled (id : App.TabId) (s : App.State) : bool :=
  App.isLoading s && negb (isActive id s).

(** The badge is drawn when [showBadge && !disabled]. *)
Definition badge (id : App.TabId) (s : App.State) : bool :=
  let showBadge :=
    match id with
    | App.tab_result => App.hasNewResult s
    | App.tab_code => false
    end in
  showBadge && negb (disabled id s).

End View.


(* ================================================================== *)
(** * The Display Surface: copying to the clipboard *)
(* ================================================================== *)

Module Clipboard.

(** Completions are the controller's: a block returns or throws. *)

(** What the copy handlers do to the browser, in order. *)
Inductive Effect : Type :=
| WriteText (text : string)            (* navigator.clipboard.writeText *)
| Alert (message : string)
| CreateElement (tagName : string)
| SetValue (value : string)            (* temp.value = ... *)
| SetStyle (property value : string)   (* temp.style[property] = ... *)
| AppendChild                          (* document.body.appendChild(temp) *)
| Select                               (* temp.select() *)
| ExecCommand (commandId : string)
| RemoveChild.                         (* document.body.removeChild(temp) *)

(** A block of statements: its effects, and how it completes. *)
Definition M (A : Type) : Type := list Effect * Extension.Outcome A.

Definition ret {A} (a : A) : M A := ([], Extension.Returned a).

Definition bind {A B} (m : M A) (k : A -> M B) : M B :=
  match m with
  | (effects, Extension.Returned a) =>
      let '(effects', r) := k a in ((effects ++ effects')%list, r)
  | (effects, Extension.Threw t) => (effects, Extension.Threw t)
  end.

Definition effect (e : Effect) : M unit := ([e], Extension.Returned tt).

(** [try { block } catch { handler } finally { finalizer }]: the finalizer
    runs however the rest completes, and its own throw wins. *)
Definition try_catch_finally {A} (block : M A) (handler : Extension.Thrown -> M A)
    (finalizer : M unit) : M A :=
  let '(effects, r) :=
    match block with
    | (effects, Extension.Returned a) => (effects, Extension.Returned a)
    | (effects, Extension.Threw t) =>
        let '(effects', r) := handler t in ((effects ++ effects')%list, r)
    end in
  match finalizer with
  | (effects', Extension.Returned _) => ((effects ++ effects')%list, r)
  | (effects', Extension.Threw t) => ((effects ++ effects')%list, Extension.Threw t)
  end.

Notation "m ;; k" := (bind m (fun _ => k))
  (at level 61, right associativity).

Section Browser.

(** Whether [navigator.clipboard && navigator.clipboard.writeText] is
    truthy; how the promise of [writeText] settles ([Extension.Threw]: it rejects);
    what [document.execCommand] does; and [JSON.stringify(v, null, 2)] and
    [String(v)] on a value. *)
Variable clipboard : bool.
Variable writeText : string -> Extension.Outcome unit.
Variable execCommand : string -> Extension.Outcome bool.
Variable stringify : JsValue -> Extension.Outcome string.
Variable String_ : JsValue -> string.

Definition handleCopyText (text : string) : M unit :=
  if (text =? "")%string then ret tt
  else if clipboard then
    effect (WriteText text) ;;
    match writeText text with
    | Extension.Returned _ => ret tt
    | Extension.Threw _ => effect (Alert "클립보드 복사에 실패했습니다.")
    end
  else
    effect (CreateElement "textarea") ;;
    effect (SetValue text) ;;
    effect (SetStyle "position" "fixed") ;;
    effect (SetStyle "left" "-9999px") ;;
    effect AppendChild ;;
    effect Select ;;
    try_catch_finally
      (effect (ExecCommand "copy") ;;
       match execCommand "copy" with
       | Extension.Returned _ => ret tt
       | Extension.Threw t => ([], Extension.Threw t)
       end)
      (fun _ => effect (Alert "클립보드 복사에 실패했습니다."))
      (effect RemoveChild).

(** [reviewText] is [null] ([None]) or a string. *)
Definition handleCopyReview (reviewText : option string) : M unit :=
  match reviewText with
  | None => ret tt
  | Some reviewText =>
      if (reviewText =? "")%string then ret tt else handleCopyText reviewText
  end.

Definition handleCopyJson (data : JsValue) : M unit :=
  if negb (truthy data) then ret tt
  else
    match stringify data with
    | Extension.Returned json => handleCopyText json
    | Extension.Threw t => ([], Extension.Threw t)
    end.

(** The review text the result tab shows. *)
Definition reviewText (resultData : JsValue) : option string :=
  if negb (truthy resultData) then None
  else
    let v := get resultData "review_summary" in
    if negb (truthy v) then None
    else
      match v with
      | JString v => Some v
      | _ =>
          match stringify v with
          | Extension.Returned json => Some json
          | Extension.Threw _ => Some (String_ v)
          end
      end.

End Browser.

End Clipboard.

(* ================================================================== *)
(** * The Host Controller: the nonce of the webview's scripts *)
(* ================================================================== *)

Module Nonce.

(** ** The runtime functions [getNonce] uses *)

(** [Math.floor x]: the largest integral number not above [x]; NaN, the
    infinities and the zeros are returned unchanged. *)
Definition Math_floor (x : float) : float :=
  match Prim2SF x with
  | S754_finite sg m e =>
      if (0 <=? e)%Z then x
      else
        let n := ((if sg then Zneg m else Zpos m) / 2 ^ (- e))%Z in
        if (n =? 0)%Z then 0 else of_Z n
  | _ => x
  end.

(** [ToIntegerOrInfinity]: NaN and the zeros give 0, a finite number is
    truncated towards zero, and an infinity ([None]) stays one. *)
Definition ToIntegerOrInfinity (x : float) : option Z :=
  match Prim2SF x with
  | S754_nan | S754_zero _ => Some 0%Z
  | S754_infinity _ => None
  | S754_finite sg m e =>
      let a := (if (0 <=? e) then Zpos m * 2 ^ e
                else Zpos m / 2 ^ (- e))%Z in
      Some (if sg then (- a)%Z else a)
  end.

(** [s.charAt(pos)]: the character at the position, as a string, or the
    empty string when the position is out of range. *)
Definition charAt (s : string) (pos : float) : string :=
  match ToIntegerOrInfinity pos with
  | Some n =>
      if ((0 <=? n) && (n <? Z.of_nat (String.length s)))%Z then
        match String.get (Z.to_nat n) s with
        | Some c => String c ""
        | None => ""
        end
      else ""
  | None => ""
  end.

(** ** [getNonce] *)

Definition possible : string :=
  "ABCDEFGHIJKLMNOPQRSTUVWXYZabcdefghijklmnopqrstuvwxyz0123456789".

Section Random.

(** [random i] is what the call number [i] of [Math.random()] returns. *)
Variable random : nat -> float.

(** The [for] loop with [count] iterations left, at [i]. *)
Fixpoint loop (count i : nat) (text : string) : string :=
  match count with
  | O => text
  | S count =>
      loop count (S i)
        (text ++
         charAt possible
           (Math_floor
              (random i * of_Z (Z.of_nat (String.length possible)))))
  end.

Definition getNonce : string := loop 32 0 "".

End Random.

End Nonce.

(* ================================================================== *)
(** * More vocabulary: requests, replies, lines and rounding *)
(* ================================================================== *)

Module Terms.

(** The request [handleAnalyze] posts from a state. *)
Definition request_of (s : App.State) : WebviewMessage :=
  {| type := "REQUEST_ANALYZE";
     payload := Some {| Request.code := Some (App.code s);
                        Request.filePath := Some (App.filePath s);
                        Request.languageId := Some (App.languageId s);
                        Request.model := Some (App.selectedModel s) |} |}.

(** The displayed scores reset, as the effect and four handlers do it. *)
Definition reset_scores (s : App.State) : App.State :=
  App.setDisplayCategoryScores App.EMPTY_CATEGORIES
    (App.setDisplayOverallScore 0 s).

(** The events that run [handleAnalyze] when the surface is not loading:
    a click on the button, and Enter with Ctrl or Cmd in the code area. *)
Definition triggers (e : App.Event) : Prop :=
  e = App.AnalyzeClick
  \/ exists ctrlKey metaKey,
       e = App.CodeKeyDown ctrlKey metaKey "Enter"
       /\ ctrlKey || metaKey = true.

(** A request as [handleAnalyze] submits it: all four fields present, the
    code not blank and a model chosen. *)
Definition submitted (trim : string -> string) (m : WebviewMessage) : Prop :=
  exists code filePath languageId model,
    m = {| type := "REQUEST_ANALYZE";
           payload := Some {| Request.code := Some code;
                              Request.filePath := Some filePath;
                              Request.languageId := Some languageId;
                              Request.model := Some model |} |}
    /\ trim code <> "" /\ model <> "".

(** What holds of the state cells in every reachable state. *)
Definition state_ok (s : App.State) : Prop :=
  (App.isError s = true -> App.resultData s = JNull)
  /\ (App.isLoading s = true -> App.activeTab s = App.tab_result)
  /\ (App.modelError s = true -> App.selectedModel s = "").

(** Without result data the scores show zero and no interval is live. *)
Definition quiet (w : App.Surface) : Prop :=
  truthy (App.resultData (App.state w)) = false ->
  displayed (App.state w) = zeros /\ App.interval w = None.

(** ** The controller's side *)

(** The code the command takes from an editor: the selection, or the whole
    document when the selection is empty. *)
Definition code_of (editor : Extension.TextEditor) : string :=
  if Extension.selection_isEmpty editor then Extension.document_text editor
  else Extension.selection_text editor.

(** The reply the handler posts for what the network did with a request. *)
Definition reply_of
    (network : string -> Extension.FetchInit ->
               Extension.Outcome Extension.Response)
    (init : Extension.FetchInit) : IncomingMessage :=
  match network Extension.REVIEW_API_URL init with
  | Extension.Threw t => ANALYZE_ERROR (describe t)
  | Extension.Returned r =>
      if Extension.ok r then
        match Extension.json r with
        | Extension.Returned data => ANALYZE_RESULT data
        | Extension.Threw t => ANALYZE_ERROR (describe t)
        end
      else
        match Extension.text r with
        | Extension.Returned txt =>
            ANALYZE_ERROR
              ("HTTP " ++ string_of_nat (Extension.status r) ++ ": " ++ txt)
        | Extension.Threw t => ANALYZE_ERROR (describe t)
        end
  end.

(** The review request for the four fields of a submitted message. *)
Definition request (code filePath languageId model : string)
    : Extension.FetchInit :=
  {| Extension.method := "POST";
     Extension.headers := [("Content-Type", "application/json")];
     Extension.body :=
       {| Extension.code_snippet := code;
          Extension.language := languageId;
          Extension.file_path := filePath;
          Extension.model := Some model |} |}.

(** A message that ends an exchange: new code, a result or an error. *)
Definition terminal (m : IncomingMessage) : bool :=
  match m with
  | NEW_CODE _ | ANALYZE_RESULT _ | ANALYZE_ERROR _ => true
  | ANALYZE_PROGRESS _ | OTHER _ _ => false
  end.

(** The requests and the panel operations among some actions. *)
Definition fetches (acts : list Extension.Action)
    : list (string * Extension.FetchInit) :=
  flat_map (fun a => match a with
                     | Extension.Fetch url init => [(url, init)]
                     | _ => []
                     end) acts.

Definition creations (acts : list Extension.Action) : nat :=
  List.length (filter (fun a => match a with
                                | Extension.CreateWebviewPanel => true
                                | _ => false
                                end) acts).

Definition reveals (acts : list Extension.Action) : nat :=
  List.length (filter (fun a => match a with
                                | Extension.Reveal => true
                                | _ => false
                                end) acts).

(** The message types the controller's handler knows. *)
Definition recognised (m : option WebviewMessage) : bool :=
  match m with
  | Some m => (type m =? "REQUEST_FULL_DOCUMENT")%string
              || (type m =? "REQUEST_ANALYZE")%string
  | None => false
  end.

(** The window events that deliver the controller's messages, in order. *)
Definition deliver (acts : list Extension.Action) : list App.Event :=
  map (fun m => App.WindowMessage (Some m)) (posts acts).

(** ** Strings and lines *)

(** The characters of a string. *)
Fixpoint chars (s : string) : list ascii :=
  match s with
  | EmptyString => []
  | String c rest => c :: chars rest
  end.

(** Lines joined by a line terminator. *)
Fixpoint join (terminator : string) (ls : list string) : string :=
  match ls with
  | [] => ""
  | [l] => l
  | l :: rest => l ++ terminator ++ join terminator rest
  end.

(** A line holds neither a carriage return nor a line feed. *)
Definition plain (l : string) : Prop :=
  Forall (fun c => (c =? View.CR)%char = false /\ (c =? View.LF)%char = false)
    (chars l).

Definition starts_with (c : ascii) (s : string) : bool :=
  match s with
  | String c' _ => (c' =? c)%char
  | EmptyString => false
  end.

(** Letters and digits. *)
Definition alphanumeric (c : ascii) : bool :=
  let n := nat_of_ascii c in
  ((65 <=? n) && (n <=? 90) || (97 <=? n) && (n <=? 122)
   || (48 <=? n) && (n <=? 57))%nat.

(** ** Rounding *)

(** A mantissa [m0] after [k] shifts to the right: twice what is kept, plus
    the half the round bit stands for, does not exceed twice the start. *)
Definition kept (m0 k : Z) (mrs : shr_record) : Prop :=
  (0 <= shr_m mrs
   /\ 2 * 2 ^ k * shr_m mrs + (if shr_r mrs then 2 ^ k else 0) <= 2 * m0)%Z.

(** ** Sample data for the closed examples *)

Definition sample_code : NewCode.payload :=
  NewCode.mk "x=1" "main.py" "/work/main.py" "python" selection.

(** The code has arrived; then a model is chosen; then analyze is clicked. *)
Definition code_arrived : list App.Event :=
  [App.WindowMessage (Some (NEW_CODE sample_code))].

Definition code_ready : list App.Event :=
  (code_arrived ++ [App.ModelChange "gpt-4.1-mini"])%list.

Definition submitting : list App.Event :=
  (code_ready ++ [App.AnalyzeClick])%list.

(** The surface after some events, with or without the VS Code API. *)
Definition sample_surface (vscode : bool) (events : list App.Event)
    : App.Surface :=
  App.run sampleToNumber sampleTrim vscode events (App.mount sampleToNumber).

(** An editor on [/work/main.py] with [x=1] selected. *)
Definition sample_editor : Extension.TextEditor :=
  {| Extension.selection_isEmpty := false;
     Extension.selection_text := "x=1";
     Extension.document_text := "x=1; y=2";
     Extension.document_fsPath := "/work/main.py";
     Extension.document_languageId := "python";
     Extension.document_fileName := "/work/main.py" |}.

End Terms.

Import Terms.

(* ================================================================== *)
(** * Properties *)
(* ================================================================== *)

(** ** The model on concrete inputs *)

Example Math_round_ties :
  map Math_round [2.5; 1.5; 0.5; -0.5; -1.5; -2.5] = [3; 2; 1; -0; -1; -2].
Proof. reflexivity. Qed.

Example Math_round_below_half :
  map Math_round [0.49999999999999994; 84.5; 84.49999999999999; -0.2]
  = [0; 85; 84; -0].
Proof. reflexivity. Qed.

Example Math_round_unchanged :
  map Math_round [nan; infinity; neg_infinity; 0; -0; 4503599627370497]
  = [nan; infinity; neg_infinity; 0; -0; 4503599627370497].
Proof. reflexivity. Qed.

Example steps_is_31 : App.steps = 31.
Proof. reflexivity. Qed.

Example typeof_nan : typeof (JNumber nan) = "number".
Proof. reflexivity. Qed.

(** The first end-to-end scenario.  The code [x=1] arrives, the user picks
    a model and clicks: one [REQUEST_ANALYZE] is posted.  The controller
    turns it into one POST and relays the service's result, and after the
    31 callbacks of the interval the surface shows 80 and 90, 50, 70, 100. *)
Example end_to_end :
  let code_ready :=
    App.run sampleToNumber sampleTrim true
      [ App.WindowMessage (Some (NEW_CODE
          (NewCode.mk "x=1" "main.py" "/work/main.py" "python" selection)));
        App.ModelChange "gpt-4.1-mini";
        App.AnalyzeClick ]
      (App.mount sampleToNumber) in
  let service (url : string) (init : Extension.FetchInit) :=
    Extension.Returned
      {| Extension.status := 200;
         Extension.text := Extension.Returned "";
         Extension.json := Extension.Returned sample_result |} in
  let relayed :=
    Extension.actions
      (Extension.onDidReceiveMessage sampleTrim service sample_panel None
         (Some sample_request)) in
  let shown :=
    ticks sampleToNumber sampleTrim true 31
      (App.run sampleToNumber sampleTrim true
         (map (fun m => App.WindowMessage (Some m)) (posts relayed))
         code_ready) in
  App.posted code_ready = [sample_request]
  /\ posts relayed = [progress_notice; ANALYZE_RESULT sample_result]
  /\ displayed (App.state shown) = [80; 90; 50; 70; 100]
  /\ fst (App.getScoreLabel (App.displayOverallScore (App.state shown)))
     = "Good"
  /\ App.isError (App.state shown) = false
  /\ App.interval shown = None.
Proof. vm_compute. repeat split. Qed.

(** ** Binary64 facts *)

Lemma Prim2SF_zero : Prim2SF 0 = S754_zero false.
Proof. vm_compute. reflexivity. Qed.

Lemma Prim2SF_hundred : Prim2SF 100 = S754_finite false 7036874417766400 (-46).
Proof. vm_compute. reflexivity. Qed.

Lemma Prim2SF_nan_inv (x : float) : Prim2SF x = S754_nan -> x = nan.
Proof.
  intros H. apply Prim2SF_inj. rewrite H. vm_compute. reflexivity.
Qed.

Lemma is_nan_false_SF (x : float) : is_nan x = false -> Prim2SF x <> S754_nan.
Proof.
  intros H E. apply Prim2SF_nan_inv in E. subst x. vm_compute in H. discriminate.
Qed.

Lemma digits2_pos_gt (m : positive) : (Zpos m < 2 ^ Zpos (digits2_pos m))%Z.
Proof.
  induction m as [m IH | m IH |]; cbn [digits2_pos].
  - rewrite Pos2Z.inj_succ, Z.pow_succ_r by lia. lia.
  - rewrite Pos2Z.inj_succ, Z.pow_succ_r by lia. lia.
  - reflexivity.
Qed.

(** The mantissa of a valid binary64 number has at most 53 bits. *)
Lemma valid_mantissa_bound (s : bool) (m : positive) (e : Z) :
  valid_binary (S754_finite s m e) = true -> (Zpos m < 2 ^ 53)%Z.
Proof.
  unfold SpecFloat.valid_binary, bounded, canonical_mantissa, fexp.
  intros H. apply andb_prop in H. destruct H as [H _].
  apply Z.eqb_eq in H.
  pose proof (digits2_pos_gt m) as D.
  assert (L : (Zpos (digits2_pos m) <= 53)%Z) by (unfold prec in H; lia).
  eapply Z.lt_le_trans; [exact D|].
  apply Z.pow_le_mono_r; lia.
Qed.

Lemma of_Z_in_scores (n : Z) : (0 <= n <= 100)%Z -> In (of_Z n) scores.
Proof.
  intros H. right. apply in_map_iff. exists (Z.to_nat n). split.
  - rewrite Z2Nat.id by lia. reflexivity.
  - apply in_seq. lia.
Qed.

Lemma Math_round_clamped (x : float) :
  Prim2SF x <> S754_nan -> (x <? 0) = false -> gtb x 100 = false ->
  In (Math_round x) scores.
Proof.
  unfold gtb, Math_round.
  rewrite !FloatAxioms.ltb_spec, Prim2SF_zero, Prim2SF_hundred.
  pose proof (Prim2SF_valid x) as V. pose proof (SF2Prim_Prim2SF x) as R.
  destruct (Prim2SF x) as [s | s | | s m e]; intros N L G.
  - rewrite <- R. destruct s; [left | right; left]; vm_compute; reflexivity.
  - destruct s; discriminate.
  - congruence.
  - destruct s; [discriminate|].
    apply valid_mantissa_bound in V.
    unfold SFltb, SFcompare in G.
    assert (E : (e < -46 \/ (e = -46 /\ Zpos m <= 7036874417766400))%Z).
    { destruct (-46 ?= e)%Z eqn:C.
      - apply Z.compare_eq_iff in C. subst e. right. split; [reflexivity|].
        destruct (Pos.compare_cont Eq 7036874417766400 m) eqn:P;
          try discriminate.
        + apply Pos.compare_eq in P. rewrite <- P. apply Z.le_refl.
        + change (Pos.compare_cont Eq 7036874417766400 m)
            with (7036874417766400 ?= m)%positive in P.
          apply Pos.compare_gt_iff in P. apply Z.lt_le_incl. exact P.
      - discriminate.
      - apply Z.compare_gt_iff in C. left. exact C. }
    destruct (Z.leb_spec 0 e) as [E0 | E0]; [lia|].
    set (d := (2 ^ (- e))%Z).
    assert (D : (2 ^ 46 <= d)%Z) by (apply Z.pow_le_mono_r; lia).
    assert (B : (2 * Zpos m + d < 101 * (2 * d))%Z).
    { destruct E as [E | [E1 E2]].
      - assert (2 ^ 47 <= d)%Z by (apply Z.pow_le_mono_r; lia).
        change (2 ^ 53)%Z with (64 * 2 ^ 47)%Z in V. lia.
      - subst e. change d with (2 ^ 46)%Z.
        change (2 ^ 46)%Z with 70368744177664%Z. lia. }
    assert (Q : (0 <= (2 * Zpos m + d) / (2 * d) <= 100)%Z).
    { split.
      - apply Z.div_pos; lia.
      - apply Z.lt_succ_r. apply Z.div_lt_upper_bound; lia. }
    destruct (Z.eqb_spec ((2 * Zpos m + d) / (2 * d)) 0) as [Z0 | Z0].
    + right. left. reflexivity.
    + apply of_Z_in_scores. exact Q.
Qed.

(** ** A product of finite numbers is not NaN *)

Lemma shr_1_nonneg (mrs : shr_record) :
  (0 <= shr_m mrs)%Z -> (0 <= shr_m (shr_1 mrs))%Z.
Proof.
  destruct mrs as [m r s]. simpl.
  destruct m as [| p | p]; [| destruct p | ]; simpl; lia.
Qed.

Lemma iter_shr_1_nonneg (n : positive) :
  forall mrs, (0 <= shr_m mrs)%Z -> (0 <= shr_m (iter_pos shr_1 n mrs))%Z.
Proof.
  induction n as [n IH | n IH |]; intros mrs H; simpl.
  - apply IH, IH, shr_1_nonneg, H.
  - apply IH, IH, H.
  - apply shr_1_nonneg, H.
Qed.

Lemma shr_fexp_nonneg (m e : Z) (l : location) :
  (0 <= m)%Z -> (0 <= shr_m (fst (shr_fexp prec emax m e l)))%Z.
Proof.
  intros H. unfold shr_fexp, shr.
  assert (H0 : (0 <= shr_m (shr_record_of_loc m l))%Z).
  { destruct l as [| []]; exact H. }
  destruct (fexp prec emax (Zdigits2 m + e) - e)%Z; simpl; auto.
  apply iter_shr_1_nonneg, H0.
Qed.

Lemma round_nearest_even_nonneg (m : Z) (l : location) :
  (0 <= m)%Z -> (0 <= round_nearest_even m l)%Z.
Proof.
  intros H. unfold round_nearest_even.
  destruct l as [| []]; try destruct (Z.even m); lia.
Qed.

Lemma binary_round_aux_not_nan (sx : bool) (m e : Z) (l : location) :
  (0 <= m)%Z -> binary_round_aux prec emax sx m e l <> S754_nan.
Proof.
  intros H. unfold binary_round_aux.
  pose proof (shr_fexp_nonneg m e l H) as H1.
  destruct (shr_fexp prec emax m e l) as [mrs' e'].
  pose proof (shr_fexp_nonneg
    (round_nearest_even (shr_m mrs') (loc_of_shr_record mrs')) e' loc_Exact
    (round_nearest_even_nonneg _ _ H1)) as H2.
  destruct (shr_fexp prec emax _ e' loc_Exact) as [mrs'' e''].
  simpl in H2.
  destruct (shr_m mrs'') as [| p | p].
  - discriminate.
  - destruct (e'' <=? emax - prec)%Z; discriminate.
  - lia.
Qed.

(** Scaling a number of [0, 1] by 100 does not produce NaN. *)
Lemma scale_not_nan (x : float) :
  geb x 0 = true -> (x <=? 1) = true -> Prim2SF (x * 100) <> S754_nan.
Proof.
  unfold geb.
  rewrite !FloatAxioms.leb_spec, FloatAxioms.mul_spec, Prim2SF_zero,
    Prim2SF_hundred.
  unfold SF64mul, SFmul.
  destruct (Prim2SF x) as [s | s | | s m e]; intros L U.
  - discriminate.
  - destruct s; discriminate.
  - discriminate.
  - apply binary_round_aux_not_nan. lia.
Qed.

(** ** [clampScore] in range *)

Section ClampScore.

Variable ToNumber : JsValue -> float.

Lemma clampNumber_in_scores (x : float) :
  Prim2SF x <> S754_nan -> In (App.clampNumber x) scores.
Proof.
  intros N. unfold App.clampNumber.
  set (s1 := if geb x 0 && (x <=? 1) then x * 100 else x).
  assert (N1 : Prim2SF s1 <> S754_nan).
  { unfold s1. destruct (geb x 0) eqn:L; [|exact N].
    destruct (x <=? 1) eqn:U; [|exact N].
    apply scale_not_nan; assumption. }
  destruct (s1 <? 0) eqn:L.
  - vm_compute. auto.
  - destruct (gtb s1 100) eqn:G.
    + vm_compute. do 101 right. left. reflexivity.
    + apply Math_round_clamped; assumption.
Qed.

Lemma clampScore_in_scores (s : JsValue) :
  s <> JNumber nan -> In (App.clampScore ToNumber s) scores.
Proof.
  intros H.
  assert (Z : In 0 scores) by (right; left; reflexivity).
  destruct s; simpl; unfold Number_isNaN;
    try (destruct (is_nan (ToNumber _)) eqn:E;
         [exact Z | apply clampNumber_in_scores, is_nan_false_SF, E]).
  apply clampNumber_in_scores. intros E. apply H. f_equal.
  apply Prim2SF_nan_inv, E.
Qed.

End ClampScore.

Lemma scores_checked :
  forallb (fun x => existsb (fun n => x =? of_Z (Z.of_nat n)) (seq 0 101)
                    && in_range x) scores = true.
Proof. vm_compute. reflexivity. Qed.

Lemma scores_are_scores (x : float) : In x scores -> is_score x.
Proof.
  intros H. pose proof scores_checked as C.
  rewrite forallb_forall in C. apply C, andb_prop, proj1 in H.
  apply existsb_exists in H. destruct H as [n [Hn E]].
  exists (Z.of_nat n). split; [apply in_seq in Hn; lia | exact E].
Qed.

Lemma scores_in_range (x : float) : In x scores -> in_range x = true.
Proof.
  intros H. pose proof scores_checked as C.
  rewrite forallb_forall in C. apply C, andb_prop, proj2 in H. exact H.
Qed.

Lemma nan_not_score : ~ is_score nan.
Proof.
  intros [n [_ E]]. rewrite FloatAxioms.eqb_spec in E.
  replace (Prim2SF nan) with S754_nan in E by (vm_compute; reflexivity).
  discriminate.
Qed.

(** ** Raw scores

    A raw score is a field of a parsed JSON body: a parsed value, or
    [undefined] when the field is missing; never the number NaN. *)

Lemma lookup_parsed (key : string) (props : list (string * JsValue)) :
  Forall (fun kv => parsed (snd kv)) props ->
  lookup key props = JUndefined \/ parsed (lookup key props).
Proof.
  induction props as [| [k v] props IH]; intros H; [left; reflexivity|].
  inversion H as [| ? ? Hv Hp]; subst. cbn [lookup].
  destruct (k =? key)%string; [right; exact Hv | exact (IH Hp)].
Qed.

Lemma get_parsed (v : JsValue) (key : string) :
  parsed v -> get v key = JUndefined \/ parsed (get v key).
Proof.
  intros H. destruct v; try (left; reflexivity).
  inversion H; subst. apply lookup_parsed. assumption.
Qed.

Lemma parsed_not_nan (v : JsValue) : parsed v -> v <> JNumber nan.
Proof.
  intros H E. subst v. inversion H as [| | x N | | |]; subst.
  vm_compute in N. discriminate.
Qed.

Lemma raw_score_not_nan (v : JsValue) (key : string) :
  parsed v -> get v key <> JNumber nan.
Proof.
  intros H. destruct (get_parsed v key H) as [E | P].
  - rewrite E. discriminate.
  - apply parsed_not_nan, P.
Qed.

Lemma parsed_nan_free (payload : JsValue) : parsed payload -> nan_free payload.
Proof.
  intros H. unfold nan_free, raw_scores. cbv zeta.
  assert (C : parsed (coalesce (get payload "scores_by_category")
                        (JObject 0 []))).
  { unfold coalesce.
    destruct (get_parsed payload "scores_by_category" H) as [E | P].
    - rewrite E. cbn. constructor. constructor.
    - destruct (nullish _); [constructor; constructor | exact P]. }
  repeat constructor; apply raw_score_not_nan; assumption.
Qed.

(** ** C1: score normalization *)

Section Normalize.

Variable ToNumber : JsValue -> float.

Let normalize := App.clampScore ToNumber.


End Normalize.


(** The number NaN is no raw score: no JSON body holds it.  Were it passed,
    [typeof NaN] being ["number"], it would not be coerced, every
    comparison with it would be false and [Math.round] would return it. *)
Lemma clampScore_nan :
  App.clampScore sampleToNumber (JNumber nan) = nan
  /\ ~ is_score (App.clampScore sampleToNumber (JNumber nan)).
Proof.
  split; [reflexivity|]. exact nan_not_score.
Qed.

(** ** Comparisons of positive finite numbers, as integer arithmetic *)

Lemma SFltb_pos (m1 m2 : positive) (e1 e2 : Z) :
  SFltb (S754_finite false m1 e1) (S754_finite false m2 e2)
  = ((e1 <? e2)%Z || ((e1 =? e2)%Z && (m1 <? m2)%positive)).
Proof.
  unfold SFltb, SFcompare, Z.ltb, Pos.ltb.
  change (Pos.compare_cont Eq m1 m2) with (m1 ?= m2)%positive.
  destruct (e1 ?= e2)%Z eqn:C.
  - apply Z.compare_eq_iff in C. subst e2. rewrite Z.eqb_refl.
    destruct (m1 ?= m2)%positive; reflexivity.
  - reflexivity.
  - apply Z.compare_gt_iff in C.
    destruct (Z.eqb_spec e1 e2); [lia | reflexivity].
Qed.

Lemma SFleb_pos (m1 m2 : positive) (e1 e2 : Z) :
  SFleb (S754_finite false m1 e1) (S754_finite false m2 e2)
  = ((e1 <? e2)%Z || ((e1 =? e2)%Z && (m1 <=? m2)%positive)).
Proof.
  unfold SFleb, SFcompare, Z.ltb, Pos.leb.
  change (Pos.compare_cont Eq m1 m2) with (m1 ?= m2)%positive.
  destruct (e1 ?= e2)%Z eqn:C.
  - apply Z.compare_eq_iff in C. subst e2. rewrite Z.eqb_refl.
    destruct (m1 ?= m2)%positive; reflexivity.
  - reflexivity.
  - apply Z.compare_gt_iff in C.
    destruct (Z.eqb_spec e1 e2); [lia | reflexivity].
Qed.

Lemma SFltb_pos_iff (m1 m2 : positive) (e1 e2 : Z) :
  SFltb (S754_finite false m1 e1) (S754_finite false m2 e2) = true
  <-> (e1 < e2 \/ (e1 = e2 /\ Zpos m1 < Zpos m2))%Z.
Proof.
  rewrite SFltb_pos, orb_true_iff, andb_true_iff, Z.ltb_lt, Z.eqb_eq,
    Pos.ltb_lt. reflexivity.
Qed.

Lemma SFleb_pos_iff (m1 m2 : positive) (e1 e2 : Z) :
  SFleb (S754_finite false m1 e1) (S754_finite false m2 e2) = true
  <-> (e1 < e2 \/ (e1 = e2 /\ Zpos m1 <= Zpos m2))%Z.
Proof.
  rewrite SFleb_pos, orb_true_iff, andb_true_iff, Z.ltb_lt, Z.eqb_eq,
    Pos.leb_le. reflexivity.
Qed.

(** Names a comparison of positive finite numbers and records what it says
    about their exponents and mantissas. *)
Ltac compare_cases :=
  repeat match goal with
  | |- context [SFleb (S754_finite false ?m1 ?e1) (S754_finite false ?m2 ?e2)] =>
      let H := fresh "C" in
      destruct (SFleb (S754_finite false m1 e1) (S754_finite false m2 e2)) eqn:H;
      [ apply SFleb_pos_iff in H
      | apply not_true_iff_false in H; rewrite SFleb_pos_iff in H ]
  | |- context [SFltb (S754_finite false ?m1 ?e1) (S754_finite false ?m2 ?e2)] =>
      let H := fresh "C" in
      destruct (SFltb (S754_finite false m1 e1) (S754_finite false m2 e2)) eqn:H;
      [ apply SFltb_pos_iff in H
      | apply not_true_iff_false in H; rewrite SFltb_pos_iff in H ]
  end.

(** ** C9: qualitative labels *)

Lemma label_cases (score : float) :
  let sf := Prim2SF score in
  label score =
    if SFleb (Prim2SF 90) sf then "Excellent"
    else if SFleb (Prim2SF 70) sf then "Good"
    else if SFleb (Prim2SF 40) sf then "Okay"
    else if SFltb (Prim2SF 0) sf then "Needs Work"
    else "—".
Proof.
  unfold label, App.getScoreLabel, geb, gtb.
  rewrite !FloatAxioms.leb_spec, FloatAxioms.ltb_spec.
  repeat match goal with |- context [if ?c then _ else _] => destruct c end;
    reflexivity.
Qed.

(** C9.  The label is "Excellent" iff score >= 90, "Good" iff
    70 <= score < 90, "Okay" iff 40 <= score < 70, "Needs Work" iff
    0 < score < 40, and the neutral "—" in every other case (a score that
    is not above 0, NaN included); so label(90) = "Excellent",
    label(89) = "Good", label(70) = "Good", label(69) = "Okay",
    label(40) = "Okay", label(39) = "Needs Work" and label(0) = "—". *)
Theorem getScoreLabel_thresholds :
  (forall score,
     (label score = "Excellent" <-> geb score 90 = true)
     /\ (label score = "Good" <-> geb score 70 && (score <? 90) = true)
     /\ (label score = "Okay" <-> geb score 40 && (score <? 70) = true)
     /\ (label score = "Needs Work" <-> gtb score 0 && (score <? 40) = true)
     /\ (label score = "—" <->
           geb score 90 = false
           /\ geb score 70 && (score <? 90) = false
           /\ geb score 40 && (score <? 70) = false
           /\ gtb score 0 && (score <? 40) = false))
  /\ label 90 = "Excellent" /\ label 89 = "Good" /\ label 70 = "Good"
  /\ label 69 = "Okay" /\ label 40 = "Okay" /\ label 39 = "Needs Work"
  /\ label 0 = "—".
Proof.
  split; [| repeat apply conj; reflexivity].
  intros score. rewrite label_cases. unfold geb, gtb.
  rewrite !FloatAxioms.leb_spec, !FloatAxioms.ltb_spec.
  replace (Prim2SF 90) with (S754_finite false 6333186975989760 (-46))
    by (vm_compute; reflexivity).
  replace (Prim2SF 70) with (S754_finite false 4925812092436480 (-46))
    by (vm_compute; reflexivity).
  replace (Prim2SF 40) with (S754_finite false 5629499534213120 (-47))
    by (vm_compute; reflexivity).
  rewrite Prim2SF_zero.
  destruct (Prim2SF score) as [s | s | | s m e]; cbv zeta.
  - simpl. intuition discriminate.
  - destruct s; simpl; intuition discriminate.
  - simpl. intuition discriminate.
  - destruct s; [simpl; intuition discriminate|].
    change (SFltb (S754_zero false) (S754_finite false m e)) with true.
    compare_cases; simpl;
      repeat apply conj; intros H;
      first [discriminate H | reflexivity | lia | exfalso; lia].
Qed.

(** ** The score animation *)

Lemma mem_In (x : float) (l : list float) : mem x l = true -> In x l.
Proof.
  unfold mem. intros H. apply existsb_exists in H.
  destruct H as [y [Hy E]]. apply FloatAxioms.Leibniz.eqb_spec in E.
  subst y. exact Hy.
Qed.

Lemma frames_checked :
  forallb (fun t => forallb (frame_check t) (seq 0 31)) scores = true.
Proof. vm_compute. reflexivity. Qed.

Lemma frame_facts (t : float) (k : nat) :
  In t scores -> (k < 31)%nat ->
  let c := of_Z (Z.of_nat k) in
  In (frame t c) scores
  /\ (match k with
      | O => 0 <=? frame t c
      | S j => frame t (of_Z (Z.of_nat j)) <=? frame t c
      end) = true
  /\ (frame t c <=? t) = true
  /\ c + 1 = of_Z (Z.of_nat (S k))
  /\ last_frame c = (k =? 30)%nat
  /\ (k = 30%nat -> frame t c = t).
Proof.
  intros Ht Hk. pose proof frames_checked as C.
  rewrite forallb_forall in C. specialize (C t Ht).
  rewrite forallb_forall in C. specialize (C k).
  assert (Hin : In k (seq 0 31)) by (apply in_seq; lia).
  specialize (C Hin). unfold frame_check in C.
  repeat (apply andb_prop in C; destruct C as [C ?]).
  repeat apply conj.
  - apply mem_In. assumption.
  - assumption.
  - assumption.
  - apply FloatAxioms.Leibniz.eqb_spec. assumption.
  - apply Bool.eqb_prop. assumption.
  - intros ->. apply FloatAxioms.Leibniz.eqb_spec. assumption.
Qed.

(** ** The Display Surface as a state machine *)

Lemma Object_is_refl (v : JsValue) : Object_is v v = true.
Proof.
  destruct v; simpl; try reflexivity.
  - apply Bool.eqb_reflx.
  - apply FloatAxioms.Leibniz.eqb_spec. reflexivity.
  - apply String.eqb_refl.
  - apply Nat.eqb_refl.
  - apply Nat.eqb_refl.
Qed.

Lemma zero_in_scores : In 0 scores.
Proof. right. left. reflexivity. Qed.

Lemma empty_in_scores : categories_in scores App.EMPTY_CATEGORIES.
Proof. repeat split; apply zero_in_scores. Qed.

Lemma null_nan_free : nan_free JNull.
Proof. repeat constructor; discriminate. Qed.

Lemma live_step_inv (c : float) :
  In c live_steps -> exists k, (k < 31)%nat /\ c = of_Z (Z.of_nat k).
Proof.
  intros H. apply in_map_iff in H. destruct H as [k [E H]].
  exists k. apply in_seq in H. split; [lia | congruence].
Qed.

Lemma live_step_intro (k : nat) :
  (k < 31)%nat -> In (of_Z (Z.of_nat k)) live_steps.
Proof.
  intros H. apply in_map_iff. exists k. split; [reflexivity|].
  apply in_seq. lia.
Qed.

(** The two lists are used as sets from here on. *)
Opaque scores live_steps.

Section Surface.

Variable ToNumber : JsValue -> float.
Variable trim : string -> string.
Variable vscode : bool.

Let step := App.step ToNumber trim vscode.
Let dispatch := App.dispatch trim vscode.
Let commit := App.commit ToNumber.
Let run := App.run ToNumber trim vscode.
Let mount := App.mount ToNumber.
Let targets := Spec.targets ToNumber.
Let ticks := Spec.ticks ToNumber trim vscode.
Let on_error := Spec.on_error ToNumber trim vscode.
Let on_result := Spec.on_result ToNumber trim vscode.

Lemma commit_unchanged (previous : JsValue) (w : App.Surface) :
  App.resultData (App.state w) = previous -> commit previous w = w.
Proof.
  intros <-. unfold commit, App.commit. rewrite Object_is_refl. reflexivity.
Qed.

Lemma scoreEffect_ok (s : App.State) :
  nan_free (App.resultData s) ->
  let '(s', i) := App.scoreEffect ToNumber s in
  App.displayOverallScore s' = 0
  /\ App.displayCategoryScores s' = App.EMPTY_CATEGORIES
  /\ App.resultData s' = App.resultData s
  /\ match i with Some a => animation_ok a | None => True end.
Proof.
  intros N. unfold App.scoreEffect.
  destruct (negb (truthy (App.resultData s))); simpl.
  - repeat split.
  - do 3 (split; [reflexivity|]).
    unfold nan_free, raw_scores in N.
    repeat match goal with
    | H : Forall _ (_ :: _) |- _ => inversion_clear H
    end.
    unfold animation_ok, categories_in; cbn.
    repeat split; try (apply clampScore_in_scores; assumption).
    apply (live_step_intro 0). lia.
Qed.

Lemma commit_ok (previous : JsValue) (w : App.Surface) :
  surface_ok w -> surface_ok (commit previous w).
Proof.
  intros H. unfold commit, App.commit.
  destruct (Object_is previous _); [exact H|].
  destruct H as (_ & _ & N & _).
  pose proof (scoreEffect_ok _ N) as E.
  destruct (App.scoreEffect ToNumber (App.state w)) as [s' i].
  destruct E as (E1 & E2 & E3 & E4).
  unfold surface_ok; simpl. rewrite E1, E2, E3.
  repeat split; auto using zero_in_scores, empty_in_scores.
  all: apply zero_in_scores.
Qed.

Lemma intervalCallback_frames (a : App.Animation) (s : App.State) :
  let '(s', i) := App.intervalCallback a s in
  let c := App.currentStep a in
  App.displayOverallScore s' = frame (App.targetOverall a) c
  /\ App.displayCategoryScores s' =
       {| App.bug := frame (App.bug (App.targetCategories a)) c;
          App.maintainability :=
            frame (App.maintainability (App.targetCategories a)) c;
          App.style := frame (App.style (App.targetCategories a)) c;
          App.security := frame (App.security (App.targetCategories a)) c |}
  /\ App.resultData s' = App.resultData s
  /\ i = if last_frame c then None
         else Some {| App.targetOverall := App.targetOverall a;
                      App.targetCategories := App.targetCategories a;
                      App.currentStep := c + 1 |}.
Proof. repeat split. Qed.

Lemma intervalCallback_ok (a : App.Animation) (s : App.State) :
  animation_ok a ->
  let '(s', i) := App.intervalCallback a s in
  In (App.displayOverallScore s') scores
  /\ categories_in scores (App.displayCategoryScores s')
  /\ match i with Some a' => animation_ok a' | None => True end.
Proof.
  intros (Ho & (Hb & Hm & Hs & Hx) & Hc).
  pose proof (intervalCallback_frames a s) as F.
  destruct (App.intervalCallback a s) as [s' i].
  destruct F as (F1 & F2 & _ & F4). rewrite F1, F2, F4. clear F1 F2 F4.
  apply live_step_inv in Hc. destruct Hc as [k [Hk Hc]]. rewrite Hc.
  pose proof (fun t Ht => frame_facts t k Ht Hk) as F. cbv zeta in F.
  split; [apply F, Ho|].
  split; [repeat split; apply F; assumption|].
  destruct (F _ Ho) as (_ & _ & _ & E & L & _). rewrite L.
  destruct (Nat.eqb_spec k 30) as [-> | Hn]; [exact I|].
  repeat split; try assumption. cbn. rewrite E. apply live_step_intro. lia.
Qed.

Lemma dispatch_ok (e : App.Event) (w : App.Surface) :
  event_ok e -> surface_ok w -> surface_ok (dispatch e w).
Proof.
  intros He Hw. destruct w as [s i p].
  pose proof zero_in_scores as Z. pose proof empty_in_scores as E.
  pose proof null_nan_free as N.
  unfold dispatch, App.dispatch, App.update, App.perform.
  destruct e as [data | | ctrlKey metaKey key | | value | value | id | | |];
    cbn [App.state App.interval App.posted].
  - destruct data as [[payload | payload | payload | payload | ty payload] |];
      destruct Hw as (H1 & H2 & H3 & H4);
      (split; [| split; [| split]]); cbn in *; auto.
  - destruct (App.isLoading s); [exact Hw|].
    unfold App.handleAnalyze.
    destruct (trim (App.code s) =? "")%string;
      [| destruct (App.selectedModel s =? "")%string;
         [| destruct (negb vscode)]];
      destruct Hw as (H1 & H2 & H3 & H4);
      (split; [| split; [| split]]); cbn in *; auto.
  - unfold App.handleCodeKeyDown, App.handleAnalyze.
    destruct ((ctrlKey || metaKey) && (key =? "Enter")%string);
      [destruct (negb (App.isLoading s));
       [destruct (trim (App.code s) =? "")%string;
        [| destruct (App.selectedModel s =? "")%string;
           [| destruct (negb vscode)]] |] |];
      destruct Hw as (H1 & H2 & H3 & H4);
      (split; [| split; [| split]]); cbn in *; auto.
  - exact Hw.
  - exact Hw.
  - exact Hw.
  - unfold App.onTabClick.
    destruct (App.isLoading s && _); [exact Hw|].
    destruct id; exact Hw.
  - destruct i as [a|]; [|exact Hw].
    destruct Hw as (H1 & H2 & H3 & H4). cbn in H4.
    pose proof (intervalCallback_ok a s H4) as K.
    pose proof (intervalCallback_frames a s) as F.
    destruct (App.intervalCallback a s) as [s' i'].
    destruct K as (K1 & K2 & K3). destruct F as (_ & _ & F3 & _).
    (split; [| split; [| split]]); cbn [App.state App.interval App.posted];
      try assumption.
    rewrite F3. exact H3.
  - exact Hw.
  - exact Hw.
Qed.

Lemma step_ok (e : App.Event) (w : App.Surface) :
  event_ok e -> surface_ok w -> surface_ok (step e w).
Proof.
  intros He Hw. apply commit_ok, dispatch_ok; assumption.
Qed.

Lemma mount_ok : surface_ok mount.
Proof.
  unfold mount, App.mount. cbn.
  (split; [| split; [| split]]); cbn;
    auto using zero_in_scores, empty_in_scores, null_nan_free.
Qed.

Lemma run_ok (events : list App.Event) :
  forall w, Forall event_ok events -> surface_ok w ->
  surface_ok (run events w).
Proof.
  induction events as [| e events IH]; intros w He Hw; [exact Hw|].
  inversion_clear He. apply IH; [assumption|]. apply step_ok; assumption.
Qed.

(** *** One run of the animation *)

Lemma tick_step (w : App.Surface) (a : App.Animation) :
  App.interval w = Some a ->
  step App.IntervalTick w =
    {| App.state := fst (App.intervalCallback a (App.state w));
       App.interval := snd (App.intervalCallback a (App.state w));
       App.posted := App.posted w |}.
Proof.
  intros H. unfold step, App.step, App.dispatch. rewrite H.
  pose proof (intervalCallback_frames a (App.state w)) as F.
  destruct (App.intervalCallback a (App.state w)) as [s' i].
  destruct F as (_ & _ & F & _).
  apply commit_unchanged. exact F.
Qed.

(** While it runs, the interval holds the counter [k] after [k] callbacks,
    and the display shows the frames computed from [k - 1]; the 31st
    callback clears it. *)
Lemma ticks_running (w : App.Surface) (a : App.Animation) :
  App.interval w = Some (started a 0) ->
  In (App.targetOverall a) scores ->
  forall k, (k < 31)%nat ->
  App.interval (ticks k w) = Some (started a k)
  /\ displayed (App.state (ticks (S k) w)) = frames a (of_Z (Z.of_nat k))
  /\ App.interval (ticks (S k) w) =
       if (k =? 30)%nat then None else Some (started a (S k)).
Proof.
  intros H0 Ht.
  assert (R : forall k, (k < 31)%nat ->
            App.interval (ticks k w) = Some (started a k) ->
            displayed (App.state (ticks (S k) w)) = frames a (of_Z (Z.of_nat k))
            /\ App.interval (ticks (S k) w) =
                 if (k =? 30)%nat then None else Some (started a (S k))).
  { intros k Hk Hi.
    change (ticks (S k) w) with (step App.IntervalTick (ticks k w)).
    rewrite (tick_step _ _ Hi).
    pose proof (intervalCallback_frames (started a k) (App.state (ticks k w))) as F.
    destruct (App.intervalCallback _ _) as [s' i].
    destruct F as (F1 & F2 & _ & F4). cbn [fst snd App.state App.interval].
    split.
    - unfold displayed. rewrite F1, F2. reflexivity.
    - rewrite F4. cbn [started App.currentStep App.targetOverall App.targetCategories].
      destruct (frame_facts _ k Ht Hk) as (_ & _ & _ & E & L & _).
      rewrite L, E. reflexivity. }
  induction k as [| k IH]; intros Hk.
  - split; [exact H0 | apply R; [lia | exact H0]].
  - destruct IH as (_ & _ & I); [lia|].
    destruct (Nat.eqb_spec k 30) as [-> | _]; [lia|].
    split; [exact I | apply R; [lia | exact I]].
Qed.

Lemma frames_facts (a : App.Animation) (k : nat) :
  animation_ok (started a 0) -> (k < 31)%nat ->
  let ts := [ App.targetOverall a;
              App.bug (App.targetCategories a);
              App.maintainability (App.targetCategories a);
              App.style (App.targetCategories a);
              App.security (App.targetCategories a) ] in
  le_all (match k with
          | O => zeros
          | S j => frames a (of_Z (Z.of_nat j))
          end) (frames a (of_Z (Z.of_nat k)))
  /\ le_all (frames a (of_Z (Z.of_nat k))) ts
  /\ le_all zeros ts
  /\ (k = 30%nat -> frames a (of_Z (Z.of_nat k)) = ts).
Proof.
  intros (Ho & (Hb & Hm & Hs & Hx) & _) Hk.
  cbn [started App.targetOverall App.targetCategories] in Ho, Hb, Hm, Hs, Hx.
  pose proof (fun t Ht => frame_facts t k Ht Hk) as F. cbv zeta in F.
  pose proof (fun t Ht => proj1 (andb_prop _ _ (scores_in_range t Ht))) as Z.
  unfold geb in Z.
  destruct (F _ Ho) as (_ & A1 & B1 & _ & _ & C1).
  destruct (F _ Hb) as (_ & A2 & B2 & _ & _ & C2).
  destruct (F _ Hm) as (_ & A3 & B3 & _ & _ & C3).
  destruct (F _ Hs) as (_ & A4 & B4 & _ & _ & C4).
  destruct (F _ Hx) as (_ & A5 & B5 & _ & _ & C5).
  repeat apply conj.
  - destruct k; repeat constructor; assumption.
  - repeat constructor; assumption.
  - repeat constructor; apply Z; assumption.
  - intros E. unfold frames.
    rewrite (C1 E), (C2 E), (C3 E), (C4 E), (C5 E). reflexivity.
Qed.


(** *** What the effect leaves alone *)

(** Running the effect changes the displayed scores at most; when they are
    zero already they stay zero. *)
Lemma commit_frame (previous : JsValue) (w : App.Surface) :
  let s := App.state w in
  let s' := App.state (commit previous w) in
  App.posted (commit previous w) = App.posted w
  /\ App.code s' = App.code s
  /\ App.filePath s' = App.filePath s
  /\ App.languageId s' = App.languageId s
  /\ App.mode s' = App.mode s
  /\ App.isLoading s' = App.isLoading s
  /\ App.activeTab s' = App.activeTab s
  /\ App.resultMessage s' = App.resultMessage s
  /\ App.resultData s' = App.resultData s
  /\ App.codeHighlight s' = App.codeHighlight s
  /\ App.hasNewResult s' = App.hasNewResult s
  /\ App.isError s' = App.isError s
  /\ App.modelError s' = App.modelError s
  /\ (displayed s = zeros -> displayed s' = zeros).
Proof.
  unfold commit, App.commit. destruct (Object_is _ _); [repeat split; auto|].
  unfold App.scoreEffect. cbv zeta.
  destruct (negb (truthy _)); repeat split.
Qed.

Lemma displayed_zeros (s : App.State) :
  displayed s = zeros ->
  App.displayOverallScore s = 0
  /\ App.displayCategoryScores s = App.EMPTY_CATEGORIES.
Proof.
  unfold displayed, zeros. destruct (App.displayCategoryScores s).
  cbn. intros H. injection H as -> -> -> -> ->. split; reflexivity.
Qed.

(** *** Messages from the controller *)

(** C4.  Whatever the state, a [NEW_CODE] message leaves the displayed
    overall and category scores at 0, the result data cleared ([null]), the
    error flag off, the code tab active and the code buffer (with its file
    path, language and mode) replaced by the payload; nothing is posted. *)
Theorem new_code_resets (w : App.Surface) (payload : NewCode.payload) :
  let w' := step (App.WindowMessage (Some (NEW_CODE payload))) w in
  let s' := App.state w' in
  App.displayOverallScore s' = 0
  /\ App.displayCategoryScores s' = App.EMPTY_CATEGORIES
  /\ App.resultData s' = JNull
  /\ App.isError s' = false
  /\ App.activeTab s' = App.tab_code
  /\ App.code s' = NewCode.code payload
  /\ App.filePath s' = NewCode.filePath payload
  /\ App.languageId s' = NewCode.languageId payload
  /\ App.mode s' = Some (NewCode.mode payload)
  /\ App.isLoading s' = false
  /\ App.hasNewResult s' = false
  /\ App.codeHighlight s' = true
  /\ App.posted w' = App.posted w.
Proof.
  cbv zeta. unfold step, App.step. fold commit.
  set (w1 := App.dispatch trim vscode _ w).
  destruct (commit_frame (App.resultData (App.state w)) w1)
    as (P & C & F & L & M & I & A & _ & R & H & N & E & _ & D).
  destruct (displayed_zeros _ (D eq_refl)) as [D1 D2].
  rewrite D1, D2, R, E, A, C, F, L, M, I, N, H, P.
  repeat split.
Qed.

Lemma on_error_state (p : string) (w : App.Surface) :
  App.resultData (App.state (on_error p w)) = JNull
  /\ App.isError (App.state (on_error p w)) = true.
Proof.
  unfold on_error, Spec.on_error, App.step. fold commit.
  set (w1 := App.dispatch trim vscode _ w).
  destruct (commit_frame (App.resultData (App.state w)) w1)
    as (_ & _ & _ & _ & _ & _ & _ & _ & R & _ & _ & E & _).
  rewrite R, E. split; reflexivity.
Qed.

Lemma on_result_state (payload : JsValue) (w : App.Surface) :
  App.resultData (App.state (on_result payload w)) = payload
  /\ App.isError (App.state (on_result payload w)) = false.
Proof.
  unfold on_result, Spec.on_result, App.step. fold commit.
  set (w1 := App.dispatch trim vscode _ w).
  destruct (commit_frame (App.resultData (App.state w)) w1)
    as (_ & _ & _ & _ & _ & _ & _ & _ & R & _ & _ & E & _).
  rewrite R, E. split; reflexivity.
Qed.

(** C5 (as amended).  [ANALYZE_ERROR] clears the result data and sets the
    error flag; [ANALYZE_RESULT] stores the payload and clears the error
    flag.  So after an [ANALYZE_ERROR] exactly one of the two (the error
    flag) is active, and after an [ANALYZE_RESULT] with a truthy payload
    exactly one (the result data) is, whatever came before, in particular
    the other message. *)
Theorem result_and_error_exclusive :
  (forall p w,
     let s' := App.state (on_error p w) in
     App.resultData s' = JNull /\ App.isError s' = true /\ exactly_one s')
  /\ (forall payload w,
        let s' := App.state (on_result payload w) in
        App.resultData s' = payload /\ App.isError s' = false
        /\ (truthy payload = true -> exactly_one s'))
  /\ (forall p payload w,
        truthy payload = true ->
        exactly_one (App.state (on_result payload (on_error p w)))
        /\ exactly_one (App.state (on_error p (on_result payload w)))).
Proof.
  assert (E : forall p w, exactly_one (App.state (on_error p w))).
  { intros p w. destruct (on_error_state p w) as [R I].
    unfold exactly_one, has_result. rewrite R, I. reflexivity. }
  assert (R : forall payload w, truthy payload = true ->
                exactly_one (App.state (on_result payload w))).
  { intros payload w T. destruct (on_result_state payload w) as [R I].
    unfold exactly_one, has_result. rewrite R, I, T. reflexivity. }
  repeat apply conj.
  - intros p w. cbv zeta. destruct (on_error_state p w). auto.
  - intros payload w. cbv zeta. destruct (on_result_state payload w). auto.
  - intros p payload w T. split; [apply R, T | apply E].
Qed.

(** *** The analyze action *)

(** No handler of an analyze event touches the tab or posts anything unless
    [handleAnalyze] does. *)
Lemma analyze_event_quiet (e : App.Event) (w : App.Surface) :
  analyze_event e ->
  snd (App.handleAnalyze trim vscode (App.state w)) = [] ->
  App.activeTab (fst (App.handleAnalyze trim vscode (App.state w)))
    = App.activeTab (App.state w) ->
  App.posted (step e w) = App.posted w
  /\ App.activeTab (App.state (step e w)) = App.activeTab (App.state w).
Proof.
  intros He Hout Htab.
  unfold step, App.step. fold commit.
  destruct (commit_frame (App.resultData (App.state w))
              (App.dispatch trim vscode e w))
    as (C1 & _ & _ & _ & _ & _ & C2 & _). rewrite C1, C2. clear C1 C2.
  destruct (App.handleAnalyze trim vscode (App.state w)) as [s' out] eqn:H.
  cbn [fst snd] in Hout, Htab. subst out.
  destruct He as [-> | (ctrlKey & metaKey & key & ->)];
    cbn [App.dispatch]; unfold App.perform.
  - destruct (App.isLoading (App.state w)); [split; reflexivity|].
    rewrite H. cbn [App.state App.posted]. rewrite app_nil_r.
    split; [reflexivity | exact Htab].
  - unfold App.handleCodeKeyDown.
    destruct ((ctrlKey || metaKey) && (key =? "Enter")%string);
      [destruct (negb (App.isLoading (App.state w))) |];
      rewrite ?H; cbn [App.state App.posted]; rewrite app_nil_r;
      split; auto.
Qed.

(** C7.  When the analyze action runs on a code buffer that is blank after
    trimming, no message is emitted (so no [REQUEST_ANALYZE]) and the active
    tab stays as it was; the guidance message is shown, the result data and
    the displayed scores are cleared, and the error and new-result flags are
    off.  The same holds of the button click and the key press that trigger
    the action: nothing is posted and the tab is unchanged. *)
Theorem analyze_blank_code :
  (forall s, trim (App.code s) = "" ->
     let '(s', out) := App.handleAnalyze trim vscode s in
     out = []
     /\ App.activeTab s' = App.activeTab s
     /\ App.resultMessage s' =
          "분석할 코드가 없습니다. VS Code에서 코드를 선택 후 실행하거나 왼쪽에 코드를 붙여넣어 주세요."
     /\ App.resultData s' = JNull
     /\ displayed s' = zeros
     /\ App.isError s' = false
     /\ App.hasNewResult s' = false
     /\ App.isLoading s' = App.isLoading s
     /\ App.code s' = App.code s)
  /\ (forall e w, analyze_event e -> trim (App.code (App.state w)) = "" ->
        App.posted (step e w) = App.posted w
        /\ App.activeTab (App.state (step e w)) = App.activeTab (App.state w)).
Proof.
  split.
  - intros s H. unfold App.handleAnalyze. rewrite H.
    rewrite String.eqb_refl. repeat split.
  - intros e w He H. apply analyze_event_quiet; [exact He | |];
      unfold App.handleAnalyze; rewrite H, String.eqb_refl; reflexivity.
Qed.

(** C8.  When the analyze action runs on non-blank code with no model
    selected, the error flag and the model-selection error are set, no
    message is emitted (so no [REQUEST_ANALYZE]) and the active tab stays as
    it was; likewise for the click and the key press that trigger it. *)
Theorem analyze_without_model :
  (forall s, trim (App.code s) <> "" -> App.selectedModel s = "" ->
     let '(s', out) := App.handleAnalyze trim vscode s in
     out = []
     /\ App.isError s' = true
     /\ App.modelError s' = true
     /\ App.activeTab s' = App.activeTab s
     /\ App.resultMessage s' = "사용할 모델을 먼저 선택해 주세요."
     /\ App.isLoading s' = App.isLoading s)
  /\ (forall e w, analyze_event e ->
        trim (App.code (App.state w)) <> "" ->
        App.selectedModel (App.state w) = "" ->
        App.posted (step e w) = App.posted w
        /\ App.activeTab (App.state (step e w)) = App.activeTab (App.state w)).
Proof.
  split.
  - intros s H M. unfold App.handleAnalyze.
    apply String.eqb_neq in H. rewrite H, M.
    rewrite String.eqb_refl. repeat split.
  - intros e w He H M. apply String.eqb_neq in H.
    apply analyze_event_quiet; [exact He | |];
      unfold App.handleAnalyze; rewrite H, M, String.eqb_refl; reflexivity.
Qed.

(** *** What the surface posts *)

Lemma handleAnalyze_posts (s : App.State) :
  Forall is_request_analyze (snd (App.handleAnalyze trim vscode s)).
Proof.
  unfold App.handleAnalyze.
  destruct (trim (App.code s) =? "")%string; [constructor|].
  destruct (App.selectedModel s =? "")%string; [constructor|].
  destruct (negb vscode); [constructor|].
  repeat constructor.
Qed.

Lemma step_posts (e : App.Event) (w : App.Surface) :
  Forall is_request_analyze (App.posted w) ->
  Forall is_request_analyze (App.posted (step e w)).
Proof.
  intros H. unfold step, App.step. fold commit.
  rewrite (proj1 (commit_frame _ _)).
  pose proof (handleAnalyze_posts (App.state w)) as A.
  destruct e as [data | | ctrlKey metaKey key | | value | value | id | | |];
    cbn [App.dispatch]; unfold App.update, App.perform; try exact H.
  - destruct (App.isLoading (App.state w)); [exact H|].
    destruct (App.handleAnalyze trim vscode (App.state w)) as [s' out].
    apply Forall_app. split; [exact H | exact A].
  - unfold App.handleCodeKeyDown.
    destruct ((ctrlKey || metaKey) && (key =? "Enter")%string);
      [destruct (negb (App.isLoading (App.state w))) |];
      try (cbn [App.posted]; rewrite app_nil_r; exact H).
    destruct (App.handleAnalyze trim vscode (App.state w)) as [s' out].
    apply Forall_app. split; [exact H | exact A].
  - cbn. rewrite app_nil_r. exact H.
  - destruct (App.interval w); [|exact H].
    destruct (App.intervalCallback _ _). exact H.
Qed.

Lemma run_posts (events : list App.Event) :
  forall w, Forall is_request_analyze (App.posted w) ->
  Forall is_request_analyze (App.posted (run events w)).
Proof.
  induction events as [| e events IH]; intros w H; [exact H|].
  apply IH, step_posts, H.
Qed.

(** C10.  The handler of the load-full-document button posts nothing: it
    sets the status message to the not-yet-implemented notice and clears the
    error and new-result flags, and leaves the code buffer, the active tab,
    the result data, the displayed scores and every other cell as they were;
    clicking the button does the same and leaves the interval alone.  Every
    message the surface posts, in any run from its mount, is a
    [REQUEST_ANALYZE]; none is a [REQUEST_FULL_DOCUMENT]. *)
Theorem load_full_document_inert :
  (forall s,
     let '(s', out) := App.handleLoadFullDocument s in
     out = []
     /\ App.resultMessage s' = "현재 파일 전체 가져오기는 추후 구현 예정입니다."
     /\ App.isError s' = false
     /\ App.hasNewResult s' = false
     /\ App.code s' = App.code s
     /\ App.activeTab s' = App.activeTab s
     /\ App.resultData s' = App.resultData s
     /\ App.displayOverallScore s' = App.displayOverallScore s
     /\ App.displayCategoryScores s' = App.displayCategoryScores s
     /\ App.filePath s' = App.filePath s
     /\ App.languageId s' = App.languageId s
     /\ App.mode s' = App.mode s
     /\ App.isLoading s' = App.isLoading s
     /\ App.selectedModel s' = App.selectedModel s
     /\ App.modelError s' = App.modelError s
     /\ App.codeHighlight s' = App.codeHighlight s
     /\ App.resultHighlight s' = App.resultHighlight s)
  /\ (forall w,
        let w' := step App.LoadFullDocumentClick w in
        App.posted w' = App.posted w
        /\ App.interval w' = App.interval w
        /\ App.state w' = fst (App.handleLoadFullDocument (App.state w)))
  /\ (forall events,
        Forall (fun m => type m = "REQUEST_ANALYZE"
                         /\ type m <> "REQUEST_FULL_DOCUMENT")
          (App.posted (run events mount))).
Proof.
  repeat apply conj.
  - intros s. repeat split.
  - intros w. cbv zeta. unfold step, App.step. fold commit.
    rewrite commit_unchanged by reflexivity.
    cbn [App.dispatch]. unfold App.perform, App.handleLoadFullDocument.
    cbn [App.posted App.interval App.state fst]. rewrite app_nil_r.
    repeat split.
  - intros events.
    assert (H : Forall is_request_analyze (App.posted (run events mount))).
    { apply run_posts. constructor. }
    eapply Forall_impl; [|exact H].
    intros m E. unfold is_request_analyze in E. rewrite E.
    split; [reflexivity | discriminate].
Qed.

End Surface.

(** ** Closed examples for the Display Surface *)

Lemma number_not_nan (x : float) :
  is_nan x = false -> JNumber x <> JNumber nan.
Proof.
  intros H E. injection E as ->. vm_compute in H. discriminate.
Qed.

Lemma sample_result_nan_free : nan_free sample_result.
Proof.
  repeat constructor; apply number_not_nan; reflexivity.
Qed.


(** No delivered result has the number NaN as a score.  Were one to, the
    target would be NaN, and so would the displayed score after the first
    callback. *)
Lemma displayed_score_nan :
  let payload := JObject 1 [("quality_score", JNumber nan)] in
  let w := App.run sampleToNumber sampleTrim true
             [ App.WindowMessage (Some (ANALYZE_RESULT payload));
               App.IntervalTick ]
             (App.mount sampleToNumber) in
  App.displayOverallScore (App.state w) = nan
  /\ in_range (App.displayOverallScore (App.state w)) = false.
Proof. split; vm_compute; reflexivity. Qed.

(** The amended C5 on the scenario's result, in both orders. *)
Lemma result_and_error_exclusive_witness :
  exactly_one
    (App.state
       (on_result sampleToNumber sampleTrim true sample_result
          (on_error sampleToNumber sampleTrim true "HTTP 500: internal error"
             (App.mount sampleToNumber))))
  /\ exactly_one
       (App.state
          (on_error sampleToNumber sampleTrim true "HTTP 500: internal error"
             (on_result sampleToNumber sampleTrim true sample_result
                (App.mount sampleToNumber)))).
Proof.
  apply (result_and_error_exclusive sampleToNumber sampleTrim true).
  reflexivity.
Defined.

(** C5 as stated fails on an [ANALYZE_RESULT] whose payload is [null] (the
    JSON body [null]): the result data stays absent and the error flag is
    cleared, so neither is active. *)
Lemma result_null_neither :
  let s' := App.state (on_result sampleToNumber sampleTrim true JNull
                         (App.mount sampleToNumber)) in
  has_result s' = false /\ App.isError s' = false /\ ~ exactly_one s'.
Proof.
  cbv zeta. repeat apply conj; try reflexivity.
  unfold exactly_one. vm_compute. discriminate.
Qed.

(** C7 on a buffer of three spaces. *)
Lemma analyze_blank_code_witness :
  let s := App.setCode "   " App.initialState in
  snd (App.handleAnalyze sampleTrim true s) = []
  /\ App.activeTab (fst (App.handleAnalyze sampleTrim true s)) = App.activeTab s.
Proof.
  cbv zeta.
  pose proof (proj1 (analyze_blank_code sampleToNumber sampleTrim true)
                (App.setCode "   " App.initialState) eq_refl) as H.
  destruct (App.handleAnalyze sampleTrim true _) as [s' out].
  destruct H as (H1 & H2 & _). split; assumption.
Defined.

(** C8 on the code [x=1] with the model still unselected. *)
Lemma analyze_without_model_witness :
  let s := App.setCode "x=1" App.initialState in
  snd (App.handleAnalyze sampleTrim true s) = []
  /\ App.isError (fst (App.handleAnalyze sampleTrim true s)) = true
  /\ App.modelError (fst (App.handleAnalyze sampleTrim true s)) = true.
Proof.
  cbv zeta.
  assert (N : sampleTrim (App.code (App.setCode "x=1" App.initialState)) <> "")
    by discriminate.
  pose proof (proj1 (analyze_without_model sampleToNumber sampleTrim true)
                (App.setCode "x=1" App.initialState) N eq_refl) as H.
  destruct (App.handleAnalyze sampleTrim true _) as [s' out].
  destruct H as (H1 & H2 & H3 & _). repeat split; assumption.
Defined.

(** ** The Host Controller *)

Lemma append_nil_r (s : string) : s ++ "" = s.
Proof. induction s as [| c s IH]; [reflexivity | cbn; rewrite IH; reflexivity]. Qed.

Lemma append_assoc (a b c : string) : (a ++ b) ++ c = a ++ (b ++ c).
Proof. induction a as [| x a IH]; [reflexivity | cbn; rewrite IH; reflexivity]. Qed.

Section Controller.

Variable trim : string -> string.
Variable network :
  string -> Extension.FetchInit -> Extension.Outcome Extension.Response.

Let handler := Extension.onDidReceiveMessage trim network.

Import Extension.

(** C2.  On a [REQUEST_ANALYZE] message: if the code is blank after trimming
    the handler posts [ANALYZE_ERROR] and fetches nothing; otherwise it
    posts a progress notice, makes exactly one HTTP POST to the review
    endpoint with the body {code_snippet, language, file_path} (plus the
    model when given), and then posts exactly one reply: [ANALYZE_ERROR]
    with the thrown value's message, or the generic fallback, when the fetch
    or the reading of the body throws; [ANALYZE_ERROR] with "HTTP", the
    status code and the raw body text on a status outside 200-299; and
    [ANALYZE_RESULT] with the parsed JSON body, unmodified, on a status
    within.  The handler itself never throws. *)
Theorem request_analyze_handled (closure : Panel)
    (activeTextEditor : option TextEditor) (m : WebviewMessage) :
  type m = "REQUEST_ANALYZE" ->
  let p := orElse (payload m) (Request.mk None None None None) in
  let init := review_request closure p in
  let result := handler closure activeTextEditor (Some m) in
  let started := [PostMessage progress_notice; Fetch REVIEW_API_URL init] in
  (trim (orElse (Request.code p) "") = "" ->
     result = ([PostMessage (ANALYZE_ERROR "분석할 코드가 비어 있습니다.")],
               Returned tt))
  /\ (trim (orElse (Request.code p) "") <> "" ->
        (forall t, network REVIEW_API_URL init = Threw t ->
           result = ((started ++ [PostMessage (ANALYZE_ERROR (describe t))])%list,
                     Returned tt))
        /\ (forall r txt,
              network REVIEW_API_URL init = Returned r ->
              ok r = false -> text r = Returned txt ->
              let message := "HTTP " ++ string_of_nat (status r) ++ ": " ++ txt in
              result = ((started ++ [PostMessage (ANALYZE_ERROR message)])%list,
                        Returned tt)
              /\ contains (string_of_nat (status r)) message
              /\ contains txt message)
        /\ (forall r data,
              network REVIEW_API_URL init = Returned r ->
              ok r = true -> json r = Returned data ->
              result = ((started ++ [PostMessage (ANALYZE_RESULT data)])%list,
                        Returned tt))
        /\ (forall r t,
              network REVIEW_API_URL init = Returned r ->
              (ok r = false /\ text r = Threw t)
              \/ (ok r = true /\ json r = Threw t) ->
              result = ((started ++ [PostMessage (ANALYZE_ERROR (describe t))])%list,
                        Returned tt))).
Proof.
  intros T p init result started.
  assert (R : result =
    if (trim (orElse (Request.code p) "") =? "")%string
    then ([PostMessage (ANALYZE_ERROR "분석할 코드가 비어 있습니다.")], Returned tt)
    else
      try_catch
        (perform (PostMessage progress_notice) ;;
         response <- fetch network REVIEW_API_URL init ;;
         if negb (ok response) then
           text <- await (text response) ;;
           throw (ErrorObject
             ("HTTP " ++ string_of_nat (status response) ++ ": " ++ text))
         else
           data <- await (json response) ;;
           perform (PostMessage (ANALYZE_RESULT data)))
        (fun error => perform (PostMessage (ANALYZE_ERROR (describe error))))).
  { unfold result, handler, onDidReceiveMessage. rewrite T.
    cbn [String.eqb Ascii.eqb Bool.eqb andb].
    fold p. destruct (trim (orElse (Request.code p) "") =? "")%string;
      reflexivity. }
  split.
  - intros B. rewrite R, B, String.eqb_refl. reflexivity.
  - intros B. apply String.eqb_neq in B. rewrite B in R.
    unfold fetch in R.
    repeat apply conj.
    + intros t N. rewrite R, N. reflexivity.
    + intros r txt N K X message. rewrite R, N. cbn.
      rewrite K, X. cbn. repeat split.
      * exists "HTTP ", (": " ++ txt). reflexivity.
      * exists ("HTTP " ++ string_of_nat (status r) ++ ": "), "".
        unfold message. rewrite append_nil_r, !append_assoc. reflexivity.
    + intros r data N K J. rewrite R, N. cbn. rewrite K, J. reflexivity.
    + intros r t N [[K X] | [K X]]; rewrite R, N; cbn; rewrite K, X;
        reflexivity.
Qed.

(** C6 (as amended).  When the command [dkmv.analyzeSelection] finds no
    active editor, the user is told so by one toast, no protocol message is
    posted and the panel is left as it was.  When a [REQUEST_FULL_DOCUMENT]
    message finds no active editor, the handler posts one [ANALYZE_ERROR]
    with the same text to the panel and shows no toast. *)
Theorem no_active_editor :
  (forall panel,
     let '(panel', acts) := analyzeSelection trim None panel in
     panel' = panel
     /\ toasts acts = ["열려 있는 파일이 없습니다."]
     /\ posts acts = [])
  /\ (forall closure m,
        type m = "REQUEST_FULL_DOCUMENT" ->
        let acts := actions (handler closure None (Some m)) in
        posts acts = [ANALYZE_ERROR "열려 있는 파일이 없습니다."]
        /\ toasts acts = []).
Proof.
  split.
  - intros panel. cbn. repeat split.
  - intros closure m T. unfold handler, onDidReceiveMessage. rewrite T.
    cbn. split; reflexivity.
Qed.

End Controller.

(** ** Closed examples for the Host Controller *)

(** C2 on that scenario: one POST, then [ANALYZE_ERROR] with
    "HTTP 500: internal error". *)
Lemma request_analyze_handled_witness :
  Extension.actions
    (Extension.onDidReceiveMessage sampleTrim failing_service sample_panel None
       (Some sample_request))
  = [ Extension.PostMessage progress_notice;
      Extension.Fetch Extension.REVIEW_API_URL
        (review_request sample_panel
           (Request.mk (Some "x=1") (Some "/work/main.py") (Some "python")
              (Some "gpt-4.1-mini")));
      Extension.PostMessage (ANALYZE_ERROR "HTTP 500: internal error") ].
Proof.
  pose proof (request_analyze_handled sampleTrim failing_service sample_panel
                None sample_request eq_refl) as H.
  cbv zeta in H. destruct H as [_ H].
  assert (N : sampleTrim "x=1" <> "") by discriminate.
  destruct (H N) as (_ & Status & _).
  destruct (Status _ "internal error" eq_refl eq_refl eq_refl) as [E _].
  rewrite E. reflexivity.
Defined.

(** The amended C6 on a [REQUEST_FULL_DOCUMENT] without payload. *)
Lemma no_active_editor_witness :
  posts (Extension.actions
           (Extension.onDidReceiveMessage sampleTrim failing_service sample_panel
              None (Some {| type := "REQUEST_FULL_DOCUMENT"; payload := None |})))
  = [ANALYZE_ERROR "열려 있는 파일이 없습니다."].
Proof.
  apply (proj2 (no_active_editor sampleTrim failing_service) sample_panel).
  reflexivity.
Defined.

(** C6 as stated fails on the [REQUEST_FULL_DOCUMENT] path: with no active
    editor the handler answers through the protocol, with an
    [ANALYZE_ERROR], and shows no toast. *)
Lemma full_document_without_editor :
  let acts :=
    Extension.actions
      (Extension.onDidReceiveMessage sampleTrim failing_service sample_panel
         None (Some {| type := "REQUEST_FULL_DOCUMENT"; payload := None |})) in
  acts = [Extension.PostMessage (ANALYZE_ERROR "열려 있는 파일이 없습니다.")]
  /\ toasts acts = []
  /\ posts acts <> [].
Proof.
  cbv zeta. repeat apply conj; try reflexivity. discriminate.
Qed.

(* ================================================================== *)
(** * Further properties: submissions, invariants, the controller at
      work, the view, the clipboard and the nonce *)
(* ================================================================== *)

Section SurfaceAtWork.

Variable ToNumber : JsValue -> float.
Variable trim : string -> string.
Variable vscode : bool.

Let step := App.step ToNumber trim vscode.
Let commit := App.commit ToNumber.
Let run := App.run ToNumber trim vscode.
Let mount := App.mount ToNumber.

(** The effect changes the displayed scores at most, and only to zero. *)
Lemma commit_state (previous : JsValue) (w : App.Surface) :
  App.posted (commit previous w) = App.posted w
  /\ (App.state (commit previous w) = App.state w
      \/ App.state (commit previous w) = reset_scores (App.state w)).
Proof.
  unfold commit, App.commit. destruct (Object_is _ _); [auto|].
  unfold App.scoreEffect. cbv zeta.
  destruct (negb (truthy _)); split; auto.
Qed.

Lemma surface_eta (w : App.Surface) :
  {| App.state := App.state w; App.interval := App.interval w;
     App.posted := App.posted w |} = w.
Proof. destruct w. reflexivity. Qed.

Lemma step_handler (h : App.State -> App.State * list WebviewMessage)
    (w : App.Surface) :
  App.resultData (fst (h (App.state w))) = App.resultData (App.state w) ->
  commit (App.resultData (App.state w)) (App.perform h w)
  = {| App.state := fst (h (App.state w));
       App.interval := App.interval w;
       App.posted := (App.posted w ++ snd (h (App.state w)))%list |}.
Proof.
  intros H. unfold App.perform.
  destruct (h (App.state w)) as [s' out]. cbn [fst snd] in *.
  apply commit_unchanged. cbn. exact H.
Qed.

Lemma handleAnalyze_submits (s : App.State) :
  trim (App.code s) <> "" -> App.selectedModel s <> "" -> vscode = true ->
  App.handleAnalyze trim vscode s =
    (App.setActiveTab App.tab_result
       (App.setHasNewResult false
          (App.setIsError false
             (App.setResultMessage "리뷰 요청을 준비 중입니다..."
                (App.setIsLoading true s)))),
     [request_of s]).
Proof.
  intros C M V. unfold App.handleAnalyze.
  apply String.eqb_neq in C. apply String.eqb_neq in M.
  rewrite C, M, V. reflexivity.
Qed.

(** X1.  A click on the analyze button, or Enter with Ctrl or Cmd in the
    code area, while nothing is loading, the code is not blank, a model is
    selected and the VS Code API is there, posts exactly one
    [REQUEST_ANALYZE] carrying the code, the file path, the language and the
    model of the state; the surface starts loading on the result tab with
    the error and new-result flags cleared, and the previous result, the
    displayed scores and the running interval stay as they were. *)
Theorem analyze_submits (w : App.Surface) (e : App.Event) :
  triggers e ->
  App.isLoading (App.state w) = false ->
  trim (App.code (App.state w)) <> "" ->
  App.selectedModel (App.state w) <> "" ->
  vscode = true ->
  let s := App.state w in
  let w' := step e w in
  let s' := App.state w' in
  App.posted w' = (App.posted w ++ [request_of s])%list
  /\ App.isLoading s' = true
  /\ App.activeTab s' = App.tab_result
  /\ App.isError s' = false
  /\ App.hasNewResult s' = false
  /\ App.resultMessage s' = "리뷰 요청을 준비 중입니다..."
  /\ App.resultData s' = App.resultData s
  /\ displayed s' = displayed s
  /\ App.interval w' = App.interval w
  /\ App.code s' = App.code s
  /\ App.selectedModel s' = App.selectedModel s.
Proof.
  intros He L C M V s w' s'.
  assert (W : w' = {| App.state := fst (App.handleAnalyze trim vscode s);
                      App.interval := App.interval w;
                      App.posted := (App.posted w
                                     ++ snd (App.handleAnalyze trim vscode s))%list |}).
  { unfold w', step, App.step. fold commit.
    destruct He as [-> | (ctrlKey & metaKey & -> & K)]; cbn [App.dispatch].
    - rewrite L. apply step_handler.
      fold s. rewrite (handleAnalyze_submits s C M V). reflexivity.
    - etransitivity; [| apply step_handler].
      + f_equal. unfold App.perform, App.handleCodeKeyDown.
        rewrite K, L. reflexivity.
      + fold s. rewrite (handleAnalyze_submits s C M V). reflexivity. }
  unfold s'. rewrite W. rewrite (handleAnalyze_submits s C M V).
  cbn [App.state App.interval App.posted fst snd]. repeat split.
Qed.

(** What triggers [handleAnalyze]: the enabled button and Ctrl/Cmd+Enter. *)
Lemma trigger_runs_handler (e : App.Event) (w : App.Surface) :
  triggers e -> App.isLoading (App.state w) = false ->
  App.dispatch trim vscode e w = App.perform (App.handleAnalyze trim vscode) w.
Proof.
  intros [-> | (ctrlKey & metaKey & -> & K)] L; cbn [App.dispatch].
  - rewrite L. reflexivity.
  - unfold App.perform, App.handleCodeKeyDown. rewrite K, L. reflexivity.
Qed.

Lemma handleAnalyze_no_api (s : App.State) :
  trim (App.code s) <> "" -> App.selectedModel s <> "" -> vscode = false ->
  App.handleAnalyze trim vscode s =
    (App.setHasNewResult false
       (App.setIsError true
          (reset_scores
             (App.setResultData JNull
                (App.setResultMessage "VS Code API를 사용할 수 없습니다." s)))),
     []).
Proof.
  intros C M V. unfold App.handleAnalyze.
  apply String.eqb_neq in C. apply String.eqb_neq in M.
  rewrite C, M, V. reflexivity.
Qed.

(** X2.  The same action in a page without the VS Code API posts nothing:
    the error flag is set with the message that the API is unavailable, the
    result is cleared and the scores shown are zero; the surface does not
    start loading and stays on its tab. *)
Theorem analyze_without_api (w : App.Surface) (e : App.Event) :
  triggers e ->
  App.isLoading (App.state w) = false ->
  trim (App.code (App.state w)) <> "" ->
  App.selectedModel (App.state w) <> "" ->
  vscode = false ->
  let s := App.state w in
  let w' := step e w in
  let s' := App.state w' in
  App.posted w' = App.posted w
  /\ App.isError s' = true
  /\ App.resultMessage s' = "VS Code API를 사용할 수 없습니다."
  /\ App.resultData s' = JNull
  /\ displayed s' = zeros
  /\ App.isLoading s' = false
  /\ App.activeTab s' = App.activeTab s
  /\ App.modelError s' = App.modelError s
  /\ App.code s' = App.code s
  /\ App.selectedModel s' = App.selectedModel s.
Proof.
  intros He L C M V s w' s'.
  unfold s', w', step, App.step. fold commit.
  rewrite (trigger_runs_handler e w He L). unfold App.perform. fold s.
  rewrite (handleAnalyze_no_api s C M V).
  match goal with |- context [commit ?p ?x] =>
    destruct (commit_state p x) as [P [S | S]]; rewrite P, S
  end; cbn [App.state App.posted]; rewrite app_nil_r;
    repeat apply conj; try reflexivity; exact L.
Qed.

(** X3.  While a request is loading, neither the analyze button nor any
    key pressed in the code area changes anything: the surface stays as it
    is and nothing is posted. *)
Theorem no_submit_while_loading (w : App.Surface) (e : App.Event) :
  analyze_event e -> App.isLoading (App.state w) = true -> step e w = w.
Proof.
  intros He L. unfold step, App.step. fold commit.
  assert (D : App.dispatch trim vscode e w = w).
  { destruct He as [-> | (ctrlKey & metaKey & key & ->)]; cbn [App.dispatch].
    - rewrite L. reflexivity.
    - unfold App.perform, App.handleCodeKeyDown. rewrite L. cbn [negb].
      destruct ((ctrlKey || metaKey) && (key =? "Enter")%string);
        cbn; rewrite app_nil_r; apply surface_eta. }
  rewrite D. apply commit_unchanged. reflexivity.
Qed.

(** ** Invariants of the running surface *)

Lemma Object_is_truthy (a b : JsValue) :
  Object_is a b = true -> truthy a = truthy b.
Proof.
  destruct a, b; cbn; try discriminate; try reflexivity.
  - intros H. apply Bool.eqb_prop in H. exact H.
  - intros H. apply FloatAxioms.Leibniz.eqb_spec in H. rewrite H. reflexivity.
  - intros H. apply String.eqb_eq in H. rewrite H. reflexivity.
Qed.

Lemma dispatch_idle (e : App.Event) (w : App.Surface) :
  App.interval w = None -> displayed (App.state w) = zeros ->
  App.interval (App.dispatch trim vscode e w) = None
  /\ displayed (App.state (App.dispatch trim vscode e w)) = zeros.
Proof.
  intros I D.
  destruct e as [data | | ctrlKey metaKey key | | value | value | id | | |];
    cbn [App.dispatch]; unfold App.update, App.perform.
  - cbn [App.interval App.state]. split; [exact I|].
    destruct data as [[payload | payload | payload | payload | t p] |];
      try exact D; reflexivity.
  - destruct (App.isLoading (App.state w)); [auto|].
    unfold App.handleAnalyze.
    destruct (trim _ =? "")%string; [|destruct (App.selectedModel _ =? "")%string;
      [|destruct (negb vscode)]]; cbn [App.interval App.state]; auto.
  - unfold App.handleCodeKeyDown, App.handleAnalyze.
    destruct ((ctrlKey || metaKey) && (key =? "Enter")%string);
      [destruct (negb (App.isLoading (App.state w)));
        [destruct (trim _ =? "")%string; [|destruct (App.selectedModel _ =? "")%string;
          [|destruct (negb vscode)]]|]|]; cbn [App.interval App.state]; auto.
  - cbn [App.handleLoadFullDocument App.interval App.state]. auto.
  - cbn [App.interval App.state]. auto.
  - cbn [App.interval App.state]. auto.
  - cbn [App.interval App.state]. split; [exact I|].
    unfold App.onTabClick. cbv zeta.
    destruct (App.isLoading (App.state w) && _); [exact D|].
    destruct id; exact D.
  - rewrite I. auto.
  - cbn [App.interval App.state]. auto.
  - cbn [App.interval App.state]. auto.
Qed.

Lemma step_quiet (e : App.Event) (w : App.Surface) : quiet w -> quiet (step e w).
Proof.
  intros Q. unfold step, App.step, App.commit.
  destruct (Object_is _ _) eqn:O.
  - intros T. apply Object_is_truthy in O. rewrite <- O in T.
    destruct (Q T) as [D I]. destruct (dispatch_idle e w I D). auto.
  - unfold App.scoreEffect. cbv zeta.
    destruct (negb (truthy _)) eqn:T; intros F; cbn [App.state App.interval].
    + split; reflexivity.
    + change (truthy (App.resultData (App.state (App.dispatch trim vscode e w)))
              = false) in F.
      rewrite F in T. discriminate.
Qed.

Lemma state_ok_reset (s : App.State) : state_ok s -> state_ok (reset_scores s).
Proof. intros H. exact H. Qed.

Lemma handleAnalyze_state_ok (s : App.State) :
  state_ok s -> state_ok (fst (App.handleAnalyze trim vscode s)).
Proof.
  intros (E & L & M). unfold App.handleAnalyze.
  destruct (trim _ =? "")%string;
    [|destruct (App.selectedModel _ =? "")%string eqn:S;
      [|destruct (negb vscode)]]; cbn; unfold state_ok; cbn;
    repeat apply conj; auto; try discriminate.
  intros _. apply String.eqb_eq in S. exact S.
Qed.

Lemma dispatch_state_ok (e : App.Event) (w : App.Surface) :
  state_ok (App.state w) -> state_ok (App.state (App.dispatch trim vscode e w)).
Proof.
  intros H. pose proof (handleAnalyze_state_ok _ H) as A.
  destruct e as [data | | ctrlKey metaKey key | | value | value | id | | |];
    cbn [App.dispatch]; unfold App.update, App.perform.
  - cbn [App.state]. destruct H as (E & L & M).
    destruct data as [[payload | payload | payload | payload | t p] |];
      unfold state_ok; cbn; repeat apply conj; auto; discriminate.
  - destruct (App.isLoading (App.state w)); [exact H|].
    destruct (App.handleAnalyze trim vscode (App.state w)). exact A.
  - unfold App.handleCodeKeyDown.
    destruct ((ctrlKey || metaKey) && (key =? "Enter")%string);
      [destruct (negb (App.isLoading (App.state w)))|]; try exact H.
    destruct (App.handleAnalyze trim vscode (App.state w)). exact A.
  - destruct H as (E & L & M). unfold state_ok; cbn.
    repeat apply conj; auto; discriminate.
  - exact H.
  - destruct H as (E & L & M). unfold state_ok; cbn.
    repeat apply conj; auto; discriminate.
  - cbn [App.state]. unfold App.onTabClick. cbv zeta.
    destruct (App.isLoading (App.state w) && _) eqn:D; [exact H|].
    destruct H as (E & L & M).
    assert (T : App.isLoading (App.state w) = true -> id = App.tab_result).
    { intros K. rewrite K in D. specialize (L K). rewrite L in D.
      destruct id; [discriminate | reflexivity]. }
    destruct id; unfold state_ok; cbn; repeat apply conj; auto.
  - destruct (App.interval w) as [a|]; [|exact H].
    unfold App.intervalCallback. cbv zeta. exact H.
  - exact H.
  - exact H.
Qed.

Lemma step_state_ok (e : App.Event) (w : App.Surface) :
  state_ok (App.state w) -> state_ok (App.state (step e w)).
Proof.
  intros H. unfold step, App.step. fold commit.
  match goal with |- context [commit ?p ?x] =>
    destruct (commit_state p x) as [_ [S | S]]; rewrite S
  end; [| apply state_ok_reset]; apply dispatch_state_ok, H.
Qed.

Lemma handleAnalyze_submitted (s : App.State) :
  Forall (submitted trim) (snd (App.handleAnalyze trim vscode s))
  /\ (vscode = false -> snd (App.handleAnalyze trim vscode s) = []).
Proof.
  unfold App.handleAnalyze.
  destruct (trim (App.code s) =? "")%string eqn:C; [split; [constructor | reflexivity]|].
  destruct (App.selectedModel s =? "")%string eqn:M; [split; [constructor | reflexivity]|].
  destruct vscode; cbn [negb]; [|split; [constructor | reflexivity]].
  split; [|discriminate].
  constructor; [|constructor].
  exists (App.code s), (App.filePath s), (App.languageId s), (App.selectedModel s).
  apply String.eqb_neq in C. apply String.eqb_neq in M.
  repeat split; assumption.
Qed.

(** What one step adds to the posted messages. *)
Lemma step_posted (e : App.Event) (w : App.Surface) :
  exists out, App.posted (step e w) = (App.posted w ++ out)%list
              /\ Forall (submitted trim) out
              /\ (List.length out <= 1)%nat
              /\ (out <> [] -> analyze_event e /\ vscode = true
                               /\ App.isLoading (App.state w) = false).
Proof.
  unfold step, App.step. fold commit.
  rewrite (proj1 (commit_state _ _)).
  assert (N : exists out : list WebviewMessage,
            App.posted w = (App.posted w ++ out)%list
            /\ Forall (submitted trim) out /\ (List.length out <= 1)%nat
            /\ (out <> [] -> analyze_event e /\ vscode = true
                             /\ App.isLoading (App.state w) = false)).
  { exists []. rewrite app_nil_r.
    split; [reflexivity | split; [constructor | split; [cbn; lia | congruence]]]. }
  assert (A : forall e', e' = e -> analyze_event e' ->
            App.isLoading (App.state w) = false ->
            exists out,
              (App.posted w ++ snd (App.handleAnalyze trim vscode (App.state w)))%list
              = (App.posted w ++ out)%list
              /\ Forall (submitted trim) out /\ (List.length out <= 1)%nat
              /\ (out <> [] -> analyze_event e /\ vscode = true
                               /\ App.isLoading (App.state w) = false)).
  { intros e' <- He L.
    destruct (handleAnalyze_submitted (App.state w)) as [F V].
    exists (snd (App.handleAnalyze trim vscode (App.state w))).
    repeat split; auto.
    - unfold App.handleAnalyze.
      destruct (trim _ =? "")%string; [cbn; lia|].
      destruct (App.selectedModel _ =? "")%string; [cbn; lia|].
      destruct (negb vscode); cbn; lia.
    - destruct vscode; [reflexivity|]. exfalso. apply H. apply V. reflexivity. }
  destruct e as [data | | ctrlKey metaKey key | | value | value | id | | |];
    cbn [App.dispatch]; unfold App.update, App.perform; try exact N.
  - destruct (App.isLoading (App.state w)) eqn:L; [exact N|].
    specialize (A App.AnalyzeClick eq_refl (or_introl eq_refl) eq_refl).
    destruct (App.handleAnalyze trim vscode (App.state w)). exact A.
  - unfold App.handleCodeKeyDown.
    destruct ((ctrlKey || metaKey) && (key =? "Enter")%string);
      [destruct (App.isLoading (App.state w)) eqn:L; cbn [negb] |];
      try (cbn [App.posted]; rewrite app_nil_r; exact N).
    assert (He : analyze_event (App.CodeKeyDown ctrlKey metaKey key)).
    { right. exists ctrlKey, metaKey, key. reflexivity. }
    specialize (A _ eq_refl He eq_refl).
    destruct (App.handleAnalyze trim vscode (App.state w)). exact A.
  - cbn [App.handleLoadFullDocument App.posted]. rewrite app_nil_r. exact N.
  - destruct (App.interval w); [|exact N].
    destruct (App.intervalCallback _ _). exact N.
Qed.

(** The surface's invariant, over every run from the mount. *)
Lemma run_invariant (events : list App.Event) :
  forall w,
    state_ok (App.state w) /\ quiet w /\ Forall (submitted trim) (App.posted w)
    /\ (vscode = false -> App.posted w = []) ->
    let w' := run events w in
    state_ok (App.state w') /\ quiet w' /\ Forall (submitted trim) (App.posted w')
    /\ (vscode = false -> App.posted w' = []).
Proof.
  induction events as [| e events IH]; intros w H; [exact H|].
  cbv zeta. change (run (e :: events) w) with (run events (step e w)).
  apply IH. destruct H as (S & Q & P & V).
  destruct (step_posted e w) as (out & E & F & _ & O).
  split; [| split; [| split]].
  - apply step_state_ok, S.
  - apply step_quiet, Q.
  - rewrite E. apply Forall_app. split; assumption.
  - intros N. rewrite E, (V N).
    destruct out as [| m out]; [reflexivity|].
    assert (X : m :: out <> []) by discriminate.
    destruct (O X) as (_ & T & _). congruence.
Qed.

Lemma mount_invariant :
  state_ok (App.state mount) /\ quiet mount
  /\ Forall (submitted trim) (App.posted mount)
  /\ (vscode = false -> App.posted mount = []).
Proof.
  split; [| split; [| split]].
  - repeat apply conj; discriminate.
  - intros _. split; reflexivity.
  - constructor.
  - reflexivity.
Qed.

(** X8.  In every state the surface reaches from its mount: when the error
    flag is set the result data is [null]; when there is no result data the
    five displayed scores are zero and no interval is running; so a running
    interval means a result is present and no error is shown. *)
Theorem no_result_no_scores (events : list App.Event) :
  let w := run events mount in
  let s := App.state w in
  (App.isError s = true -> App.resultData s = JNull)
  /\ (truthy (App.resultData s) = false ->
        displayed s = zeros /\ App.interval w = None)
  /\ (App.interval w <> None -> truthy (App.resultData s) = true
                                /\ App.isError s = false).
Proof.
  destruct (run_invariant events mount mount_invariant) as ((E & _) & Q & _).
  cbv zeta. split; [exact E | split; [exact Q|]].
  intros I.
  destruct (truthy (App.resultData (App.state (run events mount)))) eqn:T.
  - split; [reflexivity|].
    destruct (App.isError (App.state (run events mount))); [|reflexivity].
    rewrite (E eq_refl) in T. discriminate.
  - destruct (Q T) as [_ N]. contradiction.
Qed.

(** X7.  In every state the surface reaches from its mount, while it is
    loading the result tab is the active one, the code tab's button is
    disabled and the result tab's is not, and a click on the code tab
    changes nothing. *)
Theorem loading_locks_tabs (events : list App.Event) :
  let w := run events mount in
  let s := App.state w in
  App.isLoading s = true ->
  App.activeTab s = App.tab_result
  /\ View.disabled App.tab_code s = true
  /\ View.disabled App.tab_result s = false
  /\ step (App.TabClick App.tab_code) w = w.
Proof.
  destruct (run_invariant events mount mount_invariant) as ((_ & L & _) & _).
  cbv zeta. intros K. split; [exact (L K)|].
  unfold View.disabled, View.isActive. rewrite K, (L K).
  split; [reflexivity | split; [reflexivity|]].
  unfold step, App.step. fold commit.
  assert (D : App.dispatch trim vscode (App.TabClick App.tab_code)
                (run events mount) = run events mount).
  { cbn [App.dispatch]. unfold App.update, App.onTabClick.
    rewrite K, (L K). cbn. apply surface_eta. }
  rewrite D. apply commit_unchanged. reflexivity.
Qed.

(** X9.  In every state the surface reaches from its mount, the
    model-missing mark ([modelError]) is up only while no model is
    selected. *)
Theorem model_error_without_model (events : list App.Event) :
  let s := App.state (run events mount) in
  App.modelError s = true -> App.selectedModel s = "" .
Proof.
  destruct (run_invariant events mount mount_invariant) as ((_ & _ & M) & _).
  exact M.
Qed.

(** X10.  Every message the surface has posted, in any run from its mount,
    is a [REQUEST_ANALYZE] with all four fields present, code that is not
    blank after trimming and a model that is not empty; without the VS Code
    API nothing is ever posted. *)
Theorem posted_are_submitted (events : list App.Event) :
  let w := run events mount in
  Forall (submitted trim) (App.posted w)
  /\ (vscode = false -> App.posted w = []).
Proof.
  destruct (run_invariant events mount mount_invariant) as (_ & _ & P & V).
  split; assumption.
Qed.

Lemma onTabClick_disabled (id : App.TabId) (s : App.State) :
  App.onTabClick id s =
    if View.disabled id s then s
    else match id with
         | App.tab_result => App.setHasNewResult false (App.setActiveTab id s)
         | App.tab_code => App.setActiveTab id s
         end.
Proof. reflexivity. Qed.

(** X6.  A click on a disabled tab button (the surface is loading and the
    tab is not the active one) changes nothing.  A click on an enabled one
    makes that tab active; on the result tab it also clears the new-result
    badge.  No click on a tab posts anything or touches the loading flag,
    the result, the status message, the error flag, the displayed scores,
    the interval or the code; the code tab never shows a badge. *)
Theorem tab_click (w : App.Surface) (id : App.TabId) :
  let s := App.state w in
  let w' := step (App.TabClick id) w in
  let s' := App.state w' in
  (View.disabled id s = true -> w' = w)
  /\ (View.disabled id s = false ->
        App.activeTab s' = id
        /\ View.badge App.tab_result s' =
             match id with
             | App.tab_result => false
             | App.tab_code => App.hasNewResult s && negb (App.isLoading s)
             end)
  /\ View.badge App.tab_code s' = false
  /\ App.posted w' = App.posted w
  /\ App.interval w' = App.interval w
  /\ App.isLoading s' = App.isLoading s
  /\ App.resultData s' = App.resultData s
  /\ App.resultMessage s' = App.resultMessage s
  /\ App.isError s' = App.isError s
  /\ displayed s' = displayed s
  /\ App.code s' = App.code s.
Proof.
  cbv zeta. unfold step, App.step.
  rewrite commit_unchanged.
  2:{ cbn [App.dispatch]. unfold App.update. cbn [App.state].
      rewrite onTabClick_disabled.
      destruct (View.disabled id (App.state w)); [reflexivity|].
      destruct id; reflexivity. }
  cbn [App.dispatch]. unfold App.update.
  cbn [App.state App.posted App.interval]. rewrite onTabClick_disabled.
  destruct (View.disabled id (App.state w)) eqn:D.
  - split; [intros _; apply surface_eta|].
    split; [discriminate|]. repeat apply conj; reflexivity.
  - split; [discriminate|].
    split; [| destruct id; repeat apply conj; reflexivity].
    intros _. unfold View.disabled, View.isActive in D.
    destruct id; (split; [reflexivity|]).
    + unfold View.badge, View.disabled, View.isActive. cbn.
      destruct (App.isLoading (App.state w)), (App.hasNewResult (App.state w));
        reflexivity.
    + reflexivity.
Qed.

(** X5.  An [ANALYZE_PROGRESS] message puts the surface in the loading
    state on the result tab with the error flag cleared, and shows the
    message's text, or the default text when it is empty.  The previous
    result, the displayed scores, the interval, the new-result badge, the
    code and the model stay as they were, nothing is posted, and the
    analyze button is inert afterwards. *)
Theorem progress_keeps_result (w : App.Surface) (text : string) :
  let s := App.state w in
  let w' := step (App.WindowMessage (Some (ANALYZE_PROGRESS text))) w in
  let s' := App.state w' in
  App.isLoading s' = true
  /\ App.activeTab s' = App.tab_result
  /\ App.isError s' = false
  /\ App.resultMessage s' =
       (if (text =? "")%string then "모델이 코드를 읽고 있습니다..." else text)
  /\ App.resultData s' = App.resultData s
  /\ displayed s' = displayed s
  /\ App.interval w' = App.interval w
  /\ App.posted w' = App.posted w
  /\ App.hasNewResult s' = App.hasNewResult s
  /\ App.code s' = App.code s
  /\ App.selectedModel s' = App.selectedModel s
  /\ step App.AnalyzeClick w' = w'.
Proof.
  cbv zeta. unfold step, App.step.
  rewrite (commit_unchanged ToNumber _ (App.dispatch trim vscode
             (App.WindowMessage (Some (ANALYZE_PROGRESS text))) w)) by reflexivity.
  cbn [App.dispatch]. unfold App.update.
  cbn [App.state App.posted App.interval App.onMessage].
  repeat apply conj; try reflexivity.
  apply commit_unchanged. reflexivity.
Qed.

Lemma handleAnalyze_no_model (s : App.State) :
  trim (App.code s) <> "" -> App.selectedModel s = "" ->
  App.handleAnalyze trim vscode s =
    (App.setModelError true
       (App.setHasNewResult false
          (App.setIsError true
             (reset_scores
                (App.setResultData JNull
                   (App.setResultMessage "사용할 모델을 먼저 선택해 주세요." s))))),
     []).
Proof.
  intros C M. unfold App.handleAnalyze.
  apply String.eqb_neq in C. rewrite C, M. reflexivity.
Qed.

(** X4.  Analyze with code but no model posts nothing and raises the error
    and the model-missing mark; choosing a model then clears both; and the
    next analyze posts exactly one [REQUEST_ANALYZE] with the unchanged
    code, file path and language and the chosen model, and starts
    loading. *)
Theorem model_choice_recovers (w : App.Surface) (model : string) :
  App.isLoading (App.state w) = false ->
  trim (App.code (App.state w)) <> "" ->
  App.selectedModel (App.state w) = "" ->
  model <> "" ->
  vscode = true ->
  let s := App.state w in
  let w1 := step App.AnalyzeClick w in
  let w2 := step (App.ModelChange model) w1 in
  let w3 := step App.AnalyzeClick w2 in
  App.posted w1 = App.posted w
  /\ App.modelError (App.state w1) = true
  /\ App.isError (App.state w1) = true
  /\ App.selectedModel (App.state w2) = model
  /\ App.modelError (App.state w2) = false
  /\ App.isError (App.state w2) = false
  /\ App.posted w3 =
       (App.posted w ++
        [ {| type := "REQUEST_ANALYZE";
             payload := Some {| Request.code := Some (App.code s);
                                Request.filePath := Some (App.filePath s);
                                Request.languageId := Some (App.languageId s);
                                Request.model := Some model |} |} ])%list
  /\ App.isLoading (App.state w3) = true
  /\ App.isError (App.state w3) = false.
Proof.
  intros L C M N V s w1 w2 w3.
  assert (W1 : App.posted w1 = App.posted w
               /\ exists s1, App.state w1 = s1
                  /\ App.modelError s1 = true /\ App.isError s1 = true
                  /\ App.isLoading s1 = false /\ App.code s1 = App.code s
                  /\ App.filePath s1 = App.filePath s
                  /\ App.languageId s1 = App.languageId s
                  /\ App.resultData s1 = JNull).
  { unfold w1, step, App.step. fold commit.
    rewrite (trigger_runs_handler App.AnalyzeClick w (or_introl eq_refl) L).
    unfold App.perform. rewrite (handleAnalyze_no_model _ C M).
    match goal with |- context [commit ?p ?x] =>
      destruct (commit_state p x) as [P [S | S]]; rewrite P, S
    end; cbn [App.posted App.state]; rewrite app_nil_r;
      (split; [reflexivity | eexists; split; [reflexivity|]]);
      repeat apply conj; try reflexivity; exact L. }
  destruct W1 as (P1 & s1 & E1 & M1 & I1 & L1 & C1 & F1 & G1 & R1).
  assert (W2 : w2 = App.update (App.onModelChange model) w1).
  { unfold w2, step, App.step. apply commit_unchanged. reflexivity. }
  assert (L2 : App.isLoading (App.state w2) = false).
  { rewrite W2. cbn. rewrite E1. exact L1. }
  assert (C2 : trim (App.code (App.state w2)) <> "").
  { rewrite W2. cbn. rewrite E1, C1. exact C. }
  assert (M2 : App.selectedModel (App.state w2) <> "").
  { rewrite W2. cbn. exact N. }
  assert (W3 : w3 = {| App.state :=
                         fst (App.handleAnalyze trim vscode (App.state w2));
                       App.interval := App.interval w2;
                       App.posted :=
                         (App.posted w2 ++
                          snd (App.handleAnalyze trim vscode (App.state w2)))%list |}).
  { unfold w3, step, App.step.
    rewrite (trigger_runs_handler App.AnalyzeClick w2 (or_introl eq_refl) L2).
    apply step_handler. rewrite (handleAnalyze_submits _ C2 M2 V). reflexivity. }
  rewrite W3, (handleAnalyze_submits _ C2 M2 V).
  cbn [fst snd App.state App.posted]. unfold request_of.
  rewrite W2. cbn [App.update App.state App.posted].
  rewrite E1, P1. cbn. rewrite C1, F1, G1.
  repeat apply conj; try reflexivity; assumption.
Qed.

(** X23.  Typing in the code area replaces the code and raises the code
    cue, and leaves the result data, the displayed scores, the interval and
    the posted messages alone; an analyze after it posts exactly one
    [REQUEST_ANALYZE] with the typed code and the file path, language and
    model the surface already had. *)
Theorem edited_code_is_submitted (w : App.Surface) (value : string) :
  App.isLoading (App.state w) = false ->
  trim value <> "" ->
  App.selectedModel (App.state w) <> "" ->
  vscode = true ->
  let s := App.state w in
  let w1 := step (App.CodeChange value) w in
  let w2 := step App.AnalyzeClick w1 in
  App.code (App.state w1) = value
  /\ App.codeHighlight (App.state w1) = true
  /\ App.resultData (App.state w1) = App.resultData s
  /\ displayed (App.state w1) = displayed s
  /\ App.interval w1 = App.interval w
  /\ App.posted w1 = App.posted w
  /\ App.posted w2 =
       (App.posted w ++
        [ {| type := "REQUEST_ANALYZE";
             payload := Some {| Request.code := Some value;
                                Request.filePath := Some (App.filePath s);
                                Request.languageId := Some (App.languageId s);
                                Request.model := Some (App.selectedModel s) |} |} ])%list
  /\ App.isLoading (App.state w2) = true.
Proof.
  intros L C M V s w1 w2.
  assert (W1 : w1 = App.update (App.handleCodeChange value) w).
  { unfold w1, step, App.step. apply commit_unchanged. reflexivity. }
  assert (L1 : App.isLoading (App.state w1) = false).
  { rewrite W1. cbn. exact L. }
  assert (C1 : trim (App.code (App.state w1)) <> "").
  { rewrite W1. cbn. exact C. }
  assert (M1 : App.selectedModel (App.state w1) <> "").
  { rewrite W1. cbn. exact M. }
  assert (W2 : w2 = {| App.state :=
                         fst (App.handleAnalyze trim vscode (App.state w1));
                       App.interval := App.interval w1;
                       App.posted :=
                         (App.posted w1 ++
                          snd (App.handleAnalyze trim vscode (App.state w1)))%list |}).
  { unfold w2, step, App.step.
    rewrite (trigger_runs_handler App.AnalyzeClick w1 (or_introl eq_refl) L1).
    apply step_handler. rewrite (handleAnalyze_submits _ C1 M1 V). reflexivity. }
  rewrite W2, (handleAnalyze_submits _ C1 M1 V).
  cbn [fst snd App.state App.posted]. unfold request_of.
  rewrite W1. cbn [App.update App.state App.posted App.interval].
  repeat apply conj; reflexivity.
Qed.

End SurfaceAtWork.

Section HandlerAtWork.

Variable trim : string -> string.
Variable network :
  string -> Extension.FetchInit -> Extension.Outcome Extension.Response.

Let handler := Extension.onDidReceiveMessage trim network.

Import Extension.

(** The handler on a request with code, in one equation. *)
Lemma handler_serves (closure : Panel) (editor : option TextEditor)
    (m : WebviewMessage) :
  type m = "REQUEST_ANALYZE" ->
  let p := orElse (payload m) (Request.mk None None None None) in
  trim (orElse (Request.code p) "") <> "" ->
  let init := review_request closure p in
  handler closure editor (Some m) =
    ([PostMessage progress_notice; Fetch REVIEW_API_URL init;
      PostMessage (reply_of network init)], Returned tt).
Proof.
  intros T p C init. apply String.eqb_neq in C.
  unfold handler, onDidReceiveMessage. rewrite T.
  cbn [String.eqb Ascii.eqb Bool.eqb andb]. fold p. rewrite C.
  unfold reply_of, fetch. fold init.
  change (perform (PostMessage (ANALYZE_PROGRESS "DKMV LLM에 코드 분석을 요청 중입니다...")))
    with (perform (PostMessage progress_notice)).
  match goal with |- context [network REVIEW_API_URL ?i] =>
    change i with init end.
  destruct (network REVIEW_API_URL init) as [r | t]; [|reflexivity].
  cbn. destruct (ok r); cbn.
  - destruct (json r); reflexivity.
  - destruct (text r); reflexivity.
Qed.

Lemma reply_terminal (init : FetchInit) :
  terminal (reply_of network init) = true.
Proof.
  unfold reply_of. destruct (network _ _) as [r | t]; [|reflexivity].
  destruct (ok r); [destruct (json r) | destruct (text r)]; reflexivity.
Qed.

Lemma reply_kind (init : FetchInit) :
  match reply_of network init with
  | ANALYZE_RESULT _ | ANALYZE_ERROR _ => True
  | _ => False
  end.
Proof.
  unfold reply_of. destruct (network _ _) as [r | t]; [|exact I].
  destruct (ok r); [destruct (json r) | destruct (text r)]; exact I.
Qed.

(** X11.  On every message of the type the handler declares for it (no
    object at all, or a string [type] and a payload that is absent or
    holds, each as a string or not at all, the code, the file path, the
    language and the model), whatever the editor and the network do, the
    handler returns without throwing; it posts exactly one closing message
    ([NEW_CODE], [ANALYZE_RESULT] or [ANALYZE_ERROR]) for a
    [REQUEST_FULL_DOCUMENT] or a [REQUEST_ANALYZE], and does nothing at all
    for any other message; it shows no toast, creates and reveals no panel,
    and makes at most one request, a POST to the review endpoint.  A
    payload whose code is not a string is not of that type and is not
    covered: [WebviewMessage] has no such value. *)
Theorem handler_answers_once (closure : Panel) (editor : option TextEditor)
    (message : option WebviewMessage) :
  let result := handler closure editor message in
  let acts := actions result in
  snd result = Returned tt
  /\ List.length (filter terminal (posts acts))
     = (if recognised message then 1 else 0)%nat
  /\ (recognised message = false -> acts = [])
  /\ toasts acts = []
  /\ creations acts = 0%nat /\ reveals acts = 0%nat
  /\ (List.length (fetches acts) <= 1)%nat
  /\ (forall url init, In (url, init) (fetches acts) ->
        url = REVIEW_API_URL /\ method init = "POST").
Proof.
  cbv zeta. destruct message as [m|].
  2:{ cbn. repeat apply conj; auto; contradiction. }
  unfold recognised.
  destruct (type m =? "REQUEST_FULL_DOCUMENT")%string eqn:F.
  { unfold handler, onDidReceiveMessage. rewrite F. cbn [orb].
    destruct editor as [active|];
      [destruct (trim (document_text active) =? "")%string|];
      cbn; repeat apply conj; auto; try discriminate; contradiction. }
  destruct (type m =? "REQUEST_ANALYZE")%string eqn:A.
  2:{ unfold handler, onDidReceiveMessage. rewrite F, A.
      cbn. repeat apply conj; auto; contradiction. }
  cbn [orb]. apply String.eqb_eq in A.
  destruct (trim (orElse (Request.code
              (orElse (payload m) (Request.mk None None None None))) "")
            =? "")%string eqn:C.
  { unfold handler, onDidReceiveMessage. rewrite F, A.
    cbn [String.eqb Ascii.eqb Bool.eqb andb]. rewrite C.
    cbn; repeat apply conj; auto; try discriminate; contradiction. }
  apply String.eqb_neq in C.
  rewrite (handler_serves closure editor m A C).
  cbn [actions fst snd posts flat_map app filter terminal progress_notice].
  rewrite reply_terminal.
  repeat apply conj; try reflexivity; try discriminate.
  cbn. intros url init [E | []]. inversion E. split; reflexivity.
Qed.

(** X12.  A [REQUEST_FULL_DOCUMENT] with an editor open is answered with
    one [ANALYZE_ERROR] when the document is blank after trimming, and
    otherwise with one [NEW_CODE] carrying the whole document text (not the
    selection), the editor's file name, path and language and the mode
    [document]; no request is made to the review service. *)
Theorem full_document_with_editor (closure : Panel) (active : TextEditor)
    (m : WebviewMessage) :
  type m = "REQUEST_FULL_DOCUMENT" ->
  let acts := actions (handler closure (Some active) (Some m)) in
  (trim (document_text active) = "" ->
     acts = [PostMessage (ANALYZE_ERROR "현재 파일이 비어 있습니다.")])
  /\ (trim (document_text active) <> "" ->
        acts = [PostMessage (NEW_CODE
                  {| NewCode.code := document_text active;
                     NewCode.fileName := document_fileName active;
                     NewCode.filePath := document_fsPath active;
                     NewCode.languageId := document_languageId active;
                     NewCode.mode := document |})])
  /\ fetches acts = [].
Proof.
  intros T. cbv zeta. unfold handler, onDidReceiveMessage. rewrite T.
  cbn [String.eqb Ascii.eqb Bool.eqb andb].
  destruct (trim (document_text active) =? "")%string eqn:C.
  - apply String.eqb_eq in C. repeat apply conj; try reflexivity. congruence.
  - apply String.eqb_neq in C. repeat apply conj; try reflexivity. congruence.
Qed.

(** The command on an editor whose code is not blank. *)
Lemma analyzeSelection_with_code (editor : TextEditor) (panel : option Panel) :
  trim (code_of editor) <> "" ->
  analyzeSelection trim (Some editor) panel =
    (Some match panel with
          | None => {| filePath := document_fsPath editor;
                       languageId := document_languageId editor |}
          | Some p => p
          end,
     [ match panel with None => CreateWebviewPanel | Some _ => Reveal end;
       PostMessage (NEW_CODE
         {| NewCode.code := code_of editor;
            NewCode.fileName := document_fileName editor;
            NewCode.filePath := document_fsPath editor;
            NewCode.languageId := document_languageId editor;
            NewCode.mode := if selection_isEmpty editor then document
                            else selection |}) ]).
Proof.
  unfold analyzeSelection, code_of.
  destruct (selection_isEmpty editor); cbn [negb]; intros C;
    apply String.eqb_neq in C; rewrite C; destruct panel; reflexivity.
Qed.

(** X13.  The command with an editor open takes the selection, or the
    whole document when the selection is empty.  Blank code after trimming
    gives one toast and leaves the panel alone.  Otherwise the command
    creates a panel when there is none and reveals the existing one when
    there is, then posts one [NEW_CODE] with the code, the editor's file
    name, path and language and the mode ([selection] or [document]); an
    existing panel keeps the path and language it was created with. *)
Theorem command_sends_code (editor : TextEditor) (panel : option Panel) :
  let result := analyzeSelection trim (Some editor) panel in
  let acts := snd result in
  (trim (code_of editor) = "" ->
     result = (panel, [ShowInformationMessage "분석할 코드가 비어 있습니다."]))
  /\ (trim (code_of editor) <> "" ->
        acts =
          [ match panel with None => CreateWebviewPanel | Some _ => Reveal end;
            PostMessage (NEW_CODE
              {| NewCode.code := code_of editor;
                 NewCode.fileName := document_fileName editor;
                 NewCode.filePath := document_fsPath editor;
                 NewCode.languageId := document_languageId editor;
                 NewCode.mode := if selection_isEmpty editor then document
                                 else selection |}) ]
        /\ fst result =
             Some match panel with
                  | None => {| filePath := document_fsPath editor;
                               languageId := document_languageId editor |}
                  | Some p => p
                  end).
Proof.
  cbv zeta. split.
  - unfold analyzeSelection, code_of.
    destruct (selection_isEmpty editor); cbn [negb]; intros B;
      rewrite B; reflexivity.
  - intros C. rewrite (analyzeSelection_with_code editor panel C).
    split; reflexivity.
Qed.

End HandlerAtWork.

Section Together.

Variable ToNumber : JsValue -> float.
Variable trim : string -> string.
Variable vscode : bool.
Variable network :
  string -> Extension.FetchInit -> Extension.Outcome Extension.Response.

Let step := App.step ToNumber trim vscode.
Let run := App.run ToNumber trim vscode.
Let mount := App.mount ToNumber.
Let handler := Extension.onDidReceiveMessage trim network.

Import Extension.

Lemma submitted_served (closure : Panel) (editor : option TextEditor)
    (code filePath languageId model : string) :
  trim code <> "" -> model <> "" ->
  handler closure editor
    (Some {| type := "REQUEST_ANALYZE";
             payload := Some {| Request.code := Some code;
                                Request.filePath := Some filePath;
                                Request.languageId := Some languageId;
                                Request.model := Some model |} |})
  = ([PostMessage progress_notice;
      Fetch REVIEW_API_URL (request code filePath languageId model);
      PostMessage (reply_of network (request code filePath languageId model))],
     Returned tt).
Proof.
  intros C M.
  unfold handler.
  rewrite (handler_serves trim network closure editor
             {| type := "REQUEST_ANALYZE";
                payload := Some {| Request.code := Some code;
                                   Request.filePath := Some filePath;
                                   Request.languageId := Some languageId;
                                   Request.model := Some model |} |}
             eq_refl C).
  unfold review_request, request. cbn [payload orElse Request.code
    Request.filePath Request.languageId Request.model].
  apply String.eqb_neq in M. rewrite M. reflexivity.
Qed.

(** X15.  Every message the surface posts, in any run from its mount, is
    served by the controller's handler: after the progress notice it makes
    one POST to the review endpoint whose body holds exactly the code, the
    language, the file path and the model of the message, and posts one
    reply.  The blank-code error is never the answer, and the path and
    language the panel was created with are not used. *)
Theorem surface_requests_served (events : list App.Event) (closure : Panel)
    (editor : option TextEditor) (m : WebviewMessage) :
  In m (App.posted (run events mount)) ->
  exists code filePath languageId model,
    m = {| type := "REQUEST_ANALYZE";
           payload := Some {| Request.code := Some code;
                              Request.filePath := Some filePath;
                              Request.languageId := Some languageId;
                              Request.model := Some model |} |}
    /\ trim code <> "" /\ model <> ""
    /\ handler closure editor (Some m)
       = ([PostMessage progress_notice;
           Fetch REVIEW_API_URL (request code filePath languageId model);
           PostMessage
             (reply_of network (request code filePath languageId model))],
          Returned tt).
Proof.
  intros I.
  destruct (run_invariant ToNumber trim vscode events mount
              (mount_invariant ToNumber trim vscode)) as (_ & _ & P & _).
  rewrite Forall_forall in P.
  destruct (P m I) as (code & filePath & languageId & model & -> & C & M).
  exists code, filePath, languageId, model.
  split; [reflexivity|]. split; [exact C|]. split; [exact M|].
  apply submitted_served; assumption.
Qed.

Lemma step_message (data : option IncomingMessage) (w : App.Surface) :
  let w' := step (App.WindowMessage data) w in
  App.posted w' = App.posted w
  /\ (App.state w' = App.onMessage data (App.state w)
      \/ App.state w' = reset_scores (App.onMessage data (App.state w))).
Proof.
  cbv zeta. unfold step, App.step.
  destruct (commit_state ToNumber (App.resultData (App.state w))
              (App.dispatch trim vscode (App.WindowMessage data) w)) as [P S].
  split; [exact P | exact S].
Qed.


(** X17.  From the editor to the review service: after the command on an
    editor whose code is not blank, the delivery of its [NEW_CODE] to the
    surface, the choice of a model and a click on analyze, the surface has
    posted one message, and the handler's request for it is one POST to the
    review endpoint whose body holds the editor's code, language and file
    path and the chosen model, whatever panel and editor the handler
    has. *)
Theorem review_pipeline (editor : TextEditor) (panel : option Panel)
    (w : App.Surface) (model : string) :
  trim (code_of editor) <> "" ->
  model <> "" ->
  vscode = true ->
  let acts := snd (analyzeSelection trim (Some editor) panel) in
  let w1 := run (deliver acts) w in
  let w2 := step (App.ModelChange model) w1 in
  let w3 := step App.AnalyzeClick w2 in
  let init := request (code_of editor) (document_fsPath editor)
                (document_languageId editor) model in
  App.code (App.state w1) = code_of editor
  /\ exists m,
       App.posted w3 = (App.posted w ++ [m])%list
       /\ forall closure active,
            fetches (actions (handler closure active (Some m)))
            = [(REVIEW_API_URL, init)].
Proof.
  intros C M V acts w1 w2 w3 init.
  assert (A : acts =
    [ match panel with None => CreateWebviewPanel | Some _ => Reveal end;
      PostMessage (NEW_CODE
        {| NewCode.code := code_of editor;
           NewCode.fileName := document_fileName editor;
           NewCode.filePath := document_fsPath editor;
           NewCode.languageId := document_languageId editor;
           NewCode.mode := if selection_isEmpty editor then document
                           else selection |}) ]).
  { unfold acts. rewrite (analyzeSelection_with_code trim editor panel C).
    reflexivity. }
  set (payload := {| NewCode.code := code_of editor;
                     NewCode.fileName := document_fileName editor;
                     NewCode.filePath := document_fsPath editor;
                     NewCode.languageId := document_languageId editor;
                     NewCode.mode := if selection_isEmpty editor then document
                                     else selection |}) in *.
  assert (W1 : w1 = step (App.WindowMessage (Some (NEW_CODE payload))) w).
  { unfold w1. rewrite A. destruct panel; reflexivity. }
  destruct (step_message (Some (NEW_CODE payload)) w) as [P1 S1].
  rewrite <- W1 in P1, S1.
  assert (F1 : App.code (App.state w1) = code_of editor
               /\ App.filePath (App.state w1) = document_fsPath editor
               /\ App.languageId (App.state w1) = document_languageId editor
               /\ App.isLoading (App.state w1) = false).
  { destruct S1 as [-> | ->]; repeat split. }
  destruct F1 as (F1 & F2 & F3 & F4).
  assert (W2 : w2 = App.update (App.onModelChange model) w1).
  { unfold w2, step, App.step. apply commit_unchanged. reflexivity. }
  assert (L2 : App.isLoading (App.state w2) = false).
  { rewrite W2. cbn. exact F4. }
  assert (C2 : trim (App.code (App.state w2)) <> "").
  { rewrite W2. cbn. rewrite F1. exact C. }
  assert (M2 : App.selectedModel (App.state w2) <> "").
  { rewrite W2. cbn. exact M. }
  assert (W3 : w3 = {| App.state :=
                         fst (App.handleAnalyze trim vscode (App.state w2));
                       App.interval := App.interval w2;
                       App.posted :=
                         (App.posted w2 ++
                          snd (App.handleAnalyze trim vscode (App.state w2)))%list |}).
  { unfold w3, step, App.step.
    rewrite (trigger_runs_handler trim vscode App.AnalyzeClick w2
               (or_introl eq_refl) L2).
    apply step_handler.
    rewrite (handleAnalyze_submits trim vscode _ C2 M2 V). reflexivity. }
  split; [exact F1|].
  exists (request_of (App.state w2)). split.
  - rewrite W3, (handleAnalyze_submits trim vscode _ C2 M2 V).
    cbn [snd App.posted]. rewrite W2. cbn [App.update App.posted].
    rewrite P1. reflexivity.
  - intros closure active. unfold request_of.
    rewrite (submitted_served closure active _ _ _ _ C2 M2).
    rewrite W2. cbn. rewrite F1, F2, F3. reflexivity.
Qed.

End Together.

Section HostAtWork.

Variable trim : string -> string.
Variable network :
  string -> Extension.FetchInit -> Extension.Outcome Extension.Response.

Let hstep := Host.step trim network.
Let hrun := Host.run trim network.

Import Extension.

Lemma creations_app (a b : list Action) :
  creations (a ++ b) = (creations a + creations b)%nat.
Proof. unfold creations. rewrite filter_app, length_app. reflexivity. Qed.

Lemma analyzeSelection_creations (editor : option TextEditor)
    (panel : option Panel) :
  let result := analyzeSelection trim editor panel in
  match panel with
  | Some p => fst result = Some p /\ creations (snd result) = 0%nat
  | None =>
      (fst result = None /\ creations (snd result) = 0%nat)
      \/ (fst result <> None /\ creations (snd result) = 1%nat)
  end.
Proof.
  cbv zeta. unfold analyzeSelection.
  destruct editor as [editor|]; [|destruct panel; cbn; auto].
  destruct (trim _ =? "")%string; [destruct panel; cbn; auto|].
  destruct panel; cbn; [auto|]. right. split; [discriminate | reflexivity].
Qed.

Lemma handler_creations (closure : Panel) (editor : option TextEditor)
    (message : option WebviewMessage) :
  creations (actions (onDidReceiveMessage trim network closure editor message))
  = 0%nat.
Proof.
  destruct message as [m|]; [|reflexivity].
  unfold onDidReceiveMessage.
  destruct (type m =? "REQUEST_FULL_DOCUMENT")%string.
  { destruct editor as [active|];
      [destruct (trim (document_text active) =? "")%string|]; reflexivity. }
  destruct (type m =? "REQUEST_ANALYZE")%string eqn:A; [|reflexivity].
  apply String.eqb_eq in A.
  destruct (trim (orElse (Request.code
              (orElse (payload m) (Request.mk None None None None))) "")
            =? "")%string eqn:C; [reflexivity|].
  apply String.eqb_neq in C.
  pose proof (handler_serves trim network closure editor m A C) as H.
  cbv zeta in H. unfold onDidReceiveMessage in H.
  rewrite A in H. cbn [String.eqb Ascii.eqb Bool.eqb andb] in H.
  apply String.eqb_neq in C. rewrite C in H. rewrite H. reflexivity.
Qed.

Lemma run_creations (events : list Host.Event) :
  forall h,
    (creations (Host.log (hrun events h)) + Host.opened (Host.panel h)
     = creations (Host.log h) + Host.closed trim network events h
       + Host.opened (Host.panel (hrun events h)))%nat.
Proof.
  induction events as [| e events IH]; intros h; [cbn; lia|].
  change (hrun (e :: events) h) with (hrun events (hstep e h)).
  specialize (IH (hstep e h)). cbn [Host.closed]. fold hstep.
  assert (S : (creations (Host.log (hstep e h)) + Host.opened (Host.panel h)
               = creations (Host.log h)
                 + match e with
                   | Host.Dispose => Host.opened (Host.panel h)
                   | _ => 0
                   end
                 + Host.opened (Host.panel (hstep e h)))%nat).
  { unfold hstep, Host.step.
    destruct e as [editor | editor message |].
    - pose proof (analyzeSelection_creations editor (Host.panel h)) as A.
      cbv zeta in A.
      destruct (analyzeSelection trim editor (Host.panel h)) as [p acts].
      cbn [fst snd] in A. cbn [Host.log Host.panel]. rewrite creations_app.
      destruct (Host.panel h).
      + destruct A as [-> ->]. cbn [Host.opened]. lia.
      + destruct A as [[-> ->] | [N ->]]; [cbn [Host.opened]; lia|].
        destruct p; [cbn [Host.opened]; lia | congruence].
    - destruct (Host.panel h) eqn:P; rewrite ?P; [|lia].
      cbn [Host.log Host.panel]. rewrite creations_app, handler_creations.
      rewrite ?P. lia.
    - destruct (Host.panel h) eqn:P; rewrite ?P; unfold onDidDispose;
        cbn [Host.log Host.panel Host.opened]; lia. }
  lia.
Qed.

(** X14.  In every run of the activated extension (commands, messages from
    the webview and closings of the panel, in any order), the number of
    panels created equals the number of closings that found a panel plus
    one if a panel is open at the end: a panel is created only when none is
    open, so the creations never exceed the closings by more than one. *)
Theorem panel_is_singleton (events : list Host.Event) :
  let h := hrun events Host.activate in
  creations (Host.log h)
  = (Host.closed trim network events Host.activate
     + Host.opened (Host.panel h))%nat
  /\ (creations (Host.log h)
      <= S (List.length (filter (fun e => match e with
                                          | Host.Dispose => true
                                          | _ => false
                                          end) events)))%nat.
Proof.
  cbv zeta. pose proof (run_creations events Host.activate) as R.
  cbn [Host.activate Host.panel Host.log Host.opened creations filter List.length] in R.
  change (creations []) with 0%nat in R.
  split; [lia|].
  assert (C : forall es h,
            (Host.closed trim network es h
             <= List.length (filter (fun e => match e with
                                              | Host.Dispose => true
                                              | _ => false
                                              end) es))%nat).
  { induction es as [| e es IH]; intros h; [cbn; lia|].
    specialize (IH (Host.step trim network e h)).
    destruct e; cbn [Host.closed filter List.length]; try lia.
    destruct (Host.panel h); cbn [Host.opened]; lia. }
  specialize (C events Host.activate).
  destruct (Host.panel (hrun events Host.activate));
    cbn [Host.opened] in R; lia.
Qed.

End HostAtWork.

(** ** The view *)

Import View.

Lemma split_not_nil (sep : ascii -> bool) (s : string) : split sep s <> [].
Proof.
  induction s as [| c rest IH]; cbn; [discriminate|].
  destruct (sep c); [discriminate|].
  destruct (split sep rest); discriminate.
Qed.

Lemma split_plain (sep : ascii -> bool) (s : string) :
  Forall (fun c => sep c = false) (chars s) -> split sep s = [s].
Proof.
  induction s as [| c rest IH]; cbn; [reflexivity|].
  intros H. inversion H as [| ? ? C R]; subst.
  rewrite C, (IH R). reflexivity.
Qed.

Lemma last_tail {A : Type} (a d : A) (l : list A) :
  l <> [] -> last (a :: l) d = last l d.
Proof. destruct l; [congruence | reflexivity]. Qed.

Lemma split_two (sep : ascii -> bool) (dir rest : string) (c : ascii) :
  sep c = true ->
  exists a b l, split sep (dir ++ String c rest) = a :: b :: l.
Proof.
  intros C. induction dir as [| d dir IH]; cbn [append split].
  - rewrite C. pose proof (split_not_nil sep rest) as N.
    destruct (split sep rest) as [| b l]; [congruence|]. eauto.
  - destruct IH as (a & b & l & ->). destruct (sep d); eauto.
Qed.

Lemma split_append (sep : ascii -> bool) (dir rest : string) (c : ascii) :
  sep c = true ->
  last (split sep (dir ++ String c rest)) "" = last (split sep rest) "".
Proof.
  intros C. induction dir as [| d dir IH]; cbn [append split].
  - rewrite C. apply last_tail, split_not_nil.
  - destruct (split_two sep dir rest c C) as (a & b & l & E).
    rewrite E in IH |- *. destruct (sep d); rewrite <- IH; reflexivity.
Qed.

Lemma chars_append (a b : string) : chars (a ++ b) = (chars a ++ chars b)%list.
Proof. induction a as [| c a IH]; cbn; [reflexivity | rewrite IH; reflexivity]. Qed.

Lemma split_pieces_plain (sep : ascii -> bool) (s : string) :
  Forall (fun piece => Forall (fun c => sep c = false) (chars piece))
    (split sep s).
Proof.
  induction s as [| c rest IH]; cbn [split].
  - repeat constructor.
  - destruct (sep c) eqn:C; [constructor; [constructor | exact IH]|].
    destruct (split sep rest) as [| piece pieces]; [repeat constructor; exact C|].
    inversion IH; subst. constructor; [constructor; assumption | assumption].
Qed.

Lemma split_single (sep : ascii -> bool) (s piece : string) :
  split sep s = [piece] -> s = piece.
Proof.
  revert piece. induction s as [| c rest IH]; cbn [split]; intros piece S.
  - congruence.
  - pose proof (split_not_nil sep rest) as N.
    destruct (sep c).
    + destruct (split sep rest); [congruence | discriminate].
    + destruct (split sep rest) as [| p [| ? ?]]; [congruence | | discriminate].
      injection S as <-. rewrite (IH p eq_refl). reflexivity.
Qed.

Lemma last_Forall {A : Type} (P : A -> Prop) (l : list A) (d : A) :
  Forall P l -> P d -> P (last l d).
Proof.
  induction l as [| a l IH]; intros H D; [exact D|].
  inversion H; subst. destruct l; [assumption|]. apply IH; assumption.
Qed.

(** X18.  The file name the surface shows is the last component of the
    file path, with either separator: a path that ends in a separator
    followed by a separator-free name gives that name, a path without
    separators is its own name, and in general the name holds no separator,
    is a suffix of the path and is its own file name. *)
Theorem fileName_last_component :
  (forall dir name c,
     is_separator c = true ->
     Forall (fun c => is_separator c = false) (chars name) ->
     fileName (dir ++ String c name) = name)
  /\ (forall name,
        Forall (fun c => is_separator c = false) (chars name) ->
        fileName name = name)
  /\ (forall filePath,
        Forall (fun c => is_separator c = false) (chars (fileName filePath))
        /\ fileName (fileName filePath) = fileName filePath
        /\ exists dir, filePath = dir ++ fileName filePath).
Proof.
  assert (P : forall name,
            Forall (fun c => is_separator c = false) (chars name) ->
            fileName name = name).
  { intros name H. unfold fileName.
    destruct (name =? "")%string eqn:E; [apply String.eqb_eq in E; auto|].
    rewrite (split_plain _ _ H). reflexivity. }
  assert (Q : forall filePath,
            Forall (fun c => is_separator c = false) (chars (fileName filePath))).
  { intros filePath. unfold fileName.
    destruct (filePath =? "")%string; [constructor|].
    apply (last_Forall (fun piece => Forall (fun c => is_separator c = false)
                                       (chars piece))).
    - apply split_pieces_plain.
    - constructor. }
  split; [| split; [exact P|]].
  - intros dir name c C H. unfold fileName.
    destruct (dir ++ String c name =? "")%string eqn:E.
    { apply String.eqb_eq in E. destruct dir; discriminate. }
    rewrite (split_append _ _ _ _ C), (split_plain _ _ H). reflexivity.
  - intros filePath. split; [apply Q | split; [apply P, Q|]].
    unfold fileName.
    destruct (filePath =? "")%string eqn:E.
    { apply String.eqb_eq in E. exists "". rewrite E. reflexivity. }
    clear E. induction filePath as [| c rest IH]; [exists ""; reflexivity|].
    cbn [split]. pose proof (split_not_nil is_separator rest) as N.
    destruct IH as [dir IH].
    destruct (is_separator c).
    + rewrite (last_tail _ _ _ N). exists (String c dir). cbn. congruence.
    + destruct (split is_separator rest) as [| piece [| b l]] eqn:S;
        [congruence | |].
      * exists "". cbn in IH |- *.
        rewrite (split_single _ _ _ S). reflexivity.
      * exists (String c dir). cbn [append].
        change (last (String c piece :: b :: l) "") with (last (b :: l) "").
        change (last (piece :: b :: l) "") with (last (b :: l) "") in IH.
        congruence.
Qed.

Lemma lines_not_nil (s : string) : lines s <> [].
Proof.
  induction s as [| c rest IH]; cbn [lines]; [discriminate|].
  destruct (c =? CR)%char.
  - destruct rest as [| c' rest']; [discriminate|].
    destruct (c' =? LF)%char; discriminate.
  - destruct (c =? LF)%char; [discriminate|].
    destruct (lines rest); discriminate.
Qed.

Lemma lines_plain (l : string) : plain l -> lines l = [l].
Proof.
  induction l as [| c rest IH]; cbn [lines]; [reflexivity|].
  intros H. inversion H as [| ? ? [C L] R]; subst.
  rewrite C, L, (IH R). reflexivity.
Qed.

Lemma lines_cons (l terminator rest : string) :
  plain l ->
  terminator = String LF "" \/ terminator = String CR (String LF "")
  \/ (terminator = String CR "" /\ starts_with LF rest = false) ->
  lines (l ++ terminator ++ rest) = l :: lines rest.
Proof.
  intros P T. induction l as [| c l IH].
  - cbn [append]. destruct T as [-> | [-> | [-> S]]]; cbn [append lines].
    + reflexivity.
    + reflexivity.
    + change (String CR rest) with (String CR rest).
      cbn [lines]. change ((CR =? CR)%char) with true. cbn iota.
      destruct rest as [| c' rest']; [reflexivity|].
      cbn [starts_with] in S. rewrite S. reflexivity.
  - inversion P as [| ? ? [C L] R]; subst.
    cbn [append lines]. rewrite C, L, (IH R). reflexivity.
Qed.

Lemma join_start (ls : list string) (terminator : string) :
  Forall plain ls -> starts_with LF terminator = false ->
  starts_with LF (join terminator ls) = false.
Proof.
  intros P T. destruct ls as [| l ls]; [reflexivity|].
  inversion P as [| ? ? H _]; subst.
  assert (S : forall rest, starts_with LF rest = false ->
                           starts_with LF (l ++ rest) = false).
  { intros rest R. destruct l as [| c l]; [exact R|].
    inversion H as [| ? ? [_ L] _]; subst. exact L. }
  destruct ls as [| l' ls]; cbn [join].
  - rewrite <- (S "" eq_refl). f_equal. clear. induction l; cbn; congruence.
  - apply S. destruct terminator; [|exact T].
    cbn [append]. clear - P.
    (* an empty terminator is not one of the three; the join still starts
       with a plain character or is empty *)
    inversion P as [| ? ? _ P']; subst. clear P.
    revert l' P'. induction ls as [| l'' ls IH]; intros l' P'.
    + cbn. inversion P' as [| ? ? H _]; subst.
      destruct l' as [| c l']; [reflexivity|].
      inversion H as [| ? ? [_ L] _]; subst. exact L.
    + inversion P' as [| ? ? H P'']; subst.
      cbn [join append]. destruct l' as [| c l'].
      * cbn [append]. apply IH. exact P''.
      * inversion H as [| ? ? [_ L] _]; subst. exact L.
Qed.

Lemma lines_join (ls : list string) (terminator : string) :
  In terminator [String LF ""; String CR (String LF ""); String CR ""] ->
  ls <> [] -> Forall plain ls ->
  lines (join terminator ls) = ls.
Proof.
  intros T N P. induction ls as [| l ls IH]; [congruence|].
  inversion P as [| ? ? H P']; subst.
  destruct ls as [| l' ls]; [apply lines_plain, H|].
  change (join terminator (l :: l' :: ls))
    with (l ++ terminator ++ join terminator (l' :: ls)).
  rewrite lines_cons, IH; try assumption; try discriminate; [reflexivity|].
  destruct T as [<- | [<- | [<- | []]]]; auto.
  right. right. split; [reflexivity|].
  apply join_start; [assumption | reflexivity].
Qed.

(** X19.  The line count is zero exactly for the empty buffer.  Lines that
    hold no line break, joined by line feeds, by carriage returns or by
    carriage return and line feed pairs, are split into those same lines,
    so a non-empty buffer counts as many lines as were joined whichever of
    the three terminators it uses. *)
Theorem lineCount_terminators :
  (forall code, lineCount code = 0%nat <-> code = "")
  /\ (forall ls terminator,
        In terminator [String LF ""; String CR (String LF ""); String CR ""] ->
        ls <> [] -> Forall plain ls ->
        lines (join terminator ls) = ls
        /\ (join terminator ls <> "" ->
            lineCount (join terminator ls) = List.length ls)).
Proof.
  split.
  - intros code. unfold lineCount. split.
    + destruct (code =? "")%string eqn:E; [intros _; apply String.eqb_eq, E|].
      pose proof (lines_not_nil code). destruct (lines code); [congruence|].
      discriminate.
    + intros ->. reflexivity.
  - intros ls terminator T N P.
    pose proof (lines_join ls terminator T N P) as L.
    split; [exact L|]. intros J. unfold lineCount.
    apply String.eqb_neq in J. rewrite J, L. reflexivity.
Qed.

(** ** Copying *)

Section Copying.

Import Clipboard.

Variable clipboard : bool.
Variable writeText : string -> Extension.Outcome unit.
Variable execCommand : string -> Extension.Outcome bool.
Variable stringify : JsValue -> Extension.Outcome string.
Variable String_ : JsValue -> string.

Let copy := handleCopyText clipboard writeText execCommand.

(** X20.  Copying a text never throws.  An empty text does nothing.  With
    the clipboard API the text is written once, and an alert follows only
    if the write is rejected.  Without it a temporary text area holding the
    text is appended and selected, the copy command runs once, an alert
    follows only if the command throws (not if it returns false), and the
    text area is removed last in either case. *)
Theorem copy_cleans_up (text : string) :
  let effects := fst (copy text) in
  snd (copy text) = Extension.Returned tt
  /\ (text = "" -> effects = [])
  /\ (text <> "" -> clipboard = true ->
        effects = WriteText text ::
                  match writeText text with
                  | Extension.Returned _ => []
                  | Extension.Threw _ => [Alert "클립보드 복사에 실패했습니다."]
                  end)
  /\ (text <> "" -> clipboard = false ->
        exists before,
          effects =
            ([CreateElement "textarea"; SetValue text] ++ before ++
             [AppendChild; Select; ExecCommand "copy"] ++
             match execCommand "copy" with
             | Extension.Returned _ => []
             | Extension.Threw _ => [Alert "클립보드 복사에 실패했습니다."]
             end ++ [RemoveChild])%list
          /\ Forall (fun e => exists property value, e = SetStyle property value)
               before).
Proof.
  cbv zeta. unfold copy, handleCopyText.
  destruct (text =? "")%string eqn:E.
  { apply String.eqb_eq in E. repeat apply conj; auto; congruence. }
  apply String.eqb_neq in E.
  destruct clipboard.
  - destruct (writeText text); repeat apply conj; try reflexivity;
      try congruence; discriminate.
  - destruct (execCommand "copy"); repeat apply conj; try reflexivity;
      try congruence; try discriminate; intros _ _;
      exists [SetStyle "position" "fixed"; SetStyle "left" "-9999px"];
      (split; [reflexivity | repeat constructor; eauto]).
Qed.

(** X21.  The review text of a result whose [review_summary] is a
    non-empty string is that string, and the copy-review button copies it;
    a result without a summary has no review text and the button's handler
    does nothing; without a result the copy-JSON handler does nothing, and
    with one it copies what [JSON.stringify] made of the result. *)
Theorem copy_buttons (resultData : JsValue) :
  let text := reviewText stringify String_ resultData in
  (forall summary,
     truthy resultData = true ->
     get resultData "review_summary" = JString summary -> summary <> "" ->
     text = Some summary
     /\ handleCopyReview clipboard writeText execCommand text = copy summary)
  /\ (truthy (get resultData "review_summary") = false ->
        text = None
        /\ handleCopyReview clipboard writeText execCommand text = ([], Extension.Returned tt))
  /\ (truthy resultData = false ->
        text = None
        /\ handleCopyJson clipboard writeText execCommand stringify resultData
           = ([], Extension.Returned tt))
  /\ (forall json,
        truthy resultData = true -> stringify resultData = Extension.Returned json ->
        handleCopyJson clipboard writeText execCommand stringify resultData
        = copy json).
Proof.
  cbv zeta. unfold reviewText, handleCopyJson, handleCopyReview.
  repeat apply conj.
  - intros summary T G N. rewrite T, G. cbn [negb truthy].
    apply String.eqb_neq in N. rewrite N. cbn [negb]. rewrite N.
    split; reflexivity.
  - intros G. rewrite G. cbn [negb].
    destruct (negb (truthy resultData)); split; reflexivity.
  - intros T. rewrite T. split; reflexivity.
  - intros json T J. rewrite T, J. reflexivity.
Qed.

End Copying.

Import Nonce.

(** ** The nonce *)

Lemma digits2_pos_le (m : positive) :
  (2 ^ (Zpos (digits2_pos m) - 1) <= Zpos m)%Z.
Proof.
  induction m as [m IH | m IH |]; cbn [digits2_pos].
  - rewrite Pos2Z.inj_succ.
    replace (Z.succ (Zpos (digits2_pos m)) - 1)%Z
      with (Z.succ (Zpos (digits2_pos m) - 1))%Z by lia.
    rewrite Z.pow_succ_r by lia. lia.
  - rewrite Pos2Z.inj_succ.
    replace (Z.succ (Zpos (digits2_pos m)) - 1)%Z
      with (Z.succ (Zpos (digits2_pos m) - 1))%Z by lia.
    rewrite Z.pow_succ_r by lia. lia.
  - reflexivity.
Qed.

Section Shift.

(** The mantissa the shifts start from. *)
Variable m0 : Z.

Lemma shr_1_kept (k : Z) (mrs : shr_record) :
  (0 <= k)%Z -> kept m0 k mrs -> kept m0 (k + 1) (shr_1 mrs).
Proof.
  intros K [N B]. unfold kept.
  rewrite Z.pow_add_r, Z.pow_1_r by lia.
  assert (Q : (0 < 2 ^ k)%Z) by (apply Z.pow_pos_nonneg; lia).
  set (q := (2 ^ k)%Z) in *.
  assert (R : (0 <= if shr_r mrs then q else 0)%Z) by (destruct (shr_r mrs); lia).
  destruct mrs as [m r s]. cbn [shr_m shr_r] in *.
  destruct m as [| p | p]; [| destruct p as [p | p |] | lia]; cbn [shr_1 shr_m shr_r].
  - split; lia.
  - split; [lia|]. rewrite Pos2Z.inj_xI in B. nia.
  - split; [lia|]. rewrite Pos2Z.inj_xO in B. nia.
  - split; [lia|]. nia.
Qed.

Lemma iter_kept (p : positive) :
  forall k mrs, (0 <= k)%Z -> kept m0 k mrs ->
                kept m0 (k + Zpos p) (iter_pos shr_1 p mrs).
Proof.
  induction p as [p IH | p IH |]; intros k mrs K H; cbn [iter_pos].
  - replace (k + Zpos p~1)%Z with (k + 1 + Zpos p + Zpos p)%Z by lia.
    apply IH; [lia|]. apply IH; [lia|]. apply shr_1_kept; assumption.
  - replace (k + Zpos p~0)%Z with (k + Zpos p + Zpos p)%Z by lia.
    apply IH; [lia|]. apply IH; assumption.
  - apply shr_1_kept; assumption.
Qed.

Lemma shr_kept (e n : Z) :
  (0 <= m0)%Z ->
  let result := shr (shr_record_of_loc m0 loc_Exact) e n in
  kept m0 (snd result - e) (fst result)
  /\ (snd result - e = Z.max 0 n)%Z.
Proof.
  intros N. cbv zeta.
  assert (S : kept m0 0 (shr_record_of_loc m0 loc_Exact)).
  { unfold kept. cbn. lia. }
  unfold shr. destruct n as [| p | p]; cbn [fst snd].
  - replace (e - e)%Z with 0%Z by lia. split; [exact S | lia].
  - replace (e + Zpos p - e)%Z with (0 + Zpos p)%Z by lia.
    split; [apply iter_kept; [lia | exact S] | lia].
  - replace (e - e)%Z with 0%Z by lia. split; [exact S | lia].
Qed.

End Shift.

Lemma round_nearest_even_kept (m0 k : Z) (mrs : shr_record) :
  (0 <= k)%Z -> kept m0 k mrs ->
  let m1 := round_nearest_even (shr_m mrs) (loc_of_shr_record mrs) in
  (0 <= m1 /\ 2 * 2 ^ k * m1 <= 2 * m0 + 2 ^ k)%Z.
Proof.
  intros K [N B]. cbv zeta.
  assert (Q : (0 < 2 ^ k)%Z) by (apply Z.pow_pos_nonneg; lia).
  destruct mrs as [m r s]. cbn [shr_m shr_r] in *.
  unfold round_nearest_even, loc_of_shr_record.
  destruct r, s; try destruct (Z.even m); split; nia.
Qed.

(** The product of a mantissa and exponent, rounded: what comes out stays
    within half a unit of the first shift. *)
Lemma binary_round_aux_bound (P E : Z) :
  (0 < P)%Z ->
  (fexp prec emax (Zdigits2 P + E) - E <= 53)%Z ->
  exists m2 e2,
    binary_round_aux prec emax false P E loc_Exact
    = match m2 with
      | Z0 => S754_zero false
      | Zpos m => if (e2 <=? emax - prec)%Z then S754_finite false m e2
                  else S754_infinity false
      | Zneg _ => S754_nan
      end
    /\ (0 <= m2)%Z /\ (E <= e2)%Z
    /\ (2 * m2 * 2 ^ (e2 - E) <= 2 * P + 2 ^ 53)%Z.
Proof.
  intros HP Hn. unfold binary_round_aux, shr_fexp.
  set (n := (fexp prec emax (Zdigits2 P + E) - E)%Z) in *.
  pose proof (shr_kept P E n (Z.lt_le_incl _ _ HP)) as [K1 D1]. cbv zeta in K1, D1.
  destruct (shr (shr_record_of_loc P loc_Exact) E n) as [mrs' e'].
  cbn [fst snd] in K1, D1.
  assert (G1 : (0 <= e' - E)%Z) by lia.
  pose proof (round_nearest_even_kept P (e' - E) mrs' G1 K1) as [N1 B1].
  cbv zeta in N1, B1.
  set (m1 := round_nearest_even (shr_m mrs') (loc_of_shr_record mrs')) in *.
  set (n2 := (fexp prec emax (Zdigits2 m1 + e') - e')%Z).
  pose proof (shr_kept m1 e' n2 N1) as [K2 D2]. cbv zeta in K2, D2.
  destruct (shr (shr_record_of_loc m1 loc_Exact) e' n2) as [mrs'' e''].
  cbn [fst snd] in K2, D2.
  exists (shr_m mrs''), e''.
  split; [reflexivity|].
  destruct K2 as [N2 B2].
  split; [exact N2|]. split; [lia|].
  replace (e'' - E)%Z with ((e'' - e') + (e' - E))%Z by lia.
  rewrite Z.pow_add_r by lia.
  assert (Q1 : (0 < 2 ^ (e' - E))%Z) by (apply Z.pow_pos_nonneg; lia).
  assert (Q2 : (0 < 2 ^ (e'' - e'))%Z) by (apply Z.pow_pos_nonneg; lia).
  assert (L : (2 ^ (e' - E) <= 2 ^ 53)%Z) by (apply Z.pow_le_mono_r; lia).
  assert (R : (0 <= if shr_r mrs'' then 2 ^ (e'' - e') else 0)%Z)
    by (destruct (shr_r mrs''); lia).
  set (a := (2 ^ (e' - E))%Z) in *. set (b := (2 ^ (e'' - e'))%Z) in *.
  set (c := (2 ^ 53)%Z) in *. set (x := shr_m mrs'') in *.
  assert (X : (2 * b * x <= 2 * m1)%Z) by lia.
  nia.
Qed.

Lemma possible_length :
  of_Z (Z.of_nat (String.length possible)) = 62.
Proof. reflexivity. Qed.

Lemma Prim2SF_one : Prim2SF 1 = S754_finite false 4503599627370496 (-52).
Proof. vm_compute. reflexivity. Qed.

Lemma Prim2SF_sixty_two :
  Prim2SF 62 = S754_finite false 8725724278030336 (-47).
Proof. vm_compute. reflexivity. Qed.

(** The integers below 62 as numbers, read back. *)
Lemma ToIntegerOrInfinity_of_Z (n : Z) :
  (0 <= n < 62)%Z -> ToIntegerOrInfinity (of_Z n) = Some n.
Proof.
  intros H.
  assert (C : forallb (fun k => match ToIntegerOrInfinity (of_Z (Z.of_nat k)) with
                                | Some z => (z =? Z.of_nat k)%Z
                                | None => false
                                end) (seq 0 62) = true)
    by (vm_compute; reflexivity).
  rewrite forallb_forall in C. specialize (C (Z.to_nat n)).
  rewrite Z2Nat.id in C by lia.
  assert (I : In (Z.to_nat n) (seq 0 62)) by (apply in_seq; lia).
  specialize (C I).
  destruct (ToIntegerOrInfinity (of_Z n)); [|discriminate].
  apply Z.eqb_eq in C. congruence.
Qed.

(** A number of [0, 1) times 62, floored, is an index into [possible]. *)
Lemma random_index (r : float) :
  (0 <=? r) = true -> (r <? 1) = true ->
  exists k, ToIntegerOrInfinity (Math_floor (r * 62)) = Some k
            /\ (0 <= k < 62)%Z.
Proof.
  rewrite FloatAxioms.leb_spec, FloatAxioms.ltb_spec, Prim2SF_zero, Prim2SF_one.
  pose proof (Prim2SF_valid r) as V.
  pose proof (FloatAxioms.mul_spec r 62) as T. rewrite Prim2SF_sixty_two in T.
  set (t := r * 62) in *.
  assert (Z0 : forall s, Prim2SF t = S754_zero s ->
               exists k, ToIntegerOrInfinity (Math_floor t) = Some k
                         /\ (0 <= k < 62)%Z).
  { intros s E. exists 0%Z. unfold Math_floor. rewrite E.
    unfold ToIntegerOrInfinity. rewrite E. split; [reflexivity | lia]. }
  destruct (Prim2SF r) as [s | s | | s m e]; intros L U.
  - apply (Z0 (xorb s false)). exact T.
  - destruct s; discriminate.
  - discriminate.
  - destruct s; [discriminate|]. clear L.
    pose proof (valid_mantissa_bound _ _ _ V) as M.
    unfold SpecFloat.valid_binary, bounded, canonical_mantissa, fexp, emin in V.
    apply andb_prop in V. destruct V as [V _]. apply Z.eqb_eq in V.
    change prec with 53%Z in V. change emax with 1024%Z in V.
    pose proof (digits2_pos_le m) as DL. pose proof (digits2_pos_gt m) as DG.
    set (dm := Zpos (digits2_pos m)) in *.
    assert (E53 : (e <= -53)%Z).
    { apply SFltb_pos_iff in U. destruct U as [U | [U1 U2]]; [lia|].
      subst e. assert (dm = 53)%Z by lia.
      replace (dm - 1)%Z with 52%Z in DL by lia.
      change (2 ^ 52)%Z with 4503599627370496%Z in DL. lia. }
    assert (Emin : (-1074 <= e)%Z) by lia.
    assert (Dm : (dm <= 53)%Z) by lia.
    (* the product, before rounding *)
    unfold SF64mul, SFmul in T. cbn [xorb] in T.
    set (m62 := 8725724278030336%positive) in *.
    set (P := Zpos (m * m62)) in *.
    set (E := (e + -47)%Z) in *.
    assert (PP : (P = Zpos m * Zpos m62)%Z) by reflexivity.
    assert (HP : (0 < P)%Z) by reflexivity.
    pose proof (digits2_pos_le (m * m62)) as PL. fold P in PL.
    assert (Hn : (fexp prec emax (Zdigits2 P + E) - E <= 53)%Z).
    { unfold fexp, emin. change prec with 53%Z. change emax with 1024%Z.
      change (Zdigits2 P) with (Zpos (digits2_pos (m * m62))).
      set (dP := Zpos (digits2_pos (m * m62))) in *.
      assert (dP <= dm + 53)%Z.
      { assert (B : (P < 2 ^ (dm + 53))%Z).
        { rewrite Z.pow_add_r by lia. rewrite PP.
          assert (Zpos m62 < 2 ^ 53)%Z by reflexivity. nia. }
        assert (X : (2 ^ (dP - 1) < 2 ^ (dm + 53))%Z) by lia.
        apply Z.pow_lt_mono_r_iff in X; lia. }
      unfold E. lia. }
    destruct (binary_round_aux_bound P E HP Hn) as (m2 & e2 & R & N2 & G & B).
    rewrite R in T. clear R.
    (* the bound, against 62 *)
    set (A := (2 ^ (- e))%Z).
    assert (A53 : (2 ^ 53 <= A)%Z) by (apply Z.pow_le_mono_r; lia).
    assert (EA : (2 ^ (- E) = 2 ^ 47 * A)%Z).
    { unfold E, A. replace (- (e + -47))%Z with (47 + - e)%Z by lia.
      apply Z.pow_add_r; lia. }
    assert (S62 : (2 * m2 * 2 ^ (e2 - E) < 2 * (62 * 2 ^ (- E)))%Z).
    { rewrite EA. change (2 ^ 53)%Z with 9007199254740992%Z in *.
      change (2 ^ 47)%Z with 140737488355328%Z.
      assert (Zpos m62 = 62 * 140737488355328)%Z by reflexivity.
      assert (Zpos m <= A - 1)%Z by lia.
      nia. }
    assert (Q : (0 < 2 ^ (e2 - E))%Z) by (apply Z.pow_pos_nonneg; lia).
    destruct m2 as [| m' |]; [apply (Z0 false); exact T | | lia].
    assert (E6 : (e2 < 6)%Z).
    { assert (X : (2 ^ (e2 - E) < 2 ^ (6 - E))%Z).
      { replace (6 - E)%Z with (6 + - E)%Z by lia.
        rewrite Z.pow_add_r by (unfold E; lia).
        change (2 ^ 6)%Z with 64%Z.
        assert (0 < 2 ^ (- E))%Z by (apply Z.pow_pos_nonneg; unfold E; lia).
        nia. }
      apply Z.pow_lt_mono_r_iff in X; unfold E in *; lia. }
    assert (F : (e2 <=? emax - prec)%Z = true).
    { apply Z.leb_le. change (emax - prec)%Z with 971%Z. lia. }
    rewrite F in T.
    unfold Math_floor. rewrite T.
    destruct (Z.leb_spec 0 e2) as [P0 | P0].
    + unfold ToIntegerOrInfinity. rewrite T.
      destruct (Z.leb_spec 0 e2) as [_ | ?]; [|lia].
      eexists. split; [reflexivity|].
      assert (X : (2 ^ (e2 - E) = 2 ^ e2 * 2 ^ (- E))%Z).
      { replace (e2 - E)%Z with (e2 + - E)%Z by lia.
        apply Z.pow_add_r; unfold E; lia. }
      assert (0 < 2 ^ (- E))%Z by (apply Z.pow_pos_nonneg; unfold E; lia).
      assert (0 < 2 ^ e2)%Z by (apply Z.pow_pos_nonneg; lia).
      rewrite X in S62. nia.
    + assert (X : (2 ^ (- E) = 2 ^ (- e2) * 2 ^ (e2 - E))%Z).
      { replace (- E)%Z with (- e2 + (e2 - E))%Z at 1 by lia.
        apply Z.pow_add_r; lia. }
      assert (D : (0 < 2 ^ (- e2))%Z) by (apply Z.pow_pos_nonneg; lia).
      assert (K : (0 <= Zpos m' / 2 ^ (- e2) < 62)%Z).
      { split; [apply Z.div_pos; lia|].
        apply Z.div_lt_upper_bound; [exact D|].
        rewrite X in S62. nia. }
      cbv zeta.
      destruct (Z.eqb_spec (Zpos m' / 2 ^ (- e2)) 0) as [Y | Y].
      * exists 0%Z. split; [reflexivity | lia].
      * exists (Zpos m' / 2 ^ (- e2))%Z.
        split; [apply ToIntegerOrInfinity_of_Z; exact K | exact K].
Qed.

Lemma get_chars (s : string) (n : nat) (c : ascii) :
  String.get n s = Some c -> In c (chars s).
Proof.
  revert n. induction s as [| d s IH]; intros n H; [discriminate|].
  destruct n as [| n]; cbn in H.
  - injection H as ->. left. reflexivity.
  - right. apply (IH n H).
Qed.

Lemma get_in_range (s : string) (n : nat) :
  (n < String.length s)%nat -> exists c, String.get n s = Some c.
Proof.
  revert n. induction s as [| d s IH]; intros n H; cbn in H; [lia|].
  destruct n as [| n]; cbn; [eauto|]. apply IH. lia.
Qed.

Lemma charAt_cases (s : string) (pos : float) :
  charAt s pos = "" \/ exists c, charAt s pos = String c "" /\ In c (chars s).
Proof.
  unfold charAt. destruct (ToIntegerOrInfinity pos) as [n|]; [|auto].
  destruct ((0 <=? n)%Z && (n <? Z.of_nat (String.length s))%Z); [|auto].
  destruct (String.get (Z.to_nat n) s) as [c|] eqn:G; [|auto].
  right. exists c. split; [reflexivity | exact (get_chars _ _ _ G)].
Qed.

Lemma charAt_in_range (s : string) (pos : float) (k : Z) :
  ToIntegerOrInfinity pos = Some k ->
  (0 <= k < Z.of_nat (String.length s))%Z ->
  exists c, charAt s pos = String c "" /\ In c (chars s).
Proof.
  intros T R. unfold charAt. rewrite T.
  assert (B : ((0 <=? k)%Z && (k <? Z.of_nat (String.length s))%Z) = true).
  { apply andb_true_iff. split; [apply Z.leb_le | apply Z.ltb_lt]; lia. }
  rewrite B.
  destruct (get_in_range s (Z.to_nat k)) as [c G]; [lia|].
  rewrite G. exists c. split; [reflexivity | exact (get_chars _ _ _ G)].
Qed.

Lemma length_append (a b : string) :
  String.length (a ++ b) = (String.length a + String.length b)%nat.
Proof. induction a as [| c a IH]; cbn; [reflexivity | rewrite IH; reflexivity]. Qed.

Section Draws.

Variable random : nat -> float.

Let draw (i : nat) : string :=
  charAt possible
    (Math_floor (random i * of_Z (Z.of_nat (String.length possible)))).

Lemma loop_shape (count : nat) :
  forall i text,
    Forall (fun c => In c (chars possible)) (chars text) ->
    let nonce := loop random count i text in
    Forall (fun c => In c (chars possible)) (chars nonce)
    /\ (String.length nonce <= String.length text + count)%nat
    /\ ((forall j, (i <= j < i + count)%nat ->
           (0 <=? random j) = true /\ (random j <? 1) = true) ->
        String.length nonce = (String.length text + count)%nat).
Proof.
  induction count as [| count IH]; intros i text H; cbv zeta; cbn [loop].
  - repeat split; [exact H | lia | intros _; lia].
  - fold (draw i).
    assert (D : Forall (fun c => In c (chars possible)) (chars (text ++ draw i))).
    { rewrite chars_append. apply Forall_app. split; [exact H|].
      destruct (charAt_cases possible
                  (Math_floor (random i * of_Z (Z.of_nat (String.length possible)))))
        as [E | (c & E & C)]; unfold draw; rewrite E;
        [constructor | constructor; [exact C | constructor]]. }
    destruct (IH (S i) (text ++ draw i) D) as (F & L & X). cbv zeta in F, L, X.
    assert (L1 : (String.length (draw i) <= 1)%nat).
    { destruct (charAt_cases possible
                  (Math_floor (random i * of_Z (Z.of_nat (String.length possible)))))
        as [E | (c & E & _)]; unfold draw; rewrite E; cbn; lia. }
    rewrite length_append in L, X.
    split; [exact F|]. split; [lia|].
    intros R.
    assert (L2 : String.length (draw i) = 1%nat).
    { destruct (R i) as [R0 R1]; [lia|].
      destruct (random_index (random i) R0 R1) as (k & T & K).
      destruct (charAt_in_range possible _ k T) as (c & E & _).
      { change (Z.of_nat (String.length possible)) with 62%Z. exact K. }
      unfold draw. rewrite possible_length, E. reflexivity. }
    rewrite X; [lia|]. intros j J. apply R. lia.
Qed.

End Draws.

(** X22.  Whatever [Math.random] returns, the nonce consists of letters and
    digits only and is at most 32 characters long; when every value drawn
    is in [0, 1), as [Math.random] promises, the nonce is exactly 32
    characters long (no draw, scaled by 62 and floored in binary64, falls
    outside the alphabet). *)
Theorem getNonce_alphanumeric (random : nat -> float) :
  let nonce := getNonce random in
  Forall (fun c => alphanumeric c = true) (chars nonce)
  /\ (String.length nonce <= 32)%nat
  /\ ((forall i, (i < 32)%nat ->
         (0 <=? random i) = true /\ (random i <? 1) = true) ->
      String.length nonce = 32%nat).
Proof.
  cbv zeta. unfold getNonce.
  destruct (loop_shape random 32 0 "" (Forall_nil _)) as (F & L & X).
  cbv zeta in F, L, X.
  split; [| split; [exact L|]].
  - eapply Forall_impl; [|exact F].
    intros c I.
    assert (A : forallb alphanumeric (chars possible) = true) by reflexivity.
    rewrite forallb_forall in A. exact (A c I).
  - intros R. apply X. intros j J. apply R. lia.
Qed.

(** ** Closed examples *)

(** The submission of [x=1] with a model chosen. *)
Lemma analyze_submits_witness :
  let w := App.step sampleToNumber sampleTrim true App.AnalyzeClick
             (sample_surface true code_ready) in
  App.posted w = [sample_request] /\ App.isLoading (App.state w) = true.
Proof.
  assert (C : sampleTrim (App.code (App.state (sample_surface true code_ready)))
              <> "") by discriminate.
  assert (M : App.selectedModel (App.state (sample_surface true code_ready))
              <> "") by discriminate.
  pose proof (analyze_submits sampleToNumber sampleTrim true
                (sample_surface true code_ready) App.AnalyzeClick
                (or_introl eq_refl) eq_refl C M eq_refl) as H.
  cbv zeta in H. destruct H as (P & L & _). split; [exact P | exact L].
Defined.

(** The same click in a page without the VS Code API. *)
Lemma analyze_without_api_witness :
  let w := App.step sampleToNumber sampleTrim false App.AnalyzeClick
             (sample_surface false code_ready) in
  App.posted w = [] /\ App.isError (App.state w) = true.
Proof.
  assert (C : sampleTrim (App.code (App.state (sample_surface false code_ready)))
              <> "") by discriminate.
  assert (M : App.selectedModel (App.state (sample_surface false code_ready))
              <> "") by discriminate.
  pose proof (analyze_without_api sampleToNumber sampleTrim false
                (sample_surface false code_ready) App.AnalyzeClick
                (or_introl eq_refl) eq_refl C M eq_refl) as H.
  cbv zeta in H. destruct H as (P & E & _). split; [exact P | exact E].
Defined.

(** A second click while the first request is loading. *)
Lemma no_submit_while_loading_witness :
  App.step sampleToNumber sampleTrim true App.AnalyzeClick
    (sample_surface true submitting)
  = sample_surface true submitting.
Proof.
  apply (no_submit_while_loading sampleToNumber sampleTrim true
           (sample_surface true submitting) App.AnalyzeClick
           (or_introl eq_refl) eq_refl).
Defined.

(** Analyze without a model, then the model, then analyze again. *)
Lemma model_choice_recovers_witness :
  App.posted
    (App.run sampleToNumber sampleTrim true
       [App.AnalyzeClick; App.ModelChange "gpt-4.1-mini"; App.AnalyzeClick]
       (sample_surface true code_arrived))
  = [sample_request].
Proof.
  assert (C : sampleTrim (App.code (App.state (sample_surface true code_arrived)))
              <> "") by discriminate.
  assert (M : "gpt-4.1-mini" <> "") by discriminate.
  pose proof (model_choice_recovers sampleToNumber sampleTrim true
                (sample_surface true code_arrived) "gpt-4.1-mini"
                eq_refl C eq_refl M eq_refl) as H.
  cbv zeta in H. destruct H as (_ & _ & _ & _ & _ & _ & P & _). exact P.
Defined.

(** While the request of [x=1] is loading. *)
Lemma loading_locks_tabs_witness :
  App.activeTab (App.state (sample_surface true submitting)) = App.tab_result
  /\ View.disabled App.tab_code (App.state (sample_surface true submitting))
     = true.
Proof.
  pose proof (loading_locks_tabs sampleToNumber sampleTrim true submitting
                eq_refl) as (A & D & _).
  split; [exact A | exact D].
Defined.

(** After analyze was clicked with no model chosen. *)
Lemma model_error_without_model_witness :
  App.selectedModel
    (App.state (sample_surface true (code_arrived ++ [App.AnalyzeClick])%list))
  = "".
Proof.
  apply (model_error_without_model sampleToNumber sampleTrim true
           (code_arrived ++ [App.AnalyzeClick])%list eq_refl).
Defined.

(** [REQUEST_FULL_DOCUMENT] with the sample editor open: the whole document,
    not the selection. *)
Lemma full_document_with_editor_witness :
  posts (Extension.actions
           (Extension.onDidReceiveMessage sampleTrim failing_service
              sample_panel (Some sample_editor)
              (Some {| type := "REQUEST_FULL_DOCUMENT"; payload := None |})))
  = [NEW_CODE (NewCode.mk "x=1; y=2" "/work/main.py" "/work/main.py" "python"
                 document)].
Proof.
  pose proof (full_document_with_editor sampleTrim failing_service sample_panel
                sample_editor
                {| type := "REQUEST_FULL_DOCUMENT"; payload := None |} eq_refl)
    as H.
  cbv zeta in H. destruct H as (_ & H & _).
  rewrite H; [reflexivity | discriminate].
Defined.

(** The request the sample run posts, served by the failing service. *)
Lemma surface_requests_served_witness :
  posts (Extension.actions
           (Extension.onDidReceiveMessage sampleTrim failing_service
              sample_panel None (Some sample_request)))
  = [progress_notice; ANALYZE_ERROR "HTTP 500: internal error"].
Proof.
  assert (I : In sample_request
                (App.posted (App.run sampleToNumber sampleTrim true submitting
                               (App.mount sampleToNumber))))
    by (vm_compute; left; reflexivity).
  destruct (surface_requests_served sampleToNumber sampleTrim true
              failing_service submitting sample_panel None sample_request I)
    as (code & filePath & languageId & model & E & _ & _ & R).
  rewrite R. reflexivity.
Defined.


(** From the sample editor to the body of the request. *)
Lemma review_pipeline_witness :
  exists m,
    App.posted
      (App.step sampleToNumber sampleTrim true App.AnalyzeClick
         (App.step sampleToNumber sampleTrim true
            (App.ModelChange "gpt-4.1-mini")
            (App.run sampleToNumber sampleTrim true
               (deliver (snd (Extension.analyzeSelection sampleTrim
                                (Some sample_editor) None)))
               (App.mount sampleToNumber))))
    = [m]
    /\ fetches (Extension.actions
                  (Extension.onDidReceiveMessage sampleTrim failing_service
                     sample_panel None (Some m)))
       = [(Extension.REVIEW_API_URL,
           request "x=1" "/work/main.py" "python" "gpt-4.1-mini")].
Proof.
  assert (C : sampleTrim (code_of sample_editor) <> "") by discriminate.
  assert (M : "gpt-4.1-mini" <> "") by discriminate.
  pose proof (review_pipeline sampleToNumber sampleTrim true failing_service
                sample_editor None (App.mount sampleToNumber) "gpt-4.1-mini"
                C M eq_refl) as H.
  cbv zeta in H. destruct H as (_ & m & P & F).
  exists m. split; [exact P | exact (F sample_panel None)].
Defined.

(** The code [x=1] retyped as [y=2], then analyzed. *)
Lemma edited_code_is_submitted_witness :
  let w := App.step sampleToNumber sampleTrim true App.AnalyzeClick
             (App.step sampleToNumber sampleTrim true (App.CodeChange "y=2")
                (sample_surface true code_ready)) in
  App.posted w =
    [ {| type := "REQUEST_ANALYZE";
         payload := Some (Request.mk (Some "y=2") (Some "/work/main.py")
                            (Some "python") (Some "gpt-4.1-mini")) |} ].
Proof.
  assert (C : sampleTrim "y=2" <> "") by discriminate.
  assert (M : App.selectedModel (App.state (sample_surface true code_ready))
              <> "") by discriminate.
  pose proof (edited_code_is_submitted sampleToNumber sampleTrim true
                (sample_surface true code_ready) "y=2" eq_refl C M eq_refl)
    as H.
  cbv zeta in H. destruct H as (_ & _ & _ & _ & _ & _ & P & _). exact P.
Defined.
